(** * nox-maps: log tailer, state engine and zone map loader

    A shallow embedding of the three core packages of nox-maps
    ([internal/eqlog], [internal/parser], [internal/maps]) and the
    properties their specification states about them.

    Conventions.
    - A Go [string] is a byte sequence; it is modelled by [string] (a list of
      [ascii] bytes).  Every character the code looks for is ASCII, and no
      ASCII byte occurs inside a multi-byte UTF-8 sequence, so scanning bytes
      and scanning runes find the same positions.
    - A Go [float64] is a binary64 value: [float] with the IEEE operations of
      [PrimFloat].  [strconv.ParseFloat] and [math.Atan2] belong to Go's
      library; the code is embedded over any two functions of their types
      (the class [GoLib]), and evaluated with [ParseDecimal] on examples.
    - A Go [int] is taken to be 64 bits wide and is modelled by [Z]
      with the saturation [strconv.Atoi] performs.
    - [fmt.Printf] calls only log and are left out. *)

From Stdlib Require Import ZArith String Ascii List Bool Floats Lia.
From Stdlib Require Import Sorting.Permutation Sorting.Sorted.
From stdpp Require Import gmap strings.
From stdpp Require Import pretty.
Import ListNotations.

Open Scope string_scope.

(** ** Go's [strings] package, on bytes *)

Module GoStrings.

(** [CutPrefix s p]: the rest of [s] after the literal [p], when [s] starts
    with [p]. *)
Fixpoint CutPrefix (s p : string) {struct p} : option string :=
  match p with
  | EmptyString => Some s
  | String c p' =>
      match s with
      | EmptyString => None
      | String d s' => if Ascii.eqb c d then CutPrefix s' p' else None
      end
  end.

Definition HasPrefix (s p : string) : bool :=
  match CutPrefix s p with Some _ => true | None => false end.

(** [strings.Contains]: [sub] occurs at some offset of [s]. *)
Fixpoint Contains (s sub : string) : bool :=
  if HasPrefix s sub then true
  else match s with
       | EmptyString => false
       | String _ s' => Contains s' sub
       end.

(** [strings.HasSuffix]: [len(s) >= len(suffix) && s[len(s)-len(suffix):] == suffix]. *)
Definition HasSuffix (s suffix : string) : bool :=
  (String.length suffix <=? String.length s)%nat
  && String.eqb (substring (String.length s - String.length suffix)
                           (String.length suffix) s) suffix.

(** White space as [unicode.IsSpace] has it.  One byte: tab, line feed,
    vertical tab, form feed, carriage return, space. *)
Definition isSpace1 (c : ascii) : bool :=
  let n := nat_of_ascii c in
  ((9 <=? n) && (n <=? 13))%nat || (n =? 32)%nat.

(** Two bytes: U+0085 and U+00A0. *)
Definition isSpace2 (c d : ascii) : bool :=
  let n := nat_of_ascii c in
  let m := nat_of_ascii d in
  (n =? 194)%nat && ((m =? 133)%nat || (m =? 160)%nat).

(** Three bytes: U+1680, U+2000 to U+200A, U+2028, U+2029, U+202F, U+205F
    and U+3000. *)
Definition isSpace3 (c d e : ascii) : bool :=
  let n := nat_of_ascii c in
  let m := nat_of_ascii d in
  let k := nat_of_ascii e in
  ((n =? 225) && (m =? 154) && (k =? 128))%nat
  || ((n =? 226) && (m =? 128)
      && (((128 <=? k) && (k <=? 138)) || (k =? 168) || (k =? 169) || (k =? 175)))%nat
  || ((n =? 226) && (m =? 129) && (k =? 159))%nat
  || ((n =? 227) && (m =? 128) && (k =? 128))%nat.

(** Drop the white space at the head of [s].  With [back] the bytes of [s]
    are in reverse order (the head of [s] is the last byte of a string), so
    a multi-byte character is met last byte first. *)
Fixpoint dropSpace (back : bool) (s : string) : string :=
  match s with
  | EmptyString => s
  | String c r =>
      if isSpace1 c then dropSpace back r
      else
        match r with
        | EmptyString => s
        | String d r1 =>
            if (if back then isSpace2 d c else isSpace2 c d) then dropSpace back r1
            else
              match r1 with
              | EmptyString => s
              | String e r2 =>
                  if (if back then isSpace3 e d c else isSpace3 c d e)
                  then dropSpace back r2
                  else s
              end
        end
  end.

Fixpoint revOnto (s acc : string) : string :=
  match s with
  | EmptyString => acc
  | String c r => revOnto r (String c acc)
  end.

Definition reverse (s : string) : string := revOnto s EmptyString.

(** [strings.TrimSpace]: leading and trailing white space removed. *)
Definition TrimSpace (s : string) : string :=
  reverse (dropSpace true (reverse (dropSpace false s))).

Fixpoint inCutset (cutset : string) (c : ascii) : bool :=
  match cutset with
  | EmptyString => false
  | String d r => Ascii.eqb c d || inCutset r c
  end.

(** [strings.TrimLeft] for a cutset of ASCII bytes. *)
Fixpoint TrimLeft (s cutset : string) : string :=
  match s with
  | EmptyString => s
  | String c r => if inCutset cutset c then TrimLeft r cutset else s
  end.

(** [strings.Split] on a separator of one byte: the result is never
    empty: splitting the empty string gives one empty field. *)
Fixpoint Split (s : string) (sep : ascii) : list string :=
  match s with
  | EmptyString => [EmptyString]
  | String c r =>
      if Ascii.eqb c sep then EmptyString :: Split r sep
      else
        match Split r sep with
        | [] => [String c EmptyString]
        | f :: fs => String c f :: fs
        end
  end.

(** [strings.Join]. *)
Fixpoint Join (elems : list string) (sep : string) : string :=
  match elems with
  | [] => EmptyString
  | [e] => e
  | e :: rest => String.append e (String.append sep (Join rest sep))
  end.

(** [strings.ReplaceAll] for a non-empty [old]: occurrences are replaced
    from the left and do not overlap.  [skip] counts the bytes of the
    occurrence just replaced that are still to be passed over. *)
Fixpoint replaceFrom (skip : nat) (s old new : string) : string :=
  match s with
  | EmptyString => EmptyString
  | String c r =>
      match skip with
      | S k => replaceFrom k r old new
      | O =>
          if HasPrefix s old
          then String.append new (replaceFrom (String.length old - 1) r old new)
          else String c (replaceFrom O r old new)
      end
  end.

Definition ReplaceAll (s old new : string) : string := replaceFrom O s old new.

(** The line feed. *)
Definition LF : string := String "010" EmptyString.

End GoStrings.

(** ** The two patterns of the state engine

    Go's [regexp] returns the leftmost match and, at that start, prefers
    the longest repetition a greedy operator can take while the rest of the
    pattern still matches. *)

Module LogPatterns.
Import GoStrings.

(** The class [[0-9.-]]. *)
Definition isLocChar (c : ascii) : bool :=
  let n := nat_of_ascii c in
  ((48 <=? n) && (n <=? 57))%nat || Ascii.eqb c "." || Ascii.eqb c "-".

(** [[0-9.-]+] at the head of [s]: the run of class bytes and what follows.
    The byte after each group of the position pattern is [','] or the end
    of the match, neither in the class, so the greedy run is the maximal
    one. *)
Fixpoint spanLoc (s : string) : string * string :=
  match s with
  | EmptyString => (EmptyString, EmptyString)
  | String c r =>
      if isLocChar c then let '(run, rest) := spanLoc r in (String c run, rest)
      else (EmptyString, s)
  end.

Definition locGroup (s : string) : option (string * string) :=
  match spanLoc s with
  | (EmptyString, _) => None
  | (run, rest) => Some (run, rest)
  end.

(** [Your Location is ([0-9.-]+), ([0-9.-]+), ([0-9.-]+)] anchored at the
    head of [s]. *)
Definition locAt (s : string) : option (string * string * string) :=
  match CutPrefix s "Your Location is " with
  | None => None
  | Some r0 =>
      match locGroup r0 with
      | None => None
      | Some (m1, r1) =>
          match CutPrefix r1 ", " with
          | None => None
          | Some r2 =>
              match locGroup r2 with
              | None => None
              | Some (m2, r3) =>
                  match CutPrefix r3 ", " with
                  | None => None
                  | Some r4 =>
                      match locGroup r4 with
                      | None => None
                      | Some (m3, _) => Some (m1, m2, m3)
                      end
                  end
              end
          end
      end
  end.

(** [locRegex.FindStringSubmatch(line)]: the three groups of the leftmost
    match ([len(matches) == 4]), or [None] ([matches == nil]). *)
Fixpoint locFind (s : string) : option (string * string * string) :=
  match locAt s with
  | Some m => Some m
  | None =>
      match s with
      | EmptyString => None
      | String _ s' => locFind s'
      end
  end.

(** [.] matches any byte but a line feed. *)
Definition isDotChar (c : ascii) : bool := negb (Ascii.eqb c "010").

(** The longest prefix of [s] that [.*] can take. *)
Fixpoint spanDot (s : string) : string :=
  match s with
  | EmptyString => EmptyString
  | String c r => if isDotChar c then String c (spanDot r) else EmptyString
  end.

(** The part of [s] before its last period, when it has one. *)
Fixpoint beforeLastPeriod (s : string) : option string :=
  match s with
  | EmptyString => None
  | String c r =>
      match beforeLastPeriod r with
      | Some p => Some (String c p)
      | None => if Ascii.eqb c "." then Some EmptyString else None
      end
  end.

(** [(.+)\.] at the head of [s]: the group takes at least one byte and, being
    greedy, gives back as little as it must: it ends at the last period
    within reach. *)
Definition zoneGroup (s : string) : option string :=
  match spanDot s with
  | EmptyString => None
  | String c r =>
      match beforeLastPeriod r with
      | Some p => Some (String c p)
      | None => None
      end
  end.

(** [You have entered (.+)\.] anchored at the head of [s]. *)
Definition zoneAt (s : string) : option string :=
  match CutPrefix s "You have entered " with
  | None => None
  | Some r => zoneGroup r
  end.

(** The literal the zone pattern starts with. *)
Definition entered : string := "You have entered ".

(** [zoneRegex.FindStringSubmatch(line)]: the group of the leftmost match
    ([len(matches) == 2]), or [None]. *)
Fixpoint zoneFind (s : string) : option string :=
  match zoneAt s with
  | Some z => Some z
  | None =>
      match s with
      | EmptyString => None
      | String _ s' => zoneFind s'
      end
  end.

End LogPatterns.

(** ** Binary64 values and Go's library functions *)

Module Float64.

(** [x != x]: the value is a NaN. *)
Definition isNaN (x : float) : bool := negb (PrimFloat.eqb x x).

(** The constant [0.1] rounded to binary64, as the Go compiler converts it
    in [math.Abs(dx) > 0.1]. *)
Definition tenth : float := 0x1.999999999999ap-4%float.

(** Exact for [|n| < 2^53]. *)
Definition ofZ (n : Z) : float :=
  if (n <? 0)%Z then PrimFloat.opp (PrimFloat.of_uint63 (Uint63.of_Z (- n)))
  else PrimFloat.of_uint63 (Uint63.of_Z n).

End Float64.

(** The functions of Go's library the code calls and this development does
    not define: it holds for every choice of them.
    - [ParseFloat s] is the value [strconv.ParseFloat(s, 64)] returns; every
      caller drops the error.
    - [Atan2 y x] is [math.Atan2(y, x)].
    - [ToLower] is [strings.ToLower] and [Base] is [filepath.Base]. *)
Class GoLib := {
  ParseFloat : string -> float;
  Atan2 : float -> float -> float;
  ToLower : string -> string;
  Base : string -> string
}.

Module StrConv.
Import GoStrings.

Definition isDigit (c : ascii) : bool :=
  let n := nat_of_ascii c in ((48 <=? n) && (n <=? 57))%nat.

(** The number a string of decimal digits denotes, [None] when a byte is
    not a digit. *)
Fixpoint digitsValue (s : string) (acc : Z) : option Z :=
  match s with
  | EmptyString => Some acc
  | String c r =>
      if isDigit c
      then digitsValue r (acc * 10 + (Z.of_nat (nat_of_ascii c) - 48))%Z
      else None
  end.

Definition MaxInt64 : Z := (2 ^ 63 - 1)%Z.
Definition MinInt64 : Z := (- 2 ^ 63)%Z.
Definition maxUint64 : Z := (2 ^ 64 - 1)%Z.

(** The two errors of [strconv]. *)
Inductive NumError := ErrSyntax | ErrRange.

(** The loop of [strconv.ParseUint(s, 10, 64)] from the value [n]: a byte
    that is no digit gives 0 with [ErrSyntax]; a digit the value has no room
    for gives [maxUint64] with [ErrRange] at once, whatever bytes follow. *)
Fixpoint parseUintFrom (s : string) (n : Z) : Z * option NumError :=
  match s with
  | EmptyString => (n, None)
  | String c r =>
      if isDigit c then
        let d := (Z.of_nat (nat_of_ascii c) - 48)%Z in
        let cutoff := (maxUint64 / 10 + 1)%Z in
        if (cutoff <=? n)%Z then (maxUint64, Some ErrRange)
        else
          let n := (n * 10)%Z in
          let n1 := ((n + d) mod 2 ^ 64)%Z in
          if (n1 <? n)%Z || (maxUint64 <? n1)%Z then (maxUint64, Some ErrRange)
          else parseUintFrom r n1
      else (0%Z, Some ErrSyntax)
  end.

Definition ParseUint (s : string) : Z * option NumError :=
  match s with
  | EmptyString => (0%Z, Some ErrSyntax)
  | _ => parseUintFrom s 0
  end.

(** The value of [strconv.ParseInt(s, 10, 0)]. *)
Definition ParseInt (s : string) : Z :=
  match s with
  | EmptyString => 0%Z
  | String c r =>
      let neg := Ascii.eqb c "-" in
      let body := if Ascii.eqb c "+" || neg then r else s in
      let '(un, err) := ParseUint body in
      match err with
      | Some ErrSyntax => 0%Z
      | _ =>
          let cutoff := (2 ^ 63)%Z in
          if negb neg && (cutoff <=? un)%Z then (cutoff - 1)%Z
          else if neg && (cutoff <? un)%Z then (- cutoff)%Z
          else if neg then (- un)%Z else un
      end
  end.

(** The value [strconv.Atoi(s)] returns; the error is dropped by the
    caller.  A string of 1 to 18 bytes takes the fast path, any other goes
    to [ParseInt].  A syntax error gives 0, a value out of range gives the
    nearest [int64], also when a byte that is no digit follows the digits
    that overflow. *)
Definition Atoi (s : string) : Z :=
  let sLen := String.length s in
  if (0 <? sLen)%nat && (sLen <? 19)%nat then
    match s with
    | EmptyString => 0%Z
    | String c r =>
        let body := if Ascii.eqb c "-" || Ascii.eqb c "+" then r else s in
        if (String.length body <? 1)%nat then 0%Z
        else
          match digitsValue body 0 with
          | None => 0%Z
          | Some n => if Ascii.eqb c "-" then (- n)%Z else n
          end
    end
  else ParseInt s.

(** The conversion [uint8(i)]: the low eight bits. *)
Definition uint8 (i : Z) : Z := (i mod 256)%Z.

(** An instance of [ParseFloat] for the examples: the value
    [strconv.ParseFloat] returns on ["NaN"] and on one optional sign
    followed by one to fifteen decimal digits (such a number is a binary64
    value and is returned as it is).  On any other string this function
    gives 0, which need not be the value of [strconv.ParseFloat] there (it
    is 3 on ["3."]); no example states a number parsed from such a
    string. *)
Definition ParseDecimal (s : string) : float :=
  if String.eqb s "NaN" then PrimFloat.nan
  else
    match s with
    | EmptyString => PrimFloat.zero
    | String c r =>
        let neg := Ascii.eqb c "-" in
        let body := if neg || Ascii.eqb c "+" then r else s in
        if (String.length body =? 0)%nat || (15 <? String.length body)%nat
        then PrimFloat.zero
        else
          match digitsValue body 0 with
          | None => PrimFloat.zero
          | Some n =>
              let f := Float64.ofZ n in
              if neg then PrimFloat.opp f else f
          end
    end.

Definition isUpper (c : ascii) : bool :=
  let n := nat_of_ascii c in ((65 <=? n) && (n <=? 90))%nat.

(** Lower case for ASCII letters, other bytes unchanged. *)
Fixpoint lowerASCII (s : string) : string :=
  match s with
  | EmptyString => EmptyString
  | String c r =>
      String (if isUpper c then ascii_of_nat (nat_of_ascii c + 32) else c)
             (lowerASCII r)
  end.

(** The bytes after the last ['/'] of [s]. *)
Fixpoint afterLastSlash (s : string) : string :=
  match s with
  | EmptyString => EmptyString
  | String c r =>
      if Contains r "/" then afterLastSlash r
      else if Ascii.eqb c "/" then r else s
  end.

(** The instance the examples are evaluated with: [ParseDecimal]; a stand-in
    for [math.Atan2] that has none of its values (no example depends on
    them); [strings.ToLower] on ASCII strings; [filepath.Base] on a path
    that does not end with a separator. *)
Definition exampleLib : GoLib :=
  {| ParseFloat := ParseDecimal;
     Atan2 := fun y x => PrimFloat.div y x;
     ToLower := lowerASCII;
     Base := afterLastSlash |}.

End StrConv.

(** ** Package [eqlog]: the log tailer *)

Module Eqlog.
Import GoStrings LogPatterns.

(** [time.Time] is modelled by a clock reading. *)
Record LogLine := { Line : string; Time : Z }.

(** The buffered channel [Lines] is modelled by the list of the values it
    holds, oldest first. *)
Record Reader := {
  EqDir : string;
  Lines : list LogLine;
  InitialZone : string
}.

(** [make(chan LogLine, 1000)]. *)
Definition capacity : nat := 1000.

Definition NewReader (eqDir : string) : Reader :=
  {| EqDir := eqDir; Lines := []; InitialZone := EmptyString |}.

(** The scan of [detectInitialZone]: the group of the last line the zone
    pattern matches, the empty string when it matches none. *)
Definition lastZoneOf (lines : list string) : string :=
  fold_left (fun lastZone line =>
               match zoneFind line with
               | Some z => z
               | None => lastZone
               end) lines EmptyString.

(** [detectInitialZone]. [window] is what the scanner yields from the last
    50000 bytes of the newest log, line by line; it is [None] when
    [findLatestLog] or [os.Open] fails. *)
Definition detectInitialZone (r : Reader) (window : option (list string)) : Reader :=
  match window with
  | None => r
  | Some lines =>
      let lastZone := lastZoneOf lines in
      if negb (String.eqb lastZone EmptyString)
      then {| EqDir := EqDir r; Lines := Lines r; InitialZone := lastZone |}
      else r
  end.

(** [bufio.Reader.ReadString('\n')] on the bytes of the file that are not
    read yet: the data up to and with the first line feed, whether the line
    feed was found ([err == nil]), and the bytes left.  At the end of the
    file the data read so far come back with [io.EOF] and are consumed. *)
Fixpoint ReadString (unread : string) : string * bool * string :=
  match unread with
  | EmptyString => (EmptyString, false, EmptyString)
  | String c r =>
      if Ascii.eqb c "010" then (String c EmptyString, true, r)
      else let '(data, found, rest) := ReadString r in (String c data, found, rest)
  end.

(** The goroutine [pollAndRead] while one file stays open: the bytes of the
    file past the read offset, and the line it is blocked sending when the
    channel is full. *)
Record Tailer := {
  unread : string;
  sending : option LogLine
}.

(** One move of [pollAndRead] at clock reading [now]: complete the pending
    send if the channel has room (and wait otherwise), or else read one
    line.  A read that ends with an error drops what it returned; a line
    empty after [TrimSpace] is dropped. *)
Definition pollAndReadStep (now : Z) (r : Reader) (t : Tailer) : Reader * Tailer :=
  match sending t with
  | Some entry =>
      if (length (Lines r) <? capacity)%nat
      then ({| EqDir := EqDir r; Lines := Lines r ++ [entry];
               InitialZone := InitialZone r |},
            {| unread := unread t; sending := None |})
      else (r, t)
  | None =>
      let '(line, found, rest) := ReadString (unread t) in
      if negb found then (r, {| unread := rest; sending := None |})
      else
        let cleanLine := TrimSpace line in
        if negb (String.eqb cleanLine EmptyString)
        then (r, {| unread := rest;
                    sending := Some {| Line := cleanLine; Time := now |} |})
        else (r, {| unread := rest; sending := None |})
  end.

End Eqlog.

(** ** Package [parser]: the state engine

    [ProcessLines] as the repository has it now: the revision with the
    elevation, the corpse zone, the filter on zone names and the four
    recovery phrases, which [ui/window.go] builds against (it reads
    [CurrentState.Z] and [CurrentState.CorpseZone]). *)

Module Parser.
Import GoStrings LogPatterns.

Record PlayerState := {
  X : float; Y : float; Z : float;
  Heading : float;
  Zone : string;
  CorpseX : float;
  CorpseY : float;
  CorpseZone : string;
  HasCorpse : bool
}.

Record Engine := { CurrentState : PlayerState }.

(** [&Engine{}]: every field has its zero value. *)
Definition NewEngine : Engine :=
  {| CurrentState :=
       {| X := 0; Y := 0; Z := 0; Heading := 0; Zone := EmptyString;
          CorpseX := 0; CorpseY := 0; CorpseZone := EmptyString; HasCorpse := false |} |}.

(** The assignments of the loop body, field by field. *)
Definition setHeading (h : float) (s : PlayerState) : PlayerState :=
  {| X := X s; Y := Y s; Z := Z s; Heading := h; Zone := Zone s;
     CorpseX := CorpseX s; CorpseY := CorpseY s; CorpseZone := CorpseZone s;
     HasCorpse := HasCorpse s |}.

Definition setPosition (x y z : float) (s : PlayerState) : PlayerState :=
  {| X := x; Y := y; Z := z; Heading := Heading s; Zone := Zone s;
     CorpseX := CorpseX s; CorpseY := CorpseY s; CorpseZone := CorpseZone s;
     HasCorpse := HasCorpse s |}.

Definition setZone (zone : string) (s : PlayerState) : PlayerState :=
  {| X := X s; Y := Y s; Z := Z s; Heading := Heading s; Zone := zone;
     CorpseX := CorpseX s; CorpseY := CorpseY s; CorpseZone := CorpseZone s;
     HasCorpse := HasCorpse s |}.

Definition setCorpse (s : PlayerState) : PlayerState :=
  {| X := X s; Y := Y s; Z := Z s; Heading := Heading s; Zone := Zone s;
     CorpseX := X s; CorpseY := Y s; CorpseZone := Zone s;
     HasCorpse := true |}.

Definition clearCorpse (s : PlayerState) : PlayerState :=
  {| X := X s; Y := Y s; Z := Z s; Heading := Heading s; Zone := Zone s;
     CorpseX := CorpseX s; CorpseY := CorpseY s; CorpseZone := CorpseZone s;
     HasCorpse := false |}.

(** The engine together with the locals of [ProcessLines] that live across
    iterations. *)
Record Loop := {
  engine : Engine;
  lastX : float;
  lastY : float;
  hasMoved : bool
}.

(** The condition of rule 4. *)
Definition isRecovery (line : string) : bool :=
  Contains line "Summoning" && Contains line "corpse"
  || Contains line "You receive a resurrection"
  || Contains line "You have been resurrected"
  || Contains line "corpse decays".

Section WithLib.
Context {lib : GoLib}.

(** One iteration of [for logEntry := range lines]. *)
Definition processLine (l : Loop) (line : string) : Loop :=
  let st := CurrentState (engine l) in
  match locFind line with
  | Some (m1, m2, m3) =>
      (* 1. POSITION & HEADING *)
      let eqY := ParseFloat m1 in
      let eqX := ParseFloat m2 in
      let eqZ := ParseFloat m3 in
      let x := PrimFloat.opp eqX in
      let y := PrimFloat.opp eqY in
      let st1 :=
        if negb (hasMoved l) then st
        else
          let dx := PrimFloat.sub x (lastX l) in
          let dy := PrimFloat.sub y (lastY l) in
          if PrimFloat.ltb Float64.tenth (PrimFloat.abs dx)
             || PrimFloat.ltb Float64.tenth (PrimFloat.abs dy)
          then setHeading (Atan2 dy dx) st
          else st in
      {| engine := {| CurrentState := setPosition x y eqZ st1 |};
         lastX := x; lastY := y; hasMoved := true |}
  | None =>
      match zoneFind line with
      | Some newZone =>
          (* 2. ZONE *)
          if Contains newZone "(PvP)" || HasSuffix newZone " area" then l
          else if negb (String.eqb newZone (Zone st))
          then {| engine := {| CurrentState := setZone newZone st |};
                  lastX := lastX l; lastY := lastY l; hasMoved := hasMoved l |}
          else l
      | None =>
          if Contains line "You have been slain"
          then (* 3. DEATH *)
            {| engine := {| CurrentState := setCorpse st |};
               lastX := lastX l; lastY := lastY l; hasMoved := hasMoved l |}
          else if isRecovery line
          then (* 4. RECOVERY *)
            {| engine := {| CurrentState := clearCorpse st |};
               lastX := lastX l; lastY := lastY l; hasMoved := hasMoved l |}
          else l
      end
  end.

(** The state on entry to the loop: the initial zone of the reader, when it
    found one, and the zero values of [lastX], [lastY] and [hasMoved]. *)
Definition enterLoop (e : Engine) (reader : Eqlog.Reader) : Loop :=
  {| engine :=
       if negb (String.eqb (Eqlog.InitialZone reader) EmptyString)
       then {| CurrentState := setZone (Eqlog.InitialZone reader) (CurrentState e) |}
       else e;
     lastX := 0; lastY := 0; hasMoved := false |}.

(** The loop after it received [lines] from the channel, in this order. *)
Definition runLoop (e : Engine) (reader : Eqlog.Reader)
    (lines : list Eqlog.LogLine) : Loop :=
  fold_left (fun l entry => processLine l (Eqlog.Line entry)) lines
            (enterLoop e reader).

(** [e.ProcessLines(reader, lines)]: the engine after the lines received. *)
Definition ProcessLines (e : Engine) (reader : Eqlog.Reader)
    (lines : list Eqlog.LogLine) : Engine :=
  engine (runLoop e reader lines).

End WithLib.

End Parser.

(** The revision kept as [internal/parser/parser.go]: an earlier state of
    the same function.  A line falls through to every rule (there is no
    [continue]); the elevation is never assigned, [PlayerState] has no
    corpse zone, zone names are not filtered and one phrase clears the
    corpse flag. *)

Module ParserOld.
Import GoStrings LogPatterns.

Record PlayerState := {
  X : float; Y : float; Z : float;
  Heading : float;
  Zone : string;
  CorpseX : float;
  CorpseY : float;
  HasCorpse : bool
}.

Record Engine := { CurrentState : PlayerState }.

Definition NewEngine : Engine :=
  {| CurrentState :=
       {| X := 0; Y := 0; Z := 0; Heading := 0; Zone := EmptyString;
          CorpseX := 0; CorpseY := 0; HasCorpse := false |} |}.

Record Loop := {
  engine : Engine;
  lastX : float;
  lastY : float;
  hasMoved : bool
}.

Section WithLib.
Context {lib : GoLib}.

(** Rule 1: position and heading. *)
Definition position (l : Loop) (line : string) : Loop :=
  let st := CurrentState (engine l) in
  match locFind line with
  | Some (m1, m2, _) =>
      let eqY := ParseFloat m1 in
      let eqX := ParseFloat m2 in
      let x := PrimFloat.opp eqX in
      let y := PrimFloat.opp eqY in
      let h :=
        if hasMoved l then
          let dx := PrimFloat.sub x (lastX l) in
          let dy := PrimFloat.sub y (lastY l) in
          if PrimFloat.ltb Float64.tenth (PrimFloat.abs dx)
             || PrimFloat.ltb Float64.tenth (PrimFloat.abs dy)
          then Atan2 dy dx
          else Heading st
        else Heading st in
      {| engine :=
           {| CurrentState :=
                {| X := x; Y := y; Z := Z st; Heading := h; Zone := Zone st;
                   CorpseX := CorpseX st; CorpseY := CorpseY st;
                   HasCorpse := HasCorpse st |} |};
         lastX := x; lastY := y; hasMoved := true |}
  | None => l
  end.

(** Rules 2 to 4, which touch the engine only. *)
Definition zone (st : PlayerState) (line : string) : PlayerState :=
  match zoneFind line with
  | Some newZone =>
      if negb (String.eqb newZone (Zone st))
      then {| X := X st; Y := Y st; Z := Z st; Heading := Heading st;
              Zone := newZone; CorpseX := CorpseX st; CorpseY := CorpseY st;
              HasCorpse := HasCorpse st |}
      else st
  | None => st
  end.

Definition death (st : PlayerState) (line : string) : PlayerState :=
  if Contains line "You have been slain"
  then {| X := X st; Y := Y st; Z := Z st; Heading := Heading st;
          Zone := Zone st; CorpseX := X st; CorpseY := Y st;
          HasCorpse := true |}
  else st.

Definition recovery (st : PlayerState) (line : string) : PlayerState :=
  if Contains line "You summon your corpse"
  then {| X := X st; Y := Y st; Z := Z st; Heading := Heading st;
          Zone := Zone st; CorpseX := CorpseX st; CorpseY := CorpseY st;
          HasCorpse := false |}
  else st.

Definition processLine (l : Loop) (line : string) : Loop :=
  let l1 := position l line in
  let st := recovery (death (zone (CurrentState (engine l1)) line) line) line in
  {| engine := {| CurrentState := st |};
     lastX := lastX l1; lastY := lastY l1; hasMoved := hasMoved l1 |}.

Definition enterLoop (e : Engine) (reader : Eqlog.Reader) : Loop :=
  {| engine :=
       if negb (String.eqb (Eqlog.InitialZone reader) EmptyString)
       then {| CurrentState :=
                 {| X := X (CurrentState e); Y := Y (CurrentState e);
                    Z := Z (CurrentState e); Heading := Heading (CurrentState e);
                    Zone := Eqlog.InitialZone reader;
                    CorpseX := CorpseX (CurrentState e);
                    CorpseY := CorpseY (CurrentState e);
                    HasCorpse := HasCorpse (CurrentState e) |} |}
       else e;
     lastX := 0; lastY := 0; hasMoved := false |}.

Definition runLoop (e : Engine) (reader : Eqlog.Reader)
    (lines : list Eqlog.LogLine) : Loop :=
  fold_left (fun l entry => processLine l (Eqlog.Line entry)) lines
            (enterLoop e reader).

Definition ProcessLines (e : Engine) (reader : Eqlog.Reader)
    (lines : list Eqlog.LogLine) : Engine :=
  engine (runLoop e reader lines).

End WithLib.

End ParserOld.

(** ** Package [maps]: the zone map loader *)

(** The two calls of [LoadZone] and [parseFile] that reach the disk.
    - [GlobAll mapDir] is [filepath.Glob(filepath.Join(mapDir, "*"))]: the
      paths found, or [None] for the error (a malformed pattern).
    - [OpenScan path] is [os.Open(path)] followed by the [bufio.Scanner]
      loop: the lines the scanner yields, or [None] when the file does not
      open. *)
Class FileSystem := {
  GlobAll : string -> option (list string);
  OpenScan : string -> option (list string)
}.

Module Maps.
Import GoStrings StrConv.

(** [color.RGBA]: four [uint8] channels. *)
Record RGBA := { R : Z; G : Z; B : Z; A : Z }.

Module MapLine.
Record t := {
  X1 : float; Y1 : float; Z1 : float;
  X2 : float; Y2 : float; Z2 : float;
  Color : RGBA
}.
End MapLine.

Module MapLabel.
Record t := {
  X : float; Y : float; Z : float;
  Color : RGBA;
  Size : BinNums.Z;
  Text : string
}.
End MapLabel.

Record ZoneMap := {
  Name : string;
  Lines : list MapLine.t;
  Labels : list MapLabel.t;
  MinX : float; MaxX : float;
  MinY : float; MaxY : float
}.

(** The four conditional assignments of [updateBounds], in order. *)
Definition updateBounds (zm : ZoneMap) (x y : float) : ZoneMap :=
  {| Name := Name zm; Lines := Lines zm; Labels := Labels zm;
     MinX := if PrimFloat.ltb x (MinX zm) then x else MinX zm;
     MaxX := if PrimFloat.ltb (MaxX zm) x then x else MaxX zm;
     MinY := if PrimFloat.ltb y (MinY zm) then y else MinY zm;
     MaxY := if PrimFloat.ltb (MaxY zm) y then y else MaxY zm |}.

Definition parseInt (s : string) : Z := Atoi (TrimSpace s).

Definition parseColor (r g b : string) : RGBA :=
  let ri := parseInt r in
  let gi := parseInt g in
  let bi := parseInt b in
  if (ri =? 0)%Z && (gi =? 0)%Z && (bi =? 0)%Z
  then {| R := 130; G := 130; B := 130; A := 255 |}
  else {| R := uint8 ri; G := uint8 gi; B := uint8 bi; A := 255 |}.

(** The byte order mark U+FEFF in UTF-8. *)
Definition BOM : string :=
  String (ascii_of_nat 239) (String (ascii_of_nat 187) (String (ascii_of_nat 191) EmptyString)).

Inductive Command := CmdL | CmdP.

(** The hunt for the command: the first ['L'], ['l'], ['P'] or ['p'] of the
    line ([unicode.ToUpper] sends no other character to ['L'] or ['P']),
    with [line[cmdIndex+1:]]. *)
Fixpoint findCommand (line : string) : option (Command * string) :=
  match line with
  | EmptyString => None
  | String c r =>
      if Ascii.eqb c "L" || Ascii.eqb c "l" then Some (CmdL, r)
      else if Ascii.eqb c "P" || Ascii.eqb c "p" then Some (CmdP, r)
      else findCommand r
  end.

Definition field (parts : list string) (i : nat) : string := nth i parts EmptyString.

Section WithLib.
Context {lib : GoLib}.

Definition parseFloat (s : string) : float := ParseFloat (TrimSpace s).

(** The segment of an [L] line with at least six fields. *)
Definition parseSegment (parts : list string) : MapLine.t :=
  let eqY1 := parseFloat (field parts 0) in
  let eqX1 := parseFloat (field parts 1) in
  let eqY2 := parseFloat (field parts 3) in
  let eqX2 := parseFloat (field parts 4) in
  {| MapLine.X1 := eqY1; MapLine.Y1 := eqX1; MapLine.Z1 := parseFloat (field parts 2);
     MapLine.X2 := eqY2; MapLine.Y2 := eqX2; MapLine.Z2 := parseFloat (field parts 5);
     MapLine.Color :=
       if (9 <=? length parts)%nat
       then parseColor (field parts 6) (field parts 7) (field parts 8)
       else {| R := 150; G := 150; B := 150; A := 255 |} |}.

(** The label of a [P] line with at least seven fields. *)
Definition parseLabel (parts : list string) : MapLabel.t :=
  let eqY := parseFloat (field parts 0) in
  let eqX := parseFloat (field parts 1) in
  {| MapLabel.X := eqY; MapLabel.Y := eqX; MapLabel.Z := parseFloat (field parts 2);
     MapLabel.Color := parseColor (field parts 3) (field parts 4) (field parts 5);
     MapLabel.Size := parseInt (field parts 6);
     MapLabel.Text :=
       if (8 <=? length parts)%nat
       then ReplaceAll (TrimSpace (Join (skipn 7 parts) ",")) "_" " "
       else EmptyString |}.

(** The body of [for scanner.Scan()]: the map and [count] after one line. *)
Definition parseLine (acc : ZoneMap * Z) (rawLine : string) : ZoneMap * Z :=
  let '(zm, count) := acc in
  let line := TrimSpace (ReplaceAll rawLine BOM EmptyString) in
  if String.eqb line EmptyString then acc
  else
    match findCommand line with
    | None => acc
    | Some (cmdType, after) =>
        let content := TrimLeft after " ," in
        let parts := Split content "," in
        match cmdType with
        | CmdL =>
            if (6 <=? length parts)%nat then
              let l := parseSegment parts in
              let zm1 :=
                {| Name := Name zm; Lines := Lines zm ++ [l]; Labels := Labels zm;
                   MinX := MinX zm; MaxX := MaxX zm;
                   MinY := MinY zm; MaxY := MaxY zm |} in
              let zm2 := updateBounds zm1 (MapLine.X1 l) (MapLine.Y1 l) in
              let zm3 := updateBounds zm2 (MapLine.X2 l) (MapLine.Y2 l) in
              (zm3, (count + 1)%Z)
            else acc
        | CmdP =>
            if (7 <=? length parts)%nat then
              let p := parseLabel parts in
              ({| Name := Name zm; Lines := Lines zm; Labels := Labels zm ++ [p];
                  MinX := MinX zm; MaxX := MaxX zm;
                  MinY := MinY zm; MaxY := MaxY zm |},
               (count + 1)%Z)
            else acc
        end
    end.

Context {fs : FileSystem}.

(** [zm.parseFile(path)]: the map after the file, the count, and whether an
    error is returned. *)
Definition parseFile (zm : ZoneMap) (path : string) : ZoneMap * Z * bool :=
  match OpenScan path with
  | None => (zm, 0%Z, true)
  | Some lines =>
      let '(zm1, count) := fold_left parseLine lines (zm, 0%Z) in
      (zm1, count, false)
  end.

Inductive LoadError :=
| CouldNotList                      (* "could not list map directory: ..." *)
| NoMapFiles (zoneName : string).   (* "no map files found for zone: ..." *)

Inductive LoadResult :=
| Loaded (zm : ZoneMap)
| Failed (err : LoadError).

(** The case-insensitive index of the directory: a later path replaces an
    earlier one with the same lower-case name. *)
Definition indexFiles (allFiles : list string) : gmap string string :=
  fold_left (fun fileMap path => <[ToLower (Base path) := path]> fileMap)
            allFiles ∅.

Definition targetNames (zoneName : string) : list string :=
  [ ToLower (String.append zoneName ".txt");
    ToLower (String.append zoneName "_1.txt");
    ToLower (String.append zoneName "_2.txt");
    ToLower (String.append zoneName "_3.txt") ].

(** One iteration of [for _, target := range targets]. *)
Definition loadTarget (fileMap : gmap string string)
    (acc : ZoneMap * bool) (target : string) : ZoneMap * bool :=
  let '(zm, foundAtLeastOne) := acc in
  match fileMap !! target with
  | Some realPath =>
      let '(zm1, itemsAdded, err) := parseFile zm realPath in
      if negb err && (0 <? itemsAdded)%Z then (zm1, true)
      else (zm1, foundAtLeastOne)
  | None => acc
  end.

Definition emptyZone (zoneName : string) : ZoneMap :=
  {| Name := zoneName; Lines := []; Labels := [];
     MinX := 99999; MaxX := -99999;
     MinY := 99999; MaxY := -99999 |}.

Definition LoadZone (mapDir zoneName : string) : LoadResult :=
  let zm := emptyZone zoneName in
  match GlobAll mapDir with
  | None => Failed CouldNotList
  | Some allFiles =>
      let fileMap := indexFiles allFiles in
      let '(zm1, foundAtLeastOne) :=
        fold_left (loadTarget fileMap) (targetNames zoneName) (zm, false) in
      if negb foundAtLeastOne then Failed (NoMapFiles zoneName)
      else Loaded zm1
  end.

End WithLib.

End Maps.

(** ** The tailer and the engine side by side

    The two goroutines and the game that writes the log take turns in any
    order; an [Event] is one turn. *)

Module Pipeline.
Import GoStrings.

Inductive Event :=
| Append (bytes : string)   (* the game appends bytes to the active log *)
| Tail (now : Z)            (* [pollAndRead] makes one move *)
| Consume.                  (* [ProcessLines] receives from the channel *)

Record System := {
  reader : Eqlog.Reader;
  tailer : Eqlog.Tailer;
  loop : Parser.Loop;
  received : list Eqlog.LogLine   (* what the engine received so far *)
}.

Section WithLib.
Context {lib : GoLib}.

Definition step (s : System) (ev : Event) : System :=
  match ev with
  | Append bytes =>
      {| reader := reader s;
         tailer := {| Eqlog.unread := String.append (Eqlog.unread (tailer s)) bytes;
                      Eqlog.sending := Eqlog.sending (tailer s) |};
         loop := loop s;
         received := received s |}
  | Tail now =>
      let '(r, t) := Eqlog.pollAndReadStep now (reader s) (tailer s) in
      {| reader := r; tailer := t; loop := loop s; received := received s |}
  | Consume =>
      match Eqlog.Lines (reader s) with
      | [] => s
      | entry :: rest =>
          {| reader := {| Eqlog.EqDir := Eqlog.EqDir (reader s);
                          Eqlog.Lines := rest;
                          Eqlog.InitialZone := Eqlog.InitialZone (reader s) |};
             tailer := tailer s;
             loop := Parser.processLine (loop s) (Eqlog.Line entry);
             received := received s ++ [entry] |}
      end
  end.

Definition run (s : System) (evs : list Event) : System := fold_left step evs s.

(** The system when [pollAndRead] has opened the log and [ProcessLines]
    enters its loop: [window] is the part of the file after the seek
    offset. *)
Definition start (r : Eqlog.Reader) (e : Parser.Engine) (window : string) : System :=
  {| reader := r;
     tailer := {| Eqlog.unread := window; Eqlog.sending := None |};
     loop := Parser.enterLoop e r;
     received := [] |}.

End WithLib.

(** A line as the game writes it: its bytes, none a line feed, and the line
    feed that ends it. *)
Definition written (l : string) : string := String.append l (String "010" EmptyString).

Definition isLine (l : string) : bool := negb (Contains l (String "010" EmptyString)).

(** The lines the tailer owes the engine for the lines written: each one
    trimmed, the empty ones left out. *)
Definition cleanLines (ls : list string) : list string :=
  List.filter (fun l => negb (String.eqb l EmptyString)) (map TrimSpace ls).

End Pipeline.

Open Scope list_scope.

(** ** Notions the statements use *)

Module ParserSpec.
Import GoStrings.

(** A line as the channel carries it. *)
Definition entryOf (line : string) : Eqlog.LogLine :=
  {| Eqlog.Line := line; Eqlog.Time := 0 |}.

(** The line has one of the four phrases of rule 4. *)
Definition recoveryPhrase (line : string) : Prop :=
  (Contains line "Summoning" = true /\ Contains line "corpse" = true)
  \/ Contains line "You receive a resurrection" = true
  \/ Contains line "You have been resurrected" = true
  \/ Contains line "corpse decays" = true.

(** The two revisions agree on the position, the heading and the locals. *)
Definition sameMotion (o : ParserOld.Loop) (n : Parser.Loop) : Prop :=
  ParserOld.X (ParserOld.CurrentState (ParserOld.engine o))
  = Parser.X (Parser.CurrentState (Parser.engine n))
  /\ ParserOld.Y (ParserOld.CurrentState (ParserOld.engine o))
     = Parser.Y (Parser.CurrentState (Parser.engine n))
  /\ ParserOld.Heading (ParserOld.CurrentState (ParserOld.engine o))
     = Parser.Heading (Parser.CurrentState (Parser.engine n))
  /\ ParserOld.lastX o = Parser.lastX n
  /\ ParserOld.lastY o = Parser.lastY n
  /\ ParserOld.hasMoved o = Parser.hasMoved n.

End ParserSpec.

(** ** Notions the statements about the loader use *)

Module MapsSpec.
Import GoStrings StrConv Maps.

(** What a line of a map file adds to the map. *)
Inductive Item :=
| Segment (l : MapLine.t)
| Label (p : MapLabel.t).

Definition addItem (zm : ZoneMap) (it : Item) : ZoneMap :=
  match it with
  | Segment l =>
      updateBounds
        (updateBounds
           {| Name := Name zm; Lines := Lines zm ++ [l]; Labels := Labels zm;
              MinX := MinX zm; MaxX := MaxX zm; MinY := MinY zm; MaxY := MaxY zm |}
           (MapLine.X1 l) (MapLine.Y1 l))
        (MapLine.X2 l) (MapLine.Y2 l)
  | Label p =>
      {| Name := Name zm; Lines := Lines zm; Labels := Labels zm ++ [p];
         MinX := MinX zm; MaxX := MaxX zm; MinY := MinY zm; MaxY := MaxY zm |}
  end.

(** The fields of a line: what [strings.Split] gives for the text after the
    command letter. *)
Definition fieldsOf (rawLine : string) : option (Command * list string) :=
  let line := TrimSpace (ReplaceAll rawLine BOM EmptyString) in
  if String.eqb line EmptyString then None
  else
    match findCommand line with
    | None => None
    | Some (cmdType, after) => Some (cmdType, Split (TrimLeft after " ,") ",")
    end.

Section WithLib.
Context {lib : GoLib}.

(** The item a line is accepted as, [None] for a line that is skipped. *)
Definition itemOf (rawLine : string) : option Item :=
  match fieldsOf rawLine with
  | Some (CmdL, parts) =>
      if (6 <=? length parts)%nat then Some (Segment (parseSegment parts)) else None
  | Some (CmdP, parts) =>
      if (7 <=? length parts)%nat then Some (Label (parseLabel parts)) else None
  | None => None
  end.

Definition itemsOf (lines : list string) : list Item := omap itemOf lines.

Definition segmentsOf (items : list Item) : list MapLine.t :=
  omap (fun it => match it with Segment l => Some l | Label _ => None end) items.

Definition labelsOf (items : list Item) : list MapLabel.t :=
  omap (fun it => match it with Label p => Some p | Segment _ => None end) items.

Context {fs : FileSystem}.

(** The items of the file at [path], none when it does not open. *)
Definition itemsIn (path : string) : list Item :=
  match OpenScan path with
  | Some lines => itemsOf lines
  | None => []
  end.

End WithLib.

(** The x and the y of the endpoints of the segments, in order. *)
Definition endpointsX (ls : list MapLine.t) : list float :=
  flat_map (fun l => [MapLine.X1 l; MapLine.X2 l]) ls.

Definition endpointsY (ls : list MapLine.t) : list float :=
  flat_map (fun l => [MapLine.Y1 l; MapLine.Y2 l]) ls.

(** [m] is the least of [sentinel] and the values of [xs] that are numbers. *)
Definition isLeast (sentinel m : float) (xs : list float) : Prop :=
  Float64.isNaN m = false
  /\ PrimFloat.leb m sentinel = true
  /\ Forall (fun x => Float64.isNaN x = false -> PrimFloat.leb m x = true) xs
  /\ (m = sentinel \/ In m xs).

Definition isGreatest (sentinel m : float) (xs : list float) : Prop :=
  Float64.isNaN m = false
  /\ PrimFloat.leb sentinel m = true
  /\ Forall (fun x => Float64.isNaN x = false -> PrimFloat.leb x m = true) xs
  /\ (m = sentinel \/ In m xs).

Definition black : RGBA := {| R := 0; G := 0; B := 0; A := 255 |}.

Definition nonEmpty (items : list Item) : bool :=
  match items with [] => false | _ => true end.

(** The paths of the targets that are in the index, in the order of the
    targets. *)
Definition present (fileMap : gmap string string) (targets : list string) : list string :=
  omap (fun target => fileMap !! target) targets.

(** The box of a map against its segments. *)
Definition boxed (zm : ZoneMap) : Prop :=
  isLeast 99999 (MinX zm) (endpointsX (Lines zm))
  /\ isGreatest (-99999) (MaxX zm) (endpointsX (Lines zm))
  /\ isLeast 99999 (MinY zm) (endpointsY (Lines zm))
  /\ isGreatest (-99999) (MaxY zm) (endpointsY (Lines zm)).

End MapsSpec.

(** ** Notions the statements about the pipeline use *)

Module PipelineSpec.
Import GoStrings Pipeline.

(** The bytes of lines written one after the other. *)
Fixpoint writtenAll (ls : list string) : string :=
  match ls with
  | [] => EmptyString
  | l :: rest => written l +:+ writtenAll rest
  end.

(** [writes evs ls]: what the game appends during [evs] is the lines [ls],
    one whole line at a time. *)
Fixpoint writes (evs : list Event) (ls : list string) : Prop :=
  match evs with
  | [] => ls = []
  | Append bytes :: evs' =>
      match ls with
      | l :: ls' => isLine l = true /\ bytes = written l /\ writes evs' ls'
      | [] => False
      end
  | _ :: evs' => writes evs' ls
  end.

Definition quiet (ev : Event) : Prop :=
  match ev with Append _ => False | _ => True end.

(** The line [pollAndRead] holds while it waits for room in the channel. *)
Definition held (t : Eqlog.Tailer) : list string :=
  match Eqlog.sending t with
  | Some entry => [Eqlog.Line entry]
  | None => []
  end.

(** The moves that deliver the lines [pending] when the channel is empty
    and nothing is held: read, and for a line that is not blank send and
    receive. *)
Definition deliver (pending : list string) : list Event :=
  flat_map (fun l => if String.eqb (TrimSpace l) EmptyString
                     then [Tail 0]
                     else [Tail 0; Tail 0; Consume]) pending.

Section WithLib.
Context {lib : GoLib}.

(** What holds of the system while the game has written the lines [hist]
    since the log was opened: the bytes not read are whole lines, and the
    lines received, in the channel, held and still to read are, in this
    order, the lines owed for [hist]. *)
Definition accounted (e : Parser.Engine) (r0 : Eqlog.Reader)
    (hist : list string) (s : System) : Prop :=
  exists pending,
    Eqlog.unread (tailer s) = writtenAll pending
    /\ Forall (fun l => isLine l = true) pending
    /\ map Eqlog.Line (received s) ++ map Eqlog.Line (Eqlog.Lines (reader s))
         ++ held (tailer s) ++ cleanLines pending
       = cleanLines hist
    /\ (length (Eqlog.Lines (reader s)) <= Eqlog.capacity)%nat
    /\ loop s = Parser.runLoop e r0 (received s).

End WithLib.

End PipelineSpec.

(** ** Inputs for the examples *)

Module Examples.
Import Maps.

(** A map directory for the examples. *)
Definition exampleFiles : list (string * list string) :=
  [ ("maps/Nexus.txt",
      [ "L 100, 200, 0, -50, 75, 0, 255, 128, 0";
        "L 1, 2, 3, 4, 5, 6";
        "P 10, 20, 0, 0, 0, 0, 2, to_The_Bazaar" ]);
    ("maps/dark.txt", [ "L 0, 0, 0, 1, 1, 0, 256, 0, 0" ]);
    ("maps/empty.txt", [ "; no geometry" ]);
    ("maps/far.txt", [ "L 100000, 0, 0, 100000, 0, 0" ]);
    ("maps/nexus_1.TXT", [ "L 0, 0, 0, 300, 0, 0, 0, 0, 0" ]);
    ("maps/odd.txt", [ "L NaN, 0, 0, 1, 1, 0" ]) ].

Fixpoint lookupFile (files : list (string * list string)) (path : string)
    : option (list string) :=
  match files with
  | [] => None
  | (p, lines) :: rest => if String.eqb p path then Some lines else lookupFile rest path
  end.

Definition exampleFS : FileSystem :=
  {| GlobAll := fun mapDir =>
       if String.eqb mapDir "maps" then Some (map fst exampleFiles) else Some [];
     OpenScan := lookupFile exampleFiles |}.

Definition load (zoneName : string) : LoadResult :=
  LoadZone (lib := StrConv.exampleLib) (fs := exampleFS) "maps" zoneName.


Definition loaded (zoneName : string) : ZoneMap :=
  match load zoneName with
  | Loaded zm => zm
  | Failed _ => emptyZone zoneName
  end.

End Examples.

(** * The rest of the packages *)

(** ** Package [eqlog]: finding the active log *)

(** What [findLatestLog] and [scanDir] ask of the system and of Go's
    library.
    - [ReadDir path] is [os.ReadDir(path)]: the names of the entries, sorted
      by name, or [None] for an error.
    - [ModTime path] is the modification time [os.Stat(path)] reports, as a
      clock reading; the paths asked about were listed just before.
    - [JoinPath] is [filepath.Join] of two elements.
    - [SortSlice less l] is the slice [sort.Slice] leaves, [less] comparing
      two elements. *)
Class LogFiles := {
  ReadDir : string -> option (list string);
  ModTime : string -> Z;
  JoinPath : string -> string -> string;
  SortSlice : (string -> string -> bool) -> list string -> list string
}.

Module EqlogFiles.
Import GoStrings.

Section WithFiles.
Context {files : LogFiles}.

(** The test of [scanDir] on an entry name. *)
Definition isLogName (name : string) : bool :=
  HasPrefix name "eqlog" && HasSuffix name ".txt".

(** [r.scanDir(path)]: the logs found, [None] for the error. *)
Definition scanDir (path : string) : option (list string) :=
  match ReadDir path with
  | None => None
  | Some entries => Some (map (JoinPath path) (List.filter isLogName entries))
  end.

(** [logs, _ := r.scanDir(...)]: the error is dropped and [logs] is nil. *)
Definition logsOf (found : option (list string)) : list string :=
  match found with
  | Some logs => logs
  | None => []
  end.

(** The comparison handed to [sort.Slice]. *)
Definition olderThan (a b : string) : bool := (ModTime a <? ModTime b)%Z.

(** [r.findLatestLog()]: the path, [None] for "no logs found". *)
Definition findLatestLog (r : Eqlog.Reader) : option string :=
  let logs := logsOf (scanDir (Eqlog.EqDir r)) in
  let logs :=
    if (length logs =? 0)%nat
    then logsOf (scanDir (JoinPath (Eqlog.EqDir r) "Logs"))
    else logs in
  if (length logs =? 0)%nat then None
  else Some (List.last (SortSlice olderThan logs) EmptyString).

(** What Go promises of [sort.Slice] for this comparison: the slice is
    rearranged, and no element is followed by an older one. *)
Definition sortsByTime : Prop :=
  forall l,
    Permutation (SortSlice olderThan l) l
    /\ StronglySorted (fun a b => (ModTime a <= ModTime b)%Z) (SortSlice olderThan l).

End WithFiles.

(** Insertion sort, to have an instance of [SortSlice]. *)
Fixpoint insertBy (less : string -> string -> bool) (x : string) (l : list string)
    : list string :=
  match l with
  | [] => [x]
  | y :: rest => if less x y then x :: y :: rest else y :: insertBy less x rest
  end.

Definition sortBy (less : string -> string -> bool) (l : list string) : list string :=
  fold_right (insertBy less) [] l.

(** Comparing by a key, strictly and not. *)
Definition lessBy (key : string -> Z) (a b : string) : bool := (key a <? key b)%Z.

Definition leBy (key : string -> Z) (a b : string) : Prop := (key a <= key b)%Z.

End EqlogFiles.

(** ** Package [maps]: the zone name lookup ([lookup.go]) *)

Module ZoneNames.
Import GoStrings.

(** [strings.SplitN(s, sep, 2)] for a separator of one byte, when it gives
    two parts: what is before the first separator and what is after. *)
Fixpoint cutAt (sep : ascii) (s : string) : option (string * string) :=
  match s with
  | EmptyString => None
  | String c r =>
      if Ascii.eqb c sep then Some (EmptyString, r)
      else
        match cutAt sep r with
        | Some (before, after) => Some (String c before, after)
        | None => None
        end
  end.

Section WithLib.
Context {lib : GoLib}.

(** [LoadZoneConfig]: the global [ZoneFileMap] after the call and whether an
    error is returned.  [decoded] is the object the JSON decoder read, its
    entries in the order [range] visits them, or [None] when the file does
    not open or does not decode. *)
Definition LoadZoneConfig (ZoneFileMap : gmap string string)
    (decoded : option (list (string * string))) : gmap string string * bool :=
  match decoded with
  | None => (ZoneFileMap, true)
  | Some rawMap =>
      (fold_left (fun m kv => <[ToLower (fst kv) := snd kv]> m) rawMap ZoneFileMap,
       false)
  end.

Definition GetZoneFileName (ZoneFileMap : gmap string string) (zoneName : string)
    : string :=
  match ZoneFileMap !! ToLower zoneName with
  | Some val => val
  | None => EmptyString
  end.

(** The body of the scanner loop of [LoadZoneLookup]. *)
Definition lookupLine (lookup : gmap string string) (text : string)
    : gmap string string :=
  let line := TrimSpace text in
  if String.eqb line EmptyString || HasPrefix line "#" || HasPrefix line "["
  then lookup
  else
    match cutAt "=" line with
    | Some (longName, shortName) =>
        <[ToLower (TrimSpace longName) := TrimSpace shortName]> lookup
    | None => lookup
    end.

(** The entry a line of the file defines, [None] for a line that is
    skipped. *)
Definition lookupEntry (text : string) : option (string * string) :=
  let line := TrimSpace text in
  if String.eqb line EmptyString || HasPrefix line "#" || HasPrefix line "["
  then None
  else
    match cutAt "=" line with
    | Some (longName, shortName) =>
        Some (ToLower (TrimSpace longName), TrimSpace shortName)
    | None => None
    end.

Context {fs : FileSystem}.

(** [LoadZoneLookup(path)]: the lookup, [None] for the error of [os.Open]. *)
Definition LoadZoneLookup (path : string) : option (gmap string string) :=
  match OpenScan path with
  | None => None
  | Some lines => Some (fold_left lookupLine lines ∅)
  end.

(** The head of [loadMapForZone] in [ui/window.go]: the file code the zone
    name stands for, the zone name itself when [GetZoneFileName] gives the
    empty string. *)
Definition fileCodeFor (ZoneFileMap : gmap string string) (zoneName : string)
    : string :=
  let fileCode := GetZoneFileName ZoneFileMap zoneName in
  if String.eqb fileCode EmptyString then zoneName else fileCode.

(** What [loadMapForZone] leaves in [w.MapData]: [None] is [nil]. *)
Definition mapDataFor (ZoneFileMap : gmap string string) (mapDir zoneName : string)
    : option Maps.ZoneMap :=
  match Maps.LoadZone mapDir (fileCodeFor ZoneFileMap zoneName) with
  | Maps.Failed _ => None
  | Maps.Loaded data => Some data
  end.

End WithLib.

End ZoneNames.

(** ** Command [cleanup] *)

Module Cleanup.
Import GoStrings.

(** [strings.TrimSuffix]. *)
Definition TrimSuffix (s suffix : string) : string :=
  if HasSuffix s suffix
  then substring 0 (String.length s - String.length suffix) s
  else s.

(** [filepath.Ext]: the suffix from the last period of the last element of
    the path, empty when it has none. *)
Fixpoint Ext (path : string) : string :=
  match path with
  | EmptyString => EmptyString
  | String c r =>
      match Ext r with
      | String _ _ as ext => ext
      | EmptyString =>
          if Contains r "/" then EmptyString
          else if Ascii.eqb c "." then path
          else EmptyString
      end
  end.

(** An entry of [os.ReadDir]. *)
Record DirEntry := { Name : string; IsDir : bool }.

Section WithLib.
Context {lib : GoLib}.

(** [loadValidPrefixes]: the set of keys of [prefixes] (every value stored is
    [true]), [None] for an error.  [decoded] is as for [LoadZoneConfig]. *)
Definition loadValidPrefixes (decoded : option (list (string * string)))
    : option (gset string) :=
  match decoded with
  | None => None
  | Some mapping =>
      Some (fold_left (fun prefixes kv => {[ToLower (snd kv)]} ∪ prefixes) mapping ∅)
  end.

(** [shouldKeepFile].  The loop over [prefixes] returns [true] as soon as one
    key fits, so the order in which [range] visits the keys does not
    matter. *)
Definition shouldKeepFile (filename : string) (prefixes : gset string) : bool :=
  let lowerName := ToLower filename in
  let baseName := TrimSuffix lowerName ".txt" in
  if bool_decide (baseName ∈ prefixes) then true
  else
    let parts := Split baseName "_" in
    if (1 <? length parts)%nat
    then existsb (fun p => HasPrefix baseName (p +:+ "_")) (elements prefixes)
    else false.

(** One iteration of the loop of [main] over the entries of
    ["assets/maps"].  [remove path] tells whether [os.Remove(path)]
    succeeds.  The state is the paths removed so far, in order, with
    [keptCount] and [deletedCount].  An entry of a directory has no
    separator in its name, so [filepath.Join(dir, file.Name())] is the
    directory, a separator and the name. *)
Definition sweepStep (remove : string -> bool) (prefixes : gset string)
    (acc : list string * Z * Z) (file : DirEntry) : list string * Z * Z :=
  let '(removed, keptCount, deletedCount) := acc in
  if IsDir file || String.eqb (Name file) "map_keys.json"
     || String.eqb (Name file) "map_keys.ini"
  then acc
  else if negb (String.eqb (Ext (Name file)) ".txt") then acc
  else if shouldKeepFile (Name file) prefixes
  then (removed, (keptCount + 1)%Z, deletedCount)
  else
    let fullPath := "assets/maps/" +:+ Name file in
    if remove fullPath
    then (removed ++ [fullPath], keptCount, (deletedCount + 1)%Z)
    else acc.

(** The loop. *)
Definition sweep (remove : string -> bool) (prefixes : gset string)
    (entries : list DirEntry) : list string * Z * Z :=
  fold_left (sweepStep remove prefixes) entries ([], 0%Z, 0%Z).

(** [path] is the path of [file], and the loop removes it. *)
Definition removable (remove : string -> bool) (prefixes : gset string)
    (path : string) (file : DirEntry) : Prop :=
  path = "assets/maps/" +:+ Name file
  /\ IsDir file = false
  /\ Ext (Name file) = ".txt"
  /\ shouldKeepFile (Name file) prefixes = false
  /\ remove path = true.

(** [main]: [None] is a panic, before anything is removed.  [decoded] is
    what the decoder reads from ["assets/maps/map_keys.json"] and [files]
    what [os.ReadDir("assets/maps")] returns. *)
Definition main (decoded : option (list (string * string)))
    (files : option (list DirEntry)) (remove : string -> bool)
    : option (list string * Z * Z) :=
  match loadValidPrefixes decoded with
  | None => None
  | Some validPrefixes =>
      match files with
      | None => None
      | Some files => Some (sweep remove validPrefixes files)
      end
  end.

End WithLib.

End Cleanup.

(** ** Package [ui]: what [window.go] does with the engine and the maps

    The window is drawn by a graphics library; what is embedded here is the
    bookkeeping [window.go] does on its own fields and on the state of the
    engine, whose corpse flag it clears.  Binary64 operations
    are rounded one by one, as the compiler emits them for amd64 (it fuses
    none there). *)

Module Ui.
Import GoStrings.

Record BreadcrumbPoint := { X : float; Y : float }.

(** Block 16 of [Update], for an engine that is there: the trail after the
    frame.  [st] is the player state the frame reads. *)
Definition trackBreadcrumb (st : Parser.PlayerState)
    (Breadcrumbs : list BreadcrumbPoint) : list BreadcrumbPoint :=
  let shouldAddBreadcrumb :=
    if (length Breadcrumbs =? 0)%nat then true
    else
      let lastBC := List.last Breadcrumbs {| X := 0; Y := 0 |} in
      let dx := PrimFloat.sub (Parser.X st) (X lastBC) in
      let dy := PrimFloat.sub (Parser.Y st) (Y lastBC) in
      let dist := PrimFloat.sqrt (PrimFloat.add (PrimFloat.mul dx dx) (PrimFloat.mul dy dy)) in
      PrimFloat.ltb 50 dist in
  if shouldAddBreadcrumb then
    let Breadcrumbs := Breadcrumbs ++ [{| X := Parser.X st; Y := Parser.Y st |}] in
    if (500 <? length Breadcrumbs)%nat then tail Breadcrumbs else Breadcrumbs
  else Breadcrumbs.

(** The fields blocks 8, 9 and 16 of [Update] and its zone change
    detection write in the window; no other block of [Update] writes
    them. *)
Record Trail := {
  CurrentZone : string;
  MapData : option Maps.ZoneMap;
  Breadcrumbs : list BreadcrumbPoint;
  lastCKey : bool;
  lastKKey : bool
}.

(** [NewWindow]. *)
Definition NewTrail : Trail :=
  {| CurrentZone := EmptyString; MapData := None; Breadcrumbs := [];
     lastCKey := false; lastKKey := false |}.

Section WithLib.
Context {lib : GoLib} {fs : FileSystem}.

(** [Update] on these fields and on the state of the engine, which the
    window shares with [ProcessLines]: block 9 writes its corpse flag.
    [cPressed] and [kPressed] tell whether the C key and the K key are down;
    [LogReader] is the state of the engine the frame finds, [None] when the
    window has no engine, and the first component of the result is the
    state the frame leaves; [ZoneFileMap] is the global of package
    [maps]. *)
Definition Update (ZoneFileMap : gmap string string) (MapDir : string)
    (cPressed kPressed : bool) (LogReader : option Parser.PlayerState) (w : Trail)
    : option Parser.PlayerState * Trail :=
  (* 8. CLEAR BREADCRUMBS (C key) *)
  let crumbs := if cPressed && negb (lastCKey w) then [] else Breadcrumbs w in
  match LogReader with
  | None =>
      (None,
       {| CurrentZone := CurrentZone w; MapData := MapData w;
          Breadcrumbs := crumbs; lastCKey := cPressed; lastKKey := kPressed |})
  | Some st =>
      (* 9. CLEAR CORPSE (K key) *)
      let st := if kPressed && negb (lastKKey w) then Parser.clearCorpse st else st in
      (* 16. BREADCRUMB TRACKING *)
      let crumbs := trackBreadcrumb st crumbs in
      (* ZONE CHANGE DETECTION *)
      if negb (String.eqb (Parser.Zone st) (CurrentZone w))
      then (Some st,
            {| CurrentZone := Parser.Zone st;
               MapData := ZoneNames.mapDataFor ZoneFileMap MapDir (Parser.Zone st);
               Breadcrumbs := [];
               lastCKey := cPressed; lastKKey := kPressed |})
      else (Some st,
            {| CurrentZone := CurrentZone w; MapData := MapData w;
               Breadcrumbs := crumbs; lastCKey := cPressed; lastKKey := kPressed |})
  end.

(** What happens to the fields of the window: a frame, or the menu entry
    "Clear Breadcrumbs" of [drawUI]. *)
Inductive TrailEvent :=
| Frame (cPressed kPressed : bool) (LogReader : option Parser.PlayerState)
| ClearBreadcrumbs.

Definition trailStep (ZoneFileMap : gmap string string) (MapDir : string)
    (w : Trail) (ev : TrailEvent) : Trail :=
  match ev with
  | Frame cPressed kPressed LogReader =>
      snd (Update ZoneFileMap MapDir cPressed kPressed LogReader w)
  | ClearBreadcrumbs =>
      {| CurrentZone := CurrentZone w; MapData := MapData w;
         Breadcrumbs := []; lastCKey := lastCKey w; lastKKey := lastKKey w |}
  end.

(** *** The engine and the window side by side

    [ProcessLines] and the window run in two goroutines and share the state
    of the engine; a turn is a line [ProcessLines] receives, a frame
    ([Update]), or the menu entry "Clear Corpse Marker", whose action
    [drawUI] runs at the end of [Draw].  Each turn is taken whole: the code
    takes no lock, and a frame that falls between two assignments of one
    iteration of [ProcessLines] is not modelled. *)
Inductive AppEvent :=
| Received (line : string)
| Framed (cPressed kPressed : bool)
| ClearCorpseMarker.

Record App := {
  loop : Parser.Loop;
  window : Trail
}.

(** The loop of [ProcessLines] with the state [st] written by the window. *)
Definition withState (l : Parser.Loop) (st : Parser.PlayerState) : Parser.Loop :=
  {| Parser.engine := {| Parser.CurrentState := st |};
     Parser.lastX := Parser.lastX l; Parser.lastY := Parser.lastY l;
     Parser.hasMoved := Parser.hasMoved l |}.

Definition stateOf (a : App) : Parser.PlayerState :=
  Parser.CurrentState (Parser.engine (loop a)).

Definition appStep (ZoneFileMap : gmap string string) (MapDir : string)
    (a : App) (ev : AppEvent) : App :=
  match ev with
  | Received line =>
      {| loop := Parser.processLine (loop a) line; window := window a |}
  | Framed cPressed kPressed =>
      let '(after, w) :=
        Update ZoneFileMap MapDir cPressed kPressed (Some (stateOf a)) (window a) in
      {| loop := match after with
                      | Some st => withState (loop a) st
                      | None => loop a
                      end;
         window := w |}
  | ClearCorpseMarker =>
      (* the entry is in the menu when the flag is set *)
      if Parser.HasCorpse (stateOf a)
      then {| loop := withState (loop a) (Parser.clearCorpse (stateOf a));
              window := window a |}
      else a
  end.

End WithLib.

(** *** The box the camera is fitted to

    [loadMapForZone] and [refitZoom] compute it with the same statements. *)

(** [math.Abs(z-activeZ) <= w.ZLevelRange]. *)
Definition inRange (activeZ ZLevelRange z : float) : bool :=
  PrimFloat.leb (PrimFloat.abs (PrimFloat.sub z activeZ)) ZLevelRange.

Definition visible (activeZ ZLevelRange : float) (line : Maps.MapLine.t) : bool :=
  inRange activeZ ZLevelRange (Maps.MapLine.Z1 line)
  || inRange activeZ ZLevelRange (Maps.MapLine.Z2 line).

(** The body of [for _, line := range data.Lines]. *)
Definition fitStep (activeZ ZLevelRange : float)
    (acc : float * float * float * float * bool) (line : Maps.MapLine.t)
    : float * float * float * float * bool :=
  let '(minX, maxX, minY, maxY, foundVisibleLines) := acc in
  if visible activeZ ZLevelRange line then
    let minX := if PrimFloat.ltb (Maps.MapLine.X1 line) minX then Maps.MapLine.X1 line else minX in
    let maxX := if PrimFloat.ltb maxX (Maps.MapLine.X1 line) then Maps.MapLine.X1 line else maxX in
    let minY := if PrimFloat.ltb (Maps.MapLine.Y1 line) minY then Maps.MapLine.Y1 line else minY in
    let maxY := if PrimFloat.ltb maxY (Maps.MapLine.Y1 line) then Maps.MapLine.Y1 line else maxY in
    let minX := if PrimFloat.ltb (Maps.MapLine.X2 line) minX then Maps.MapLine.X2 line else minX in
    let maxX := if PrimFloat.ltb maxX (Maps.MapLine.X2 line) then Maps.MapLine.X2 line else maxX in
    let minY := if PrimFloat.ltb (Maps.MapLine.Y2 line) minY then Maps.MapLine.Y2 line else minY in
    let maxY := if PrimFloat.ltb maxY (Maps.MapLine.Y2 line) then Maps.MapLine.Y2 line else maxY in
    (minX, maxX, minY, maxY, true)
  else acc.

(** [minX, maxX, minY, maxY] as [refitZoom] has them before it sets the
    camera.  [LogReader] is the state of the engine, [None] for no engine. *)
Definition fitBounds (ZLevelMode : Z) (LogReader : option Parser.PlayerState)
    (ZLevelManual ZLevelRange : float) (data : Maps.ZoneMap)
    : float * float * float * float :=
  let full := (Maps.MinX data, Maps.MaxX data, Maps.MinY data, Maps.MaxY data) in
  match LogReader with
  | Some st =>
      if (0 <? ZLevelMode)%Z then
        let activeZ := if (ZLevelMode =? 1)%Z then Parser.Z st else ZLevelManual in
        let '(minX, maxX, minY, maxY, foundVisibleLines) :=
          fold_left (fitStep activeZ ZLevelRange) (Maps.Lines data)
                    (99999, -99999, 99999, -99999, false)%float in
        if negb foundVisibleLines then full else (minX, maxX, minY, maxY)
      else full
  | None => full
  end.

(** [Draw]: the segments it strokes.  [activeZ] stays 0 when neither
    branch assigns it. *)
Definition strokedLines (ZLevelMode : Z) (LogReader : option Parser.PlayerState)
    (ZLevelManual ZLevelRange : float) (data : Maps.ZoneMap) : list Maps.MapLine.t :=
  let activeZ :=
    match LogReader with
    | Some st =>
        if (ZLevelMode =? 1)%Z then Parser.Z st
        else if (ZLevelMode =? 2)%Z then ZLevelManual else 0%float
    | None => if (ZLevelMode =? 2)%Z then ZLevelManual else 0%float
    end in
  if (0 <? ZLevelMode)%Z
  then List.filter (visible activeZ ZLevelRange) (Maps.Lines data)
  else Maps.Lines data.

(** [Draw]: whether it draws the corpse marker ([LogReader] is the state
    of the engine, [None] for no engine). *)
Definition corpseShown (LogReader : option Parser.PlayerState) (CurrentZone : string)
    : bool :=
  match LogReader with
  | Some st => Parser.HasCorpse st && String.eqb (Parser.CorpseZone st) CurrentZone
  | None => false
  end.

(** *** The width of a menu *)

(** The fields of [MenuItem] that [calculateMenuWidth] reads. *)
Record MenuItem := { Label : string; Hotkey : string }.

Definition calculateMenuWidth (items : list MenuItem) : Z :=
  let '(maxLabelWidth, maxHotkeyWidth) :=
    fold_left
      (fun acc item =>
         let '(maxLabelWidth, maxHotkeyWidth) := acc in
         let labelWidth := (Z.of_nat (String.length (Label item)) * 7)%Z in
         let maxLabelWidth :=
           if (maxLabelWidth <? labelWidth)%Z then labelWidth else maxLabelWidth in
         if negb (String.eqb (Hotkey item) EmptyString) then
           let hotkeyWidth := (Z.of_nat (String.length (Hotkey item)) * 7)%Z in
           (maxLabelWidth,
            if (maxHotkeyWidth <? hotkeyWidth)%Z then hotkeyWidth else maxHotkeyWidth)
         else (maxLabelWidth, maxHotkeyWidth))
      items (0%Z, 0%Z) in
  let maxWidth := (16 + maxLabelWidth + 16 + maxHotkeyWidth + 16)%Z in
  if (maxWidth <? 150)%Z then 150%Z else maxWidth.

End Ui.

(** *** Markers *)

Module UiMarkers.
Import GoStrings.

Module Marker.
Record t := {
  X : float;
  Y : float;
  Label : string;
  Color : string;
  Shape : string
}.
End Marker.

(** The fields the marker functions read and write; [Markers] is
    [w.Config.Markers], which [config.Load] leaves allocated.
    [Config.Save] writes the configuration to disk and its error is only
    printed. *)
Record MarkerState := {
  CurrentZone : string;
  Zoom : float;
  Markers : gmap string (list Marker.t);
  markerColor : string;
  markerShape : string;
  placingMarker : bool;
  dialogOpen : bool;
  lastMousePressed : bool
}.

(** [distance <= clickRadius] for a click at [(worldX, worldY)]. *)
Definition near (w : MarkerState) (worldX worldY : float) (marker : Marker.t) : bool :=
  let clickRadius := PrimFloat.div 15 (Zoom w) in
  let dx := PrimFloat.sub worldX (Marker.X marker) in
  let dy := PrimFloat.sub worldY (Marker.Y marker) in
  let distance := PrimFloat.sqrt (PrimFloat.add (PrimFloat.mul dx dx) (PrimFloat.mul dy dy)) in
  PrimFloat.leb distance clickRadius.

(** Where [for i, marker := range markers] stops: the markers before index
    [i], the marker at [i] and those after it, for the first [i] whose
    marker passes [p]. *)
Fixpoint firstAt (p : Marker.t -> bool) (markers : list Marker.t)
    : option (list Marker.t * Marker.t * list Marker.t) :=
  match markers with
  | [] => None
  | marker :: rest =>
      if p marker then Some ([], marker, rest)
      else
        match firstAt p rest with
        | Some (before, found, after) => Some (marker :: before, found, after)
        | None => None
        end
  end.

Definition afterDialog (w : MarkerState) (placing : bool)
    (markers : gmap string (list Marker.t)) : MarkerState :=
  {| CurrentZone := CurrentZone w; Zoom := Zoom w; Markers := markers;
     markerColor := markerColor w; markerShape := markerShape w;
     placingMarker := placing; dialogOpen := false; lastMousePressed := true |}.

(** [placeMarker].  [answer] is what [zenity.Entry] returns: the text, or
    [None] for an error (the user cancelled). *)
Definition placeMarker (worldX worldY : float) (answer : option string)
    (w : MarkerState) : MarkerState :=
  if String.eqb (CurrentZone w) EmptyString then w
  else
    let markerCount := (length (default [] (Markers w !! CurrentZone w)) + 1)%nat in
    let defaultLabel := "Marker " +:+ pretty markerCount in
    match answer with
    | None => afterDialog w false (Markers w)
    | Some label =>
        let label := if String.eqb label EmptyString then defaultLabel else label in
        let marker :=
          {| Marker.X := worldX; Marker.Y := worldY; Marker.Label := label;
             Marker.Color := markerColor w; Marker.Shape := markerShape w |} in
        afterDialog w false
          (<[CurrentZone w := default [] (Markers w !! CurrentZone w) ++ [marker]]> (Markers w))
    end.

(** [removeMarkerAt].  [confirmed] tells whether [zenity.Question] returns
    no error (the user chose "Delete"). *)
Definition removeMarkerAt (worldX worldY : float) (confirmed : bool)
    (w : MarkerState) : MarkerState * bool :=
  if String.eqb (CurrentZone w) EmptyString then (w, false)
  else
    match Markers w !! CurrentZone w with
    | None => (w, false)
    | Some markers =>
        if (length markers =? 0)%nat then (w, false)
        else
          match firstAt (near w worldX worldY) markers with
          | None => (w, false)
          | Some (before, marker, after) =>
              if negb confirmed then (afterDialog w (placingMarker w) (Markers w), false)
              else
                let remaining := before ++ after in
                let stored := <[CurrentZone w := remaining]> (Markers w) in
                (afterDialog w (placingMarker w)
                   (if (length remaining =? 0)%nat
                    then delete (CurrentZone w) stored else stored),
                 true)
          end
    end.

(** [clearAllMarkers]. *)
Definition clearAllMarkers (confirmed : bool) (w : MarkerState) : MarkerState :=
  if String.eqb (CurrentZone w) EmptyString then w
  else
    match Markers w !! CurrentZone w with
    | Some (_ :: _) =>
        if negb confirmed then afterDialog w (placingMarker w) (Markers w)
        else afterDialog w (placingMarker w) (delete (CurrentZone w) (Markers w))
    | _ => afterDialog w (placingMarker w) (Markers w)
    end.

(** [editMarkerAt]. *)
Definition editMarkerAt (worldX worldY : float) (answer : option string)
    (w : MarkerState) : MarkerState :=
  if String.eqb (CurrentZone w) EmptyString then w
  else
    match Markers w !! CurrentZone w with
    | None => w
    | Some markers =>
        if (length markers =? 0)%nat then w
        else
          match firstAt (near w worldX worldY) markers with
          | None => w
          | Some (before, marker, after) =>
              match answer with
              | None => afterDialog w (placingMarker w) (Markers w)
              | Some newLabel =>
                  let newLabel :=
                    if String.eqb newLabel EmptyString then Marker.Label marker
                    else newLabel in
                  let edited :=
                    {| Marker.X := Marker.X marker; Marker.Y := Marker.Y marker;
                       Marker.Label := newLabel;
                       Marker.Color := Marker.Color marker;
                       Marker.Shape := Marker.Shape marker |} in
                  afterDialog w (placingMarker w)
                    (<[CurrentZone w := before ++ edited :: after]> (Markers w))
              end
          end
    end.

End UiMarkers.

(** ** Notions the further statements use *)

Module MoreSpec.
Import GoStrings LogPatterns.

(** The rule of [ProcessLines] that takes a line. *)
Inductive Rule := PositionRule | ZoneRule | DeathRule | RecoveryRule | NoRule.

Definition ruleOf (line : string) : Rule :=
  match locFind line with
  | Some _ => PositionRule
  | None =>
      match zoneFind line with
      | Some _ => ZoneRule
      | None =>
          if Contains line "You have been slain" then DeathRule
          else if Parser.isRecovery line then RecoveryRule
          else NoRule
      end
  end.

(** A name the zone rule takes for a status message. *)
Definition isStatus (name : string) : bool :=
  Contains name "(PvP)" || HasSuffix name " area".

(** Every byte of [s] passes [p]. *)
Fixpoint allBytes (p : ascii -> bool) (s : string) : bool :=
  match s with
  | EmptyString => true
  | String c r => p c && allBytes p r
  end.

Definition notLF (c : ascii) : bool := negb (Ascii.eqb c "010").

(** A colour with full alpha whose channels are bytes. *)
Definition validColor (c : Maps.RGBA) : Prop :=
  (0 <= Maps.R c <= 255 /\ 0 <= Maps.G c <= 255 /\ 0 <= Maps.B c <= 255
   /\ Maps.A c = 255)%Z.

(** The colours of a map: those of its segments, then those of its labels. *)
Definition colorsOf (zm : Maps.ZoneMap) : list Maps.RGBA :=
  map Maps.MapLine.Color (Maps.Lines zm) ++ map Maps.MapLabel.Color (Maps.Labels zm).

(** An item with a colour that is valid. *)
Definition validItem (it : MapsSpec.Item) : Prop :=
  match it with
  | MapsSpec.Segment l => validColor (Maps.MapLine.Color l)
  | MapsSpec.Label p => validColor (Maps.MapLabel.Color p)
  end.

(** What is left of [s] after its first [n] separators; nothing when it has
    fewer. *)
Fixpoint afterSep (sep : ascii) (n : nat) (s : string) {struct s} : string :=
  match s with
  | EmptyString => EmptyString
  | String c r =>
      match n with
      | O => s
      | S k => if Ascii.eqb c sep then afterSep sep k r else afterSep sep n r
      end
  end.

(** The number of bytes of [s] that are [sep]. *)
Fixpoint countByte (sep : ascii) (s : string) : nat :=
  match s with
  | EmptyString => O
  | String c r => ((if Ascii.eqb c sep then 1 else 0) + countByte sep r)%nat
  end.

(** A marker store in which no zone has an empty list and no marker an
    empty label. *)
Definition wellFormed (markers : gmap string (list UiMarkers.Marker.t)) : Prop :=
  forall zone stored,
    markers !! zone = Some stored ->
    stored <> []
    /\ Forall (fun marker => UiMarkers.Marker.Label marker <> EmptyString) stored.

(** Whether one of the turns [evs] clears the corpse flag: a line the
    recovery rule takes, a frame in which the K key goes down ([lastKKey]
    tells whether it was down in the frame before), or the menu entry. *)
Fixpoint clearsCorpse (lastKKey : bool) (evs : list Ui.AppEvent) : bool :=
  match evs with
  | [] => false
  | Ui.Received line :: rest =>
      match ruleOf line with
      | RecoveryRule => true
      | _ => clearsCorpse lastKKey rest
      end
  | Ui.Framed _ kPressed :: rest =>
      kPressed && negb lastKKey || clearsCorpse kPressed rest
  | Ui.ClearCorpseMarker :: _ => true
  end.

(** A turn that is no line the death rule takes. *)
Definition noDeath (ev : Ui.AppEvent) : Prop :=
  match ev with
  | Ui.Received line => ruleOf line <> DeathRule
  | _ => True
  end.

(** The point of the trail a frame adds for the player state [st]. *)
Definition crumbOf (st : Parser.PlayerState) : Ui.BreadcrumbPoint :=
  {| Ui.X := Parser.X st; Ui.Y := Parser.Y st |}.

(** The box of the segments [shown], against the sentinels of the loop. *)
Definition fitted (shown : list Maps.MapLine.t) (box : float * float * float * float)
    : Prop :=
  let '(minX, maxX, minY, maxY) := box in
  MapsSpec.isLeast 99999 minX (MapsSpec.endpointsX shown)
  /\ MapsSpec.isGreatest (-99999) maxX (MapsSpec.endpointsX shown)
  /\ MapsSpec.isLeast 99999 minY (MapsSpec.endpointsY shown)
  /\ MapsSpec.isGreatest (-99999) maxY (MapsSpec.endpointsY shown).

End MoreSpec.

(** ** Notions the further statements about the tailer use *)

Module TailerSpec.
Import GoStrings MoreSpec Pipeline.

(** A line the tailer sends: not empty, and no line feed in it. *)
Definition sendable (entry : Eqlog.LogLine) : Prop :=
  Eqlog.Line entry <> EmptyString /\ allBytes notLF (Eqlog.Line entry) = true.

Definition heldSendable (t : Eqlog.Tailer) : Prop :=
  match Eqlog.sending t with
  | Some entry => sendable entry
  | None => True
  end.

(** What every move keeps, whatever bytes the game appends. *)
Definition steady (s : System) : Prop :=
  Forall sendable (received s)
  /\ Forall sendable (Eqlog.Lines (reader s))
  /\ heldSendable (tailer s).

End TailerSpec.

(** ** Further inputs for the examples *)

Module MoreExamples.

Definition exampleLogs : LogFiles :=
  {| ReadDir := fun path =>
       if String.eqb path "eq" then Some ["dbg.txt"; "notes.txt"]
       else if String.eqb path "eq/Logs"
       then Some ["eqlog_Ann_P1999.txt"; "eqlog_Bob_P1999.txt"; "eqlog_old.bak"]
       else None;
     ModTime := fun path =>
       if String.eqb path "eq/Logs/eqlog_Ann_P1999.txt" then 1765663451%Z
       else if String.eqb path "eq/Logs/eqlog_Bob_P1999.txt" then 1765600000%Z
       else 0%Z;
     JoinPath := fun dir name => dir +:+ "/" +:+ name;
     SortSlice := EqlogFiles.sortBy |}.

(** The example map directory with a lookup file in it. *)
Definition keysFS : FileSystem :=
  {| GlobAll := GlobAll (FileSystem := Examples.exampleFS);
     OpenScan := fun path =>
       if String.eqb path "maps/map_keys.ini"
       then Some [ "# long name = short name"; "[Zones]"; "The Nexus = nexus";
                   "the nexus=nexus_b"; EmptyString; "no separator" ]
       else OpenScan (FileSystem := Examples.exampleFS) path |}.

(** The zone configuration after [LoadZoneConfig] on a small object. *)
Definition exampleConfig : gmap string string :=
  fst (ZoneNames.LoadZoneConfig (lib := StrConv.exampleLib) ∅
         (Some [("The Nexus", "Nexus"); ("Unmapped", EmptyString)])).

End MoreExamples.

(** * Properties *)

(** ** The order of binary64 values *)

Module Float64Facts.
Import Float64.

Ltac sf_cases :=
  repeat match goal with
         | x : spec_float |- _ => destruct x
         | b : bool |- _ => destruct b
         end; simpl; try congruence; try tauto.

Ltac cmp_cases :=
  repeat match goal with
         | |- context [Z.compare ?a ?b] => destruct (Z.compare_spec a b)
         | H : context [Z.compare ?a ?b] |- _ => destruct (Z.compare_spec a b)
         | |- context [Pos.compare_cont Eq ?a ?b] =>
             change (Pos.compare_cont Eq a b) with (Pos.compare a b);
             destruct (Pos.compare_spec a b)
         | H : context [Pos.compare_cont Eq ?a ?b] |- _ =>
             change (Pos.compare_cont Eq a b) with (Pos.compare a b) in H;
             destruct (Pos.compare_spec a b)
         end; simpl in *; try congruence; try lia.

Lemma SFleb_trans a b c : SFleb a b = true -> SFleb b c = true -> SFleb a c = true.
Proof. unfold SFleb. sf_cases; cmp_cases. Qed.

Lemma SFltb_leb_trans a b c : SFltb a b = true -> SFleb b c = true -> SFleb a c = true.
Proof. unfold SFleb, SFltb. sf_cases; cmp_cases. Qed.

Lemma SFleb_not_ltb a b : SFleb a b = true -> SFltb b a = false.
Proof. unfold SFleb, SFltb. sf_cases; cmp_cases. Qed.

Lemma SFnot_ltb_leb a b :
  SFeqb a a = true -> SFeqb b b = true -> SFltb a b = false -> SFleb b a = true.
Proof. unfold SFleb, SFltb, SFeqb. sf_cases; cmp_cases. Qed.

Lemma SFltb_not_nan a b : SFltb a b = true -> SFeqb a a = true /\ SFeqb b b = true.
Proof. unfold SFltb, SFeqb. sf_cases; cmp_cases. Qed.

Lemma leb_trans a b c :
  PrimFloat.leb a b = true -> PrimFloat.leb b c = true -> PrimFloat.leb a c = true.
Proof. rewrite !FloatAxioms.leb_spec. apply SFleb_trans. Qed.

Lemma ltb_leb_trans a b c :
  PrimFloat.ltb a b = true -> PrimFloat.leb b c = true -> PrimFloat.leb a c = true.
Proof. rewrite !FloatAxioms.leb_spec, FloatAxioms.ltb_spec. apply SFltb_leb_trans. Qed.

Lemma leb_ltb_trans' a b c :
  PrimFloat.leb a b = true -> PrimFloat.ltb b c = true -> PrimFloat.leb a c = true.
Proof.
  rewrite !FloatAxioms.leb_spec, FloatAxioms.ltb_spec.
  generalize (Prim2SF a) (Prim2SF b) (Prim2SF c). intros x y z.
  unfold SFleb, SFltb. sf_cases; cmp_cases.
Qed.

Lemma leb_not_ltb a b : PrimFloat.leb a b = true -> PrimFloat.ltb b a = false.
Proof. rewrite FloatAxioms.leb_spec, FloatAxioms.ltb_spec. apply SFleb_not_ltb. Qed.

Lemma not_ltb_leb a b :
  isNaN a = false -> isNaN b = false ->
  PrimFloat.ltb a b = false -> PrimFloat.leb b a = true.
Proof.
  unfold isNaN.
  rewrite !negb_false_iff, !FloatAxioms.eqb_spec, FloatAxioms.ltb_spec, FloatAxioms.leb_spec.
  apply SFnot_ltb_leb.
Qed.

Lemma ltb_not_nan a b :
  PrimFloat.ltb a b = true -> isNaN a = false /\ isNaN b = false.
Proof.
  unfold isNaN.
  rewrite !negb_false_iff, !FloatAxioms.eqb_spec, FloatAxioms.ltb_spec.
  apply SFltb_not_nan.
Qed.

Lemma ltb_leb a b : PrimFloat.ltb a b = true -> PrimFloat.leb a b = true.
Proof.
  rewrite FloatAxioms.leb_spec, FloatAxioms.ltb_spec.
  generalize (Prim2SF a) (Prim2SF b). intros x y.
  unfold SFleb, SFltb. sf_cases; cmp_cases.
Qed.

Lemma leb_refl a : isNaN a = false -> PrimFloat.leb a a = true.
Proof.
  unfold isNaN. rewrite negb_false_iff, FloatAxioms.eqb_spec, FloatAxioms.leb_spec.
  generalize (Prim2SF a). intros x.
  unfold SFleb, SFeqb. sf_cases; cmp_cases.
Qed.

(** A value equal to zero is one of the two zeros. *)
Lemma eqb_zero x :
  PrimFloat.eqb x 0 = true -> x = 0%float \/ x = (-0)%float.
Proof.
  rewrite FloatAxioms.eqb_spec. intros H.
  rewrite <- (FloatAxioms.SF2Prim_Prim2SF x).
  destruct (Prim2SF x) as [s|s| |s m e].
  - destruct s; [right | left]; reflexivity.
  - destruct s; discriminate H.
  - discriminate H.
  - destruct s; discriminate H.
Qed.

End Float64Facts.

(** ** The state engine *)

Module ParserFacts.
Import GoStrings LogPatterns Parser ParserSpec.

Section WithLib.
Context {lib : GoLib}.

Lemma runLoop_snoc e reader before entry :
  runLoop e reader (before ++ [entry])
  = processLine (runLoop e reader before) (Eqlog.Line entry).
Proof. unfold runLoop. rewrite fold_left_app. reflexivity. Qed.

(** What rule 1 does to the loop state. *)
Lemma processLine_position l line m1 m2 m3 :
  locFind line = Some (m1, m2, m3) ->
  let st := CurrentState (engine l) in
  let x := PrimFloat.opp (ParseFloat m2) in
  let y := PrimFloat.opp (ParseFloat m1) in
  let dx := PrimFloat.sub x (lastX l) in
  let dy := PrimFloat.sub y (lastY l) in
  processLine l line
  = {| engine :=
         {| CurrentState :=
              setPosition x y (ParseFloat m3)
                (if negb (hasMoved l) then st
                 else if PrimFloat.ltb Float64.tenth (PrimFloat.abs dx)
                         || PrimFloat.ltb Float64.tenth (PrimFloat.abs dy)
                      then setHeading (Atan2 dy dx) st
                      else st) |};
       lastX := x; lastY := y; hasMoved := true |}.
Proof. intros H. unfold processLine. rewrite H. reflexivity. Qed.

(** A line that is no position sample leaves the heading, the position
    and the three locals alone. *)
Lemma processLine_other l line :
  locFind line = None ->
  let l' := processLine l line in
  lastX l' = lastX l /\ lastY l' = lastY l /\ hasMoved l' = hasMoved l
  /\ X (CurrentState (engine l')) = X (CurrentState (engine l))
  /\ Y (CurrentState (engine l')) = Y (CurrentState (engine l))
  /\ Z (CurrentState (engine l')) = Z (CurrentState (engine l))
  /\ Heading (CurrentState (engine l')) = Heading (CurrentState (engine l)).
Proof.
  intros H. unfold processLine. rewrite H.
  destruct (zoneFind line) as [newZone|].
  - destruct (Contains newZone "(PvP)" || HasSuffix newZone " area"); [tauto|].
    destruct (negb (String.eqb newZone (Zone (CurrentState (engine l))))); simpl; tauto.
  - destruct (Contains line "You have been slain"); [simpl; tauto|].
    destruct (isRecovery line); simpl; tauto.
Qed.

(** Once a sample was taken, [lastX] and [lastY] are the stored position. *)
Lemma last_is_stored e reader lines :
  let l := runLoop e reader lines in
  hasMoved l = true ->
  lastX l = X (CurrentState (engine l)) /\ lastY l = Y (CurrentState (engine l)).
Proof.
  induction lines as [|entry before IH] using rev_ind; simpl.
  - discriminate.
  - rewrite runLoop_snoc.
    destruct (locFind (Eqlog.Line entry)) as [[[m1 m2] m3]|] eqn:Hloc.
    + rewrite (processLine_position _ _ _ _ _ Hloc). simpl. tauto.
    + destruct (processLine_other (runLoop e reader before) _ Hloc)
        as (-> & -> & -> & -> & -> & _).
      exact IH.
Qed.

Lemma enterLoop_heading e reader :
  Heading (CurrentState (engine (enterLoop e reader))) = Heading (CurrentState e).
Proof. unfold enterLoop. simpl. destruct (negb _); reflexivity. Qed.

(** Before the first sample the heading is the one the engine started with. *)
Lemma before_first_sample e reader lines :
  Forall (fun b => locFind (Eqlog.Line b) = None) lines ->
  let l := runLoop e reader lines in
  hasMoved l = false
  /\ Heading (CurrentState (engine l)) = Heading (CurrentState e).
Proof.
  induction lines as [|entry before IH] using rev_ind; intros Hall; simpl.
  - split; [reflexivity | apply enterLoop_heading].
  - apply Forall_app in Hall as [Hb He]. inversion He as [|? ? Hloc _]; subst.
    rewrite runLoop_snoc.
    destruct (processLine_other (runLoop e reader before) _ Hloc)
      as (_ & _ & -> & _ & _ & _ & ->).
    exact (IH Hb).
Qed.

Lemma after_first_sample e reader lines :
  Exists (fun b => locFind (Eqlog.Line b) <> None) lines ->
  hasMoved (runLoop e reader lines) = true.
Proof.
  induction lines as [|entry before IH] using rev_ind; intros Hex.
  - inversion Hex.
  - rewrite runLoop_snoc.
    destruct (locFind (Eqlog.Line entry)) as [[[m1 m2] m3]|] eqn:Hloc.
    + rewrite (processLine_position _ _ _ _ _ Hloc). reflexivity.
    + destruct (processLine_other (runLoop e reader before) _ Hloc)
        as (_ & _ & -> & _).
      apply IH. apply Exists_app in Hex as [Hex|Hex]; [exact Hex|].
      inversion Hex as [? ? Hx|? ? Hx]; subst; [congruence | inversion Hx].
Qed.

(** C1. Every line the position pattern matches, with groups [m1], [m2] and
    [m3], leaves the engine with x = -m2, y = -m1 and z = m3 (each group
    read by [strconv.ParseFloat]), whatever was received before it and so
    whatever the displacement from the previous sample. *)
Theorem position_update e reader before entry m1 m2 m3 :
  locFind (Eqlog.Line entry) = Some (m1, m2, m3) ->
  let st := CurrentState (ProcessLines e reader (before ++ [entry])) in
  X st = PrimFloat.opp (ParseFloat m2)
  /\ Y st = PrimFloat.opp (ParseFloat m1)
  /\ Z st = ParseFloat m3.
Proof.
  intros Hloc. unfold ProcessLines. rewrite runLoop_snoc.
  rewrite (processLine_position _ _ _ _ _ Hloc). simpl. tauto.
Qed.

(** C4. The heading after a position sample.  With no sample before it the
    heading is the one the engine was created with, which is zero.  With a
    sample before it and (dx, dy) the displacement from the stored position,
    the heading is [Atan2 dy dx] when |dx| > 0.1 or |dy| > 0.1 and is the
    previous heading when |dx| <= 0.1 and |dy| <= 0.1; from (0, 0) to
    (5, 5) it is [Atan2 5 5]. *)
Theorem heading_update e reader before entry m1 m2 m3 :
  locFind (Eqlog.Line entry) = Some (m1, m2, m3) ->
  let prev := CurrentState (ProcessLines e reader before) in
  let next := CurrentState (ProcessLines e reader (before ++ [entry])) in
  let x := PrimFloat.opp (ParseFloat m2) in
  let y := PrimFloat.opp (ParseFloat m1) in
  let dx := PrimFloat.sub x (X prev) in
  let dy := PrimFloat.sub y (Y prev) in
  Heading (CurrentState NewEngine) = 0%float
  /\ (Forall (fun b => locFind (Eqlog.Line b) = None) before ->
      Heading next = Heading (CurrentState e))
  /\ (Exists (fun b => locFind (Eqlog.Line b) <> None) before ->
      (PrimFloat.ltb Float64.tenth (PrimFloat.abs dx)
       || PrimFloat.ltb Float64.tenth (PrimFloat.abs dy) = true ->
       Heading next = Atan2 dy dx)
      /\ (PrimFloat.leb (PrimFloat.abs dx) Float64.tenth = true ->
          PrimFloat.leb (PrimFloat.abs dy) Float64.tenth = true ->
          Heading next = Heading prev)
      /\ (PrimFloat.eqb (X prev) 0 = true -> PrimFloat.eqb (Y prev) 0 = true ->
          x = 5%float -> y = 5%float ->
          Heading next = Atan2 5 5)).
Proof.
  intros Hloc prev next x y dx dy.
  split; [reflexivity|].
  subst prev next. unfold ProcessLines. rewrite runLoop_snoc.
  rewrite (processLine_position _ _ _ _ _ Hloc). simpl.
  split.
  - intros Hall. destruct (before_first_sample e reader before Hall) as [Hm Hh].
    rewrite Hm. simpl. exact Hh.
  - intros Hex. pose proof (after_first_sample e reader before Hex) as Hmoved.
    destruct (last_is_stored e reader before Hmoved) as [HX HY].
    rewrite Hmoved, HX, HY. simpl.
    fold x y. unfold ProcessLines in dx, dy. fold dx dy.
    assert (Hbig : PrimFloat.ltb Float64.tenth (PrimFloat.abs dx)
                   || PrimFloat.ltb Float64.tenth (PrimFloat.abs dy) = true ->
                   Heading
                     (if PrimFloat.ltb Float64.tenth (PrimFloat.abs dx)
                         || PrimFloat.ltb Float64.tenth (PrimFloat.abs dy)
                      then setHeading (Atan2 dy dx)
                             (CurrentState (engine (runLoop e reader before)))
                      else CurrentState (engine (runLoop e reader before)))
                   = Atan2 dy dx).
    { intros ->. reflexivity. }
    split; [exact Hbig|]. split.
    + intros Hx Hy.
      rewrite (Float64Facts.leb_not_ltb _ _ Hx), (Float64Facts.leb_not_ltb _ _ Hy).
      reflexivity.
    + intros Hx0 Hy0 Hx5 Hy5.
      assert (dx = 5%float) as Edx.
      { subst dx. rewrite Hx5.
        destruct (Float64Facts.eqb_zero _ Hx0) as [-> | ->]; reflexivity. }
      assert (dy = 5%float) as Edy.
      { subst dy. rewrite Hy5.
        destruct (Float64Facts.eqb_zero _ Hy0) as [-> | ->]; reflexivity. }
      rewrite Hbig; rewrite Edx, Edy; reflexivity.
Qed.

(** What rules 2 to 4 do to the engine, for a line that is no position
    sample. *)
Lemma processLine_zone l line newZone :
  locFind line = None -> zoneFind line = Some newZone ->
  let st := CurrentState (engine l) in
  CurrentState (engine (processLine l line))
  = if Contains newZone "(PvP)" || HasSuffix newZone " area" then st
    else if negb (String.eqb newZone (Zone st)) then setZone newZone st
    else st.
Proof.
  intros Hloc Hzone. unfold processLine. rewrite Hloc, Hzone.
  destruct (Contains newZone "(PvP)" || HasSuffix newZone " area"); [reflexivity|].
  destruct (negb (String.eqb newZone (Zone (CurrentState (engine l))))); reflexivity.
Qed.

Lemma processLine_rest l line :
  locFind line = None -> zoneFind line = None ->
  let st := CurrentState (engine l) in
  CurrentState (engine (processLine l line))
  = if Contains line "You have been slain" then setCorpse st
    else if isRecovery line then clearCorpse st
    else st.
Proof.
  intros Hloc Hzone. unfold processLine. rewrite Hloc, Hzone.
  destruct (Contains line "You have been slain"); [reflexivity|].
  destruct (isRecovery line); reflexivity.
Qed.

(** C2, amended. A line the zone pattern matches with group [newZone], and the
    position pattern does not match, leaves the player state as it is when
    [newZone] contains "(PvP)" or ends with " area"; otherwise the zone is
    [newZone] after it (replaced when it differed) and nothing else
    changes.  The two lines of the specification behave as it says. *)
Theorem zone_change e reader before entry newZone :
  zoneFind (Eqlog.Line entry) = Some newZone ->
  locFind (Eqlog.Line entry) = None ->
  let prev := CurrentState (ProcessLines e reader before) in
  let next := CurrentState (ProcessLines e reader (before ++ [entry])) in
  (Contains newZone "(PvP)" = true \/ HasSuffix newZone " area" = true ->
   next = prev)
  /\ (Contains newZone "(PvP)" = false -> HasSuffix newZone " area" = false ->
      Zone next = newZone
      /\ (newZone <> Zone prev -> next = setZone newZone prev)
      /\ (newZone = Zone prev -> next = prev))
  /\ (forall l,
        CurrentState (engine (processLine l "You have entered an Arena (PvP) area."))
        = CurrentState (engine l))
  /\ (forall l,
        Zone (CurrentState (engine (processLine l "You have entered The Nexus.")))
        = "The Nexus").
Proof.
  intros Hzone Hloc prev next. subst prev next. unfold ProcessLines.
  rewrite runLoop_snoc, (processLine_zone _ _ _ Hloc Hzone).
  set (st := CurrentState (engine (runLoop e reader before))).
  split; [|split; [|split]].
  - intros [H|H]; rewrite H; [reflexivity | rewrite orb_true_r; reflexivity].
  - intros Hpvp Harea. rewrite Hpvp, Harea. simpl.
    destruct (String.eqb_spec newZone (Zone st)) as [Heq|Hne]; simpl.
    + repeat split; congruence.
    + repeat split; congruence.
  - intros l. rewrite (processLine_zone l _ "an Arena (PvP) area"); reflexivity.
  - intros l. rewrite (processLine_zone l _ "The Nexus"); try reflexivity.
    change (Contains "The Nexus" "(PvP)" || HasSuffix "The Nexus" " area") with false.
    cbv iota.
    destruct (String.eqb_spec "The Nexus" (Zone (CurrentState (engine l))))
      as [Heq|Hne]; simpl; congruence.
Qed.

(** C5, amended. A line that contains "You have been slain", and that neither
    the position pattern nor the zone pattern matches, sets the corpse flag
    and copies the position and the zone into the corpse fields, whether
    the flag was set before or not. *)
Theorem death_recorded e reader before entry :
  Contains (Eqlog.Line entry) "You have been slain" = true ->
  locFind (Eqlog.Line entry) = None ->
  zoneFind (Eqlog.Line entry) = None ->
  let prev := CurrentState (ProcessLines e reader before) in
  let next := CurrentState (ProcessLines e reader (before ++ [entry])) in
  HasCorpse next = true
  /\ CorpseX next = X prev /\ CorpseY next = Y prev
  /\ CorpseZone next = Zone prev
  /\ next = setCorpse prev.
Proof.
  intros Hslain Hloc Hzone prev next. subst prev next. unfold ProcessLines.
  rewrite runLoop_snoc, (processLine_rest _ _ Hloc Hzone), Hslain.
  repeat split.
Qed.

Lemma isRecovery_phrase line : isRecovery line = true <-> recoveryPhrase line.
Proof.
  unfold isRecovery, recoveryPhrase.
  rewrite !orb_true_iff, andb_true_iff. tauto.
Qed.

(** C6, amended. A line with one of the recovery phrases that no earlier rule
    takes (it matches neither pattern and does not contain "You have been
    slain") clears the corpse flag, and a line after which a set flag is
    clear has one of the phrases. *)
Theorem corpse_recovered e reader before entry :
  recoveryPhrase (Eqlog.Line entry) ->
  locFind (Eqlog.Line entry) = None ->
  zoneFind (Eqlog.Line entry) = None ->
  Contains (Eqlog.Line entry) "You have been slain" = false ->
  HasCorpse (CurrentState (ProcessLines e reader (before ++ [entry]))) = false
  /\ (forall e' reader' before' entry',
        HasCorpse (CurrentState (ProcessLines e' reader' before')) = true ->
        HasCorpse (CurrentState (ProcessLines e' reader' (before' ++ [entry']))) = false ->
        recoveryPhrase (Eqlog.Line entry')).
Proof.
  intros Hphrase Hloc Hzone Hslain. split.
  - unfold ProcessLines.
    rewrite runLoop_snoc, (processLine_rest _ _ Hloc Hzone), Hslain.
    apply isRecovery_phrase in Hphrase. rewrite Hphrase. reflexivity.
  - clear. intros e' reader' before' entry'. unfold ProcessLines.
    rewrite runLoop_snoc.
    set (l := runLoop e' reader' before'). intros Hset Hclear.
    destruct (locFind (Eqlog.Line entry')) as [[[m1 m2] m3]|] eqn:Hloc.
    + rewrite (processLine_position _ _ _ _ _ Hloc) in Hclear. simpl in Hclear.
      destruct (negb (hasMoved l)); [congruence|].
      destruct (_ || _) in Hclear; simpl in Hclear; congruence.
    + destruct (zoneFind (Eqlog.Line entry')) as [newZone|] eqn:Hzone.
      * rewrite (processLine_zone _ _ _ Hloc Hzone) in Hclear.
        destruct (_ || _) in Hclear; [congruence|].
        destruct (negb _) in Hclear; simpl in Hclear; congruence.
      * rewrite (processLine_rest _ _ Hloc Hzone) in Hclear.
        destruct (Contains (Eqlog.Line entry') "You have been slain");
          [discriminate Hclear|].
        destruct (isRecovery (Eqlog.Line entry')) eqn:Hrec;
          [apply isRecovery_phrase; exact Hrec | congruence].
Qed.

End WithLib.


Lemma position_update_witness :
  let st := CurrentState
              (ProcessLines (lib := StrConv.exampleLib) NewEngine
                 (Eqlog.NewReader "eq")
                 ([entryOf "You have entered The Nexus."]
                    ++ [entryOf "[Sat Dec 13 21:04:11 2025] Your Location is 10, 20, 3"])) in
  X st = (-20)%float /\ Y st = (-10)%float /\ Z st = 3%float.
Proof.
  exact (position_update (lib := StrConv.exampleLib) NewEngine (Eqlog.NewReader "eq")
           [entryOf "You have entered The Nexus."]
           (entryOf "[Sat Dec 13 21:04:11 2025] Your Location is 10, 20, 3")
           "10" "20" "3" eq_refl).
Defined.

Lemma heading_update_witness :
  Heading (CurrentState
             (ProcessLines (lib := StrConv.exampleLib) NewEngine (Eqlog.NewReader "eq")
                ([entryOf "Your Location is 0, 0, 0"]
                   ++ [entryOf "Your Location is -5, -5, 0"])))
  = Atan2 (GoLib := StrConv.exampleLib) 5 5.
Proof.
  destruct (heading_update (lib := StrConv.exampleLib) NewEngine (Eqlog.NewReader "eq")
              [entryOf "Your Location is 0, 0, 0"]
              (entryOf "Your Location is -5, -5, 0") "-5" "-5" "0" eq_refl)
    as (_ & _ & Hlater).
  destruct Hlater as (_ & _ & H55).
  - apply Exists_cons_hd. discriminate.
  - apply H55; reflexivity.
Defined.

(** C2 as stated fails: the zone pattern matches this line with the group
    "The Nexus", which is not filtered and differs from the current zone,
    and the zone is not replaced: the position pattern matches too and
    rule 1 ends the iteration. *)
Lemma zone_change_counterexample :
  let line := "Your Location is 1, 2, 3. You have entered The Nexus." in
  let prev := CurrentState (ProcessLines (lib := StrConv.exampleLib) NewEngine
                              (Eqlog.NewReader "eq") []) in
  let next := CurrentState (ProcessLines (lib := StrConv.exampleLib) NewEngine
                              (Eqlog.NewReader "eq") [entryOf line]) in
  zoneFind line = Some "The Nexus"
  /\ Contains "The Nexus" "(PvP)" = false
  /\ HasSuffix "The Nexus" " area" = false
  /\ "The Nexus" <> Zone prev
  /\ Zone next <> "The Nexus".
Proof. vm_compute. repeat split; discriminate. Qed.

Lemma zone_change_witness :
  Zone (CurrentState
          (ProcessLines (lib := StrConv.exampleLib) NewEngine (Eqlog.NewReader "eq")
             ([entryOf "Your Location is 10, 20, 3"]
                ++ [entryOf "[Sat Dec 13 21:05:30 2025] You have entered The Nexus."])))
  = "The Nexus".
Proof.
  destruct (zone_change (lib := StrConv.exampleLib) NewEngine (Eqlog.NewReader "eq")
              [entryOf "Your Location is 10, 20, 3"]
              (entryOf "[Sat Dec 13 21:05:30 2025] You have entered The Nexus.")
              "The Nexus" eq_refl eq_refl) as (_ & H & _).
  apply H; reflexivity.
Defined.

(** C5 as stated fails: this line contains "You have been slain" and the
    corpse flag stays clear, because the zone pattern matches the line and
    rule 2 ends the iteration. *)
Lemma death_recorded_counterexample :
  let line := "You have been slain by a gnoll! You have entered The Nexus." in
  Contains line "You have been slain" = true
  /\ HasCorpse (CurrentState
                  (ProcessLines (lib := StrConv.exampleLib) NewEngine
                     (Eqlog.NewReader "eq") [entryOf line])) = false.
Proof. vm_compute. split; reflexivity. Qed.

Lemma death_recorded_witness :
  let next := CurrentState
                (ProcessLines (lib := StrConv.exampleLib) NewEngine (Eqlog.NewReader "eq")
                   ([entryOf "You have entered The Nexus.";
                     entryOf "Your Location is -5, -5, 0";
                     entryOf "You have been slain by a gnoll!";
                     entryOf "Your Location is -9, -9, 0"]
                      ++ [entryOf "You have been slain by a large rat!"])) in
  HasCorpse next = true /\ CorpseX next = 9%float /\ CorpseY next = 9%float
  /\ CorpseZone next = "The Nexus".
Proof.
  destruct (death_recorded (lib := StrConv.exampleLib) NewEngine (Eqlog.NewReader "eq")
              [entryOf "You have entered The Nexus.";
               entryOf "Your Location is -5, -5, 0";
               entryOf "You have been slain by a gnoll!";
               entryOf "Your Location is -9, -9, 0"]
              (entryOf "You have been slain by a large rat!")
              eq_refl eq_refl eq_refl) as (H1 & H2 & H3 & H4 & _).
  repeat split; assumption.
Defined.

(** C6 as stated fails: this line contains "You have been resurrected" and
    the corpse flag stays set, because the zone pattern matches the line
    and rule 2 ends the iteration. *)
Lemma corpse_recovered_counterexample :
  let line := "You have been resurrected. You have entered The Nexus." in
  let before := [entryOf "You have been slain by a gnoll!"] in
  Contains line "You have been resurrected" = true
  /\ HasCorpse (CurrentState
                  (ProcessLines (lib := StrConv.exampleLib) NewEngine
                     (Eqlog.NewReader "eq") before)) = true
  /\ HasCorpse (CurrentState
                  (ProcessLines (lib := StrConv.exampleLib) NewEngine
                     (Eqlog.NewReader "eq") (before ++ [entryOf line]))) = true.
Proof. vm_compute. repeat split. Qed.

Lemma corpse_recovered_witness :
  HasCorpse (CurrentState
               (ProcessLines (lib := StrConv.exampleLib) NewEngine (Eqlog.NewReader "eq")
                  ([entryOf "You have been slain by a gnoll!"]
                     ++ [entryOf "You have been resurrected!"]))) = false.
Proof.
  refine (proj1 (corpse_recovered (lib := StrConv.exampleLib) NewEngine
                   (Eqlog.NewReader "eq")
                   [entryOf "You have been slain by a gnoll!"]
                   (entryOf "You have been resurrected!") _ eq_refl eq_refl eq_refl)).
  right. right. left. reflexivity.
Defined.

End ParserFacts.

(** ** The zone pattern *)

Module PatternFacts.
Import GoStrings LogPatterns.


Lemma CutPrefix_app p t : CutPrefix (p +:+ t) p = Some t.
Proof.
  induction p as [|c p IH]; simpl; [reflexivity|].
  rewrite Ascii.eqb_refl. exact IH.
Qed.

Lemma Contains_byte c r d :
  Contains (String c r) (String d EmptyString)
  = Ascii.eqb d c || Contains r (String d EmptyString).
Proof.
  simpl. unfold HasPrefix at 1. simpl.
  destruct (Ascii.eqb d c); reflexivity.
Qed.

Lemma Contains_byte_app a b d :
  Contains (a +:+ b) (String d EmptyString)
  = Contains a (String d EmptyString) || Contains b (String d EmptyString).
Proof.
  induction a as [|c a IH].
  - reflexivity.
  - change (String c a +:+ b) with (String c (a +:+ b)).
    rewrite !Contains_byte, IH, orb_assoc. reflexivity.
Qed.

Lemma spanDot_line t : Contains t LF = false -> spanDot t = t.
Proof.
  induction t as [|c t IH]; [reflexivity|].
  unfold LF. rewrite Contains_byte. intros H.
  apply orb_false_iff in H as [Hc Ht].
  simpl. unfold isDotChar. rewrite Ascii.eqb_sym, Hc. simpl.
  rewrite (IH Ht). reflexivity.
Qed.

Lemma beforeLastPeriod_none rest :
  Contains rest "." = false -> beforeLastPeriod rest = None.
Proof.
  induction rest as [|c r IH]; [reflexivity|].
  rewrite Contains_byte. intros H. apply orb_false_iff in H as [Hc Hr].
  simpl. rewrite (IH Hr), Ascii.eqb_sym, Hc. reflexivity.
Qed.

Lemma beforeLastPeriod_last a rest :
  Contains rest "." = false ->
  beforeLastPeriod (a +:+ "." +:+ rest) = Some a.
Proof.
  intros Hrest. induction a as [|c a IH].
  - change (EmptyString +:+ "." +:+ rest) with (String "." rest).
    cbn [beforeLastPeriod]. rewrite (beforeLastPeriod_none _ Hrest). reflexivity.
  - change (String c a +:+ "." +:+ rest) with (String c (a +:+ "." +:+ rest)).
    cbn [beforeLastPeriod]. rewrite IH. reflexivity.
Qed.

(** The group ends at the last period within reach. *)
Lemma zoneGroup_last name rest :
  name <> EmptyString ->
  Contains rest "." = false ->
  Contains (name +:+ "." +:+ rest) LF = false ->
  zoneGroup (name +:+ "." +:+ rest) = Some name.
Proof.
  intros Hname Hrest Hline. unfold zoneGroup.
  rewrite (spanDot_line _ Hline).
  destruct name as [|c name]; [contradiction|].
  change (String c name +:+ "." +:+ rest) with (String c (name +:+ "." +:+ rest)).
  cbv beta iota.
  rewrite (beforeLastPeriod_last _ _ Hrest). reflexivity.
Qed.

Lemma zoneFind_head s z : zoneAt s = Some z -> zoneFind s = Some z.
Proof. intros H. destruct s; cbn [zoneFind]; rewrite H; reflexivity. Qed.

Lemma zoneFind_tail c s :
  zoneAt (String c s) = None -> zoneFind (String c s) = zoneFind s.
Proof. intros H. cbn [zoneFind]. rewrite H. reflexivity. Qed.

Lemma lastZoneOf_snoc lines line :
  Eqlog.lastZoneOf (lines ++ [line])%list
  = match zoneFind line with
    | Some z => z
    | None => Eqlog.lastZoneOf lines
    end.
Proof. unfold Eqlog.lastZoneOf. rewrite fold_left_app. reflexivity. Qed.

(** C10. In a line (no line feed in it) whose first "You have entered " is
    followed by [name], a period and a rest without period, the group of the
    zone pattern is [name], however many periods [name] holds: the capture
    runs to the last period of the line.  [detectInitialZone] takes the
    same group from the last line of its window. *)
Theorem zone_capture_greedy pre name rest :
  name <> EmptyString ->
  Contains rest "." = false ->
  Contains (name +:+ "." +:+ rest) LF = false ->
  (forall a b, pre = a +:+ b -> b <> EmptyString ->
               HasPrefix (b +:+ entered +:+ name +:+ "." +:+ rest) entered = false) ->
  let line := pre +:+ entered +:+ name +:+ "." +:+ rest in
  zoneFind line = Some name
  /\ (forall r (window : list string),
        Eqlog.InitialZone (Eqlog.detectInitialZone r (Some (window ++ [line])%list)) = name)
  /\ zoneFind "You have entered The Nexus. It is raining."
     = Some "The Nexus. It is raining".
Proof.
  intros Hname Hrest Hline Hfirst line.
  assert (Hfind : zoneFind line = Some name).
  { subst line. induction pre as [|c pre IH].
    - change (EmptyString +:+ entered +:+ name +:+ "." +:+ rest)
        with (entered +:+ (name +:+ "." +:+ rest)).
      apply zoneFind_head.
      unfold zoneAt. fold entered. rewrite CutPrefix_app.
      apply zoneGroup_last; assumption.
    - change (String c pre +:+ entered +:+ name +:+ "." +:+ rest)
        with (String c (pre +:+ entered +:+ name +:+ "." +:+ rest)).
      assert (Hno : zoneAt (String c (pre +:+ entered +:+ name +:+ "." +:+ rest)) = None).
      { unfold zoneAt. fold entered.
        specialize (Hfirst EmptyString (String c pre) eq_refl ltac:(discriminate)).
        unfold HasPrefix in Hfirst.
        change (String c pre +:+ entered +:+ name +:+ "." +:+ rest)
          with (String c (pre +:+ entered +:+ name +:+ "." +:+ rest)) in Hfirst.
        destruct (CutPrefix _ entered); [discriminate Hfirst | reflexivity]. }
      rewrite (zoneFind_tail _ _ Hno). apply IH.
      intros a b Hab Hb. apply (Hfirst (String c a) b); [|exact Hb].
      rewrite Hab. reflexivity. }
  split; [exact Hfind|]. split; [|reflexivity].
  intros r window. unfold Eqlog.detectInitialZone.
  rewrite lastZoneOf_snoc, Hfind.
  destruct (String.eqb_spec name EmptyString) as [Heq|_]; [contradiction|].
  reflexivity.
Qed.

Lemma zone_capture_greedy_witness :
  zoneFind "You have entered The Nexus. It is raining. Again" = Some "The Nexus. It is raining"
  /\ Eqlog.InitialZone
       (Eqlog.detectInitialZone (Eqlog.NewReader "eq")
          (Some (["You have entered East Commonlands."]
                   ++ ["You have entered The Nexus. It is raining. Again"])%list))
     = "The Nexus. It is raining".
Proof.
  destruct (zone_capture_greedy EmptyString "The Nexus. It is raining" " Again")
    as (H1 & H2 & _).
  - discriminate.
  - reflexivity.
  - reflexivity.
  - intros a b Hab Hb. destruct a, b; try discriminate Hab. contradiction.
  - split; [exact H1 | apply H2].
Defined.

End PatternFacts.

(** ** The zone map loader *)

Module MapsFacts.
Import GoStrings StrConv Maps MapsSpec.

Section WithLib.
Context {lib : GoLib}.

Lemma parseLine_item zm count rawLine :
  parseLine (zm, count) rawLine
  = match itemOf rawLine with
    | Some it => (addItem zm it, (count + 1)%Z)
    | None => (zm, count)
    end.
Proof.
  unfold parseLine, itemOf, fieldsOf.
  destruct (String.eqb _ EmptyString); [reflexivity|].
  destruct (findCommand _) as [[[|] after]|]; [| |reflexivity].
  - destruct (6 <=? _)%nat; reflexivity.
  - destruct (7 <=? _)%nat; reflexivity.
Qed.

Lemma parseLines_items lines zm count :
  fold_left parseLine lines (zm, count)
  = (fold_left addItem (itemsOf lines) zm,
     (count + Z.of_nat (length (itemsOf lines)))%Z).
Proof.
  revert zm count. induction lines as [|rawLine lines IH]; intros zm count.
  - simpl. f_equal. lia.
  - cbn [fold_left]. rewrite parseLine_item. unfold itemsOf. cbn [omap list_omap].
    fold (itemsOf lines).
    destruct (itemOf rawLine) as [it|]; rewrite IH; [|reflexivity].
    cbn [fold_left length]. f_equal. lia.
Qed.

End WithLib.



Lemma updateBounds_geometry zm x y :
  Name (updateBounds zm x y) = Name zm
  /\ Lines (updateBounds zm x y) = Lines zm
  /\ Labels (updateBounds zm x y) = Labels zm.
Proof. repeat split. Qed.

(** The geometry of a map after items were added: they are appended in
    order, and the name stays. *)
Lemma addItems_geometry items zm :
  let zm' := fold_left addItem items zm in
  Name zm' = Name zm
  /\ Lines zm' = Lines zm ++ segmentsOf items
  /\ Labels zm' = Labels zm ++ labelsOf items.
Proof.
  revert zm. induction items as [|it items IH]; intros zm.
  - simpl. rewrite !app_nil_r. repeat split.
  - cbn [fold_left]. destruct (IH (addItem zm it)) as (HN & HL & HP).
    cbv zeta. rewrite HN, HL, HP.
    destruct it as [l|p]; simpl; rewrite <- ?app_assoc; repeat split.
Qed.

Section WithFiles.
Context {lib : GoLib} {fs : FileSystem}.

Lemma parseFile_items zm path :
  parseFile zm path
  = (fold_left addItem (itemsIn path) zm,
     Z.of_nat (length (itemsIn path)),
     match OpenScan path with Some _ => false | None => true end).
Proof.
  unfold parseFile, itemsIn. destruct (OpenScan path) as [lines|]; [|reflexivity].
  rewrite parseLines_items. reflexivity.
Qed.


Lemma loadTarget_items fileMap zm found target :
  loadTarget fileMap (zm, found) target
  = match fileMap !! target with
    | Some realPath =>
        (fold_left addItem (itemsIn realPath) zm, found || nonEmpty (itemsIn realPath))
    | None => (zm, found)
    end.
Proof.
  unfold loadTarget. destruct (fileMap !! target) as [realPath|]; [|reflexivity].
  rewrite parseFile_items.
  destruct (OpenScan realPath) as [lines|] eqn:Hopen.
  - destruct (itemsIn realPath) as [|it items]; simpl.
    + rewrite orb_false_r. reflexivity.
    + rewrite orb_true_r. reflexivity.
  - unfold itemsIn. rewrite Hopen. simpl. rewrite orb_false_r. reflexivity.
Qed.


Lemma loadTargets_items fileMap targets zm found :
  fold_left (loadTarget fileMap) targets (zm, found)
  = (fold_left addItem (flat_map itemsIn (present fileMap targets)) zm,
     found || existsb (fun p => nonEmpty (itemsIn p)) (present fileMap targets)).
Proof.
  revert zm found. induction targets as [|target targets IH]; intros zm found.
  - simpl. rewrite orb_false_r. reflexivity.
  - cbn [fold_left]. rewrite loadTarget_items. unfold present. cbn [omap list_omap].
    fold (present fileMap targets).
    destruct (fileMap !! target) as [realPath|]; rewrite IH; [|reflexivity].
    cbn [flat_map existsb]. rewrite fold_left_app, orb_assoc. reflexivity.
Qed.

Lemma indexFiles_from allFiles (m : gmap string string) target :
  fold_left (fun fileMap path => <[ToLower (Base path) := path]> fileMap) allFiles m
    !! target = None
  <-> m !! target = None /\ Forall (fun path => ToLower (Base path) <> target) allFiles.
Proof.
  revert m. induction allFiles as [|path allFiles IH]; intros m.
  - simpl. split; [intros H; split; [exact H | constructor] | tauto].
  - cbn [fold_left]. rewrite IH, lookup_insert_None, Forall_cons. tauto.
Qed.

Lemma indexFiles_none allFiles target :
  indexFiles allFiles !! target = None
  <-> Forall (fun path => ToLower (Base path) <> target) allFiles.
Proof.
  unfold indexFiles. rewrite indexFiles_from, lookup_empty. tauto.
Qed.




End WithFiles.

End MapsFacts.

(** ** The bounding box and the colours *)

Module BoundsFacts.
Import GoStrings StrConv Maps MapsSpec MapsFacts.

Lemma isLeast_step sentinel m xs x :
  isLeast sentinel m xs ->
  isLeast sentinel (if PrimFloat.ltb x m then x else m) (xs ++ [x]).
Proof.
  intros (Hnan & Hs & Hall & Hin). unfold isLeast.
  destruct (PrimFloat.ltb x m) eqn:Hlt.
  - destruct (Float64Facts.ltb_not_nan _ _ Hlt) as [Hx _].
    split; [exact Hx|]. split; [exact (Float64Facts.ltb_leb_trans _ _ _ Hlt Hs)|].
    split.
    + apply Forall_app. split.
      * eapply List.Forall_impl; [|exact Hall]. intros x0 H0 Hx0.
        exact (Float64Facts.ltb_leb_trans _ _ _ Hlt (H0 Hx0)).
      * constructor; [|constructor]. intros _. exact (Float64Facts.leb_refl _ Hx).
    + right. apply in_or_app. right. left. reflexivity.
  - split; [exact Hnan|]. split; [exact Hs|]. split.
    + apply Forall_app. split; [exact Hall|].
      constructor; [|constructor]. intros Hx.
      exact (Float64Facts.not_ltb_leb _ _ Hx Hnan Hlt).
    + destruct Hin as [Hin|Hin]; [left; exact Hin|].
      right. apply in_or_app. left. exact Hin.
Qed.

Lemma isGreatest_step sentinel m xs x :
  isGreatest sentinel m xs ->
  isGreatest sentinel (if PrimFloat.ltb m x then x else m) (xs ++ [x]).
Proof.
  intros (Hnan & Hs & Hall & Hin). unfold isGreatest.
  destruct (PrimFloat.ltb m x) eqn:Hlt.
  - destruct (Float64Facts.ltb_not_nan _ _ Hlt) as [_ Hx].
    split; [exact Hx|]. split; [exact (Float64Facts.leb_ltb_trans' _ _ _ Hs Hlt)|].
    split.
    + apply Forall_app. split.
      * eapply List.Forall_impl; [|exact Hall]. intros x0 H0 Hx0.
        exact (Float64Facts.leb_ltb_trans' _ _ _ (H0 Hx0) Hlt).
      * constructor; [|constructor]. intros _. exact (Float64Facts.leb_refl _ Hx).
    + right. apply in_or_app. right. left. reflexivity.
  - split; [exact Hnan|]. split; [exact Hs|]. split.
    + apply Forall_app. split; [exact Hall|].
      constructor; [|constructor]. intros Hx.
      exact (Float64Facts.not_ltb_leb _ _ Hnan Hx Hlt).
    + destruct Hin as [Hin|Hin]; [left; exact Hin|].
      right. apply in_or_app. left. exact Hin.
Qed.


Lemma boxed_empty zoneName : boxed (emptyZone zoneName).
Proof.
  unfold boxed, isLeast, isGreatest. simpl.
  repeat split; first [reflexivity | apply List.Forall_nil | (left; reflexivity)].
Qed.

Lemma endpointsX_snoc ls l :
  endpointsX (ls ++ [l]) = (endpointsX ls ++ [MapLine.X1 l]) ++ [MapLine.X2 l].
Proof. unfold endpointsX. rewrite flat_map_app. simpl. rewrite <- app_assoc. reflexivity. Qed.

Lemma endpointsY_snoc ls l :
  endpointsY (ls ++ [l]) = (endpointsY ls ++ [MapLine.Y1 l]) ++ [MapLine.Y2 l].
Proof. unfold endpointsY. rewrite flat_map_app. simpl. rewrite <- app_assoc. reflexivity. Qed.

Lemma boxed_addItem zm it : boxed zm -> boxed (addItem zm it).
Proof.
  intros (HminX & HmaxX & HminY & HmaxY). destruct it as [l|p].
  - unfold boxed. cbn [addItem updateBounds Lines MinX MaxX MinY MaxY].
    rewrite endpointsX_snoc, endpointsY_snoc.
    split; [|split; [|split]].
    + apply isLeast_step, isLeast_step, HminX.
    + apply isGreatest_step, isGreatest_step, HmaxX.
    + apply isLeast_step, isLeast_step, HminY.
    + apply isGreatest_step, isGreatest_step, HmaxY.
  - exact (conj HminX (conj HmaxX (conj HminY HmaxY))).
Qed.

Lemma boxed_addItems items zm : boxed zm -> boxed (fold_left addItem items zm).
Proof.
  revert zm. induction items as [|it items IH]; intros zm H; [exact H|].
  apply IH, boxed_addItem, H.
Qed.

Section WithFiles.
Context {lib : GoLib} {fs : FileSystem}.

Lemma LoadZone_boxed mapDir zoneName zm :
  LoadZone mapDir zoneName = Loaded zm -> boxed zm.
Proof.
  unfold LoadZone. destruct (GlobAll mapDir) as [allFiles|]; [|discriminate].
  rewrite loadTargets_items. destruct (negb _); [discriminate|].
  intros [= <-]. apply boxed_addItems, boxed_empty.
Qed.

(** C7, amended. In a map [LoadZone] returns, [MinX] is the least of the
    sentinel 99999 and the x of the segment endpoints (those that are
    numbers), [MaxX] the greatest of -99999 and these, and the same for y;
    labels do not count.  So every endpoint with coordinates that are
    numbers lies in the box.  The box starts as the inverted range from
    99999 to -99999, and a first point strictly inside the sentinels makes
    it that point. *)
Theorem bounds_cover mapDir zoneName zm :
  LoadZone mapDir zoneName = Loaded zm ->
  (isLeast 99999 (MinX zm) (endpointsX (Lines zm))
   /\ isGreatest (-99999) (MaxX zm) (endpointsX (Lines zm))
   /\ isLeast 99999 (MinY zm) (endpointsY (Lines zm))
   /\ isGreatest (-99999) (MaxY zm) (endpointsY (Lines zm)))
  /\ (forall l x y,
        In l (Lines zm) ->
        (x, y) = (MapLine.X1 l, MapLine.Y1 l) \/ (x, y) = (MapLine.X2 l, MapLine.Y2 l) ->
        (Float64.isNaN x = false ->
         PrimFloat.leb (MinX zm) x = true /\ PrimFloat.leb x (MaxX zm) = true)
        /\ (Float64.isNaN y = false ->
            PrimFloat.leb (MinY zm) y = true /\ PrimFloat.leb y (MaxY zm) = true))
  /\ (forall name,
        MinX (emptyZone name) = 99999%float /\ MaxX (emptyZone name) = (-99999)%float
        /\ MinY (emptyZone name) = 99999%float /\ MaxY (emptyZone name) = (-99999)%float)
  /\ (forall name x y,
        PrimFloat.ltb (-99999) x = true -> PrimFloat.ltb x 99999 = true ->
        PrimFloat.ltb (-99999) y = true -> PrimFloat.ltb y 99999 = true ->
        let zm1 := updateBounds (emptyZone name) x y in
        MinX zm1 = x /\ MaxX zm1 = x /\ MinY zm1 = y /\ MaxY zm1 = y).
Proof.
  intros Hload. pose proof (LoadZone_boxed _ _ _ Hload) as Hbox.
  split; [exact Hbox|]. split; [|split].
  - destruct Hbox as ((_ & _ & HminX & _) & (_ & _ & HmaxX & _)
                      & (_ & _ & HminY & _) & (_ & _ & HmaxY & _)).
    rewrite List.Forall_forall in HminX, HmaxX, HminY, HmaxY.
    intros l x y Hl Hxy.
    assert (In x (endpointsX (Lines zm)) /\ In y (endpointsY (Lines zm))) as [Hx Hy].
    { unfold endpointsX, endpointsY. rewrite !in_flat_map.
      destruct Hxy as [[= -> ->]|[= -> ->]]; split; exists l; simpl; tauto. }
    split; intros Hnan; split; auto.
  - intros name. repeat split.
  - intros name x y Hx1 Hx2 Hy1 Hy2. simpl. rewrite Hx1, Hx2, Hy1, Hy2. repeat split.
Qed.

(** C9, amended. The colour of the segment an [L] line with fields [parts] (six at
    least) is accepted as: mid-gray 150 with fewer than nine fields; gray
    130 when the three channels parse to 0; otherwise the parsed channels,
    each reduced to its low eight bits, with full alpha, which is the
    parsed value for a channel from 0 to 255.  The colour is pure black
    exactly when the channels are not all 0 and all multiples of 256. *)
Theorem segment_color rawLine parts zm count :
  fieldsOf rawLine = Some (CmdL, parts) ->
  (6 <= length parts)%nat ->
  let l := parseSegment parts in
  let r := parseInt (field parts 6) in
  let g := parseInt (field parts 7) in
  let b := parseInt (field parts 8) in
  let unset := (r = 0 /\ g = 0 /\ b = 0)%Z in
  parseLine (zm, count) rawLine = (addItem zm (Segment l), (count + 1)%Z)
  /\ ((length parts < 9)%nat ->
      MapLine.Color l = {| R := 150; G := 150; B := 150; A := 255 |})
  /\ ((9 <= length parts)%nat -> unset ->
      MapLine.Color l = {| R := 130; G := 130; B := 130; A := 255 |})
  /\ ((9 <= length parts)%nat -> ~ unset ->
      MapLine.Color l
      = {| R := r mod 256; G := g mod 256; B := b mod 256; A := 255 |})
  /\ ((9 <= length parts)%nat -> ~ unset ->
      (0 <= r <= 255)%Z -> (0 <= g <= 255)%Z -> (0 <= b <= 255)%Z ->
      MapLine.Color l = {| R := r; G := g; B := b; A := 255 |}
      /\ MapLine.Color l <> black)
  /\ (MapLine.Color l = black
      <-> (9 <= length parts)%nat /\ ~ unset
          /\ (r mod 256 = 0 /\ g mod 256 = 0 /\ b mod 256 = 0)%Z).
Proof.
  intros Hfields Hlen l r g b unset.
  assert (Hcolor : MapLine.Color l
                   = if (9 <=? length parts)%nat
                     then if (r =? 0)%Z && (g =? 0)%Z && (b =? 0)%Z
                          then {| R := 130; G := 130; B := 130; A := 255 |}
                          else {| R := r mod 256; G := g mod 256; B := b mod 256; A := 255 |}
                     else {| R := 150; G := 150; B := 150; A := 255 |}).
  { reflexivity. }
  assert (Hunset : (r =? 0)%Z && (g =? 0)%Z && (b =? 0)%Z = true <-> unset).
  { unfold unset. rewrite !andb_true_iff, !Z.eqb_eq. tauto. }
  split.
  { rewrite parseLine_item. unfold itemOf. rewrite Hfields.
    apply Nat.leb_le in Hlen. rewrite Hlen. reflexivity. }
  rewrite Hcolor. clear Hcolor.
  destruct (Nat.leb_spec 9 (length parts)) as [H9|H9];
    [destruct ((r =? 0)%Z && (g =? 0)%Z && (b =? 0)%Z) eqn:Hz;
     [assert (Hu : unset) by (apply Hunset; reflexivity)
     |assert (Hnot : ~ unset) by (intros Hu; apply Hunset in Hu; discriminate Hu)]|].
  - split; [lia|]. split; [reflexivity|].
    split; [intros _ Hn; contradiction|].
    split; [intros _ Hn; contradiction|].
    split; [intros H; discriminate H | intros (_ & Hn & _); contradiction].
  - split; [lia|]. split; [intros _ Hu; contradiction|].
    split; [reflexivity|]. split.
    + intros _ _ Hr Hg Hb. rewrite !Z.mod_small by lia.
      split; [reflexivity|]. unfold black. intros [= Hr0 Hg0 Hb0].
      apply Hnot. unfold unset. lia.
    + unfold black. split.
      * intros [= Hr0 Hg0 Hb0]. repeat split; assumption.
      * intros (_ & _ & -> & -> & ->). reflexivity.
  - split; [reflexivity|]. split; [lia|]. split; [lia|]. split; [lia|].
    split; [intros H; discriminate H | lia].
Qed.

End WithFiles.

End BoundsFacts.

(** ** The tailer and the engine *)

Module TrimFacts.
Import GoStrings.


Lemma revOnto_app s t acc : revOnto (s +:+ t) acc = revOnto t (revOnto s acc).
Proof.
  revert acc. induction s as [|c s IH]; intros acc; [reflexivity|].
  change (String c s +:+ t) with (String c (s +:+ t)).
  cbn [revOnto]. apply IH.
Qed.

Lemma reverse_LF s : reverse (s +:+ LF) = String "010" (reverse s).
Proof. unfold reverse. rewrite revOnto_app. reflexivity. Qed.

Lemma isSpace2_LF c : isSpace2 c "010" = false.
Proof. unfold isSpace2. cbn. rewrite andb_false_r. reflexivity. Qed.

Lemma isSpace3_LF c d : isSpace3 c d "010" = false.
Proof.
  unfold isSpace3. cbn.
  rewrite !andb_false_r. reflexivity.
Qed.

(** The line feed after a line is dropped with the white space before it
    and otherwise stays at the end. *)
Lemma dropSpace_LF n : forall s,
  (String.length s <= n)%nat ->
  dropSpace false (s +:+ LF)
  = match dropSpace false s with
    | EmptyString => EmptyString
    | String c r => String c r +:+ LF
    end.
Proof.
  induction n as [|n IH]; intros s Hlen.
  - destruct s; [reflexivity | simpl in Hlen; lia].
  - destruct s as [|c r]; [reflexivity|].
    change (String c r +:+ LF) with (String c (r +:+ LF)).
    cbn [dropSpace]. simpl in Hlen.
    destruct (isSpace1 c); [apply IH; lia|].
    destruct r as [|d r1].
    + change (EmptyString +:+ LF) with (String "010" EmptyString).
      cbv iota. rewrite isSpace2_LF. reflexivity.
    + change (String d r1 +:+ LF) with (String d (r1 +:+ LF)). cbv iota.
      simpl in Hlen.
      destruct (isSpace2 c d); [apply IH; lia|].
      destruct r1 as [|e r2].
      * change (EmptyString +:+ LF) with (String "010" EmptyString).
        cbv iota. rewrite isSpace3_LF. reflexivity.
      * change (String e r2 +:+ LF) with (String e (r2 +:+ LF)). cbv iota.
        simpl in Hlen.
        destruct (isSpace3 c d e); [apply IH; lia | reflexivity].
Qed.

Lemma TrimSpace_LF s : TrimSpace (s +:+ LF) = TrimSpace s.
Proof.
  unfold TrimSpace. rewrite (dropSpace_LF (String.length s) s (le_n _)).
  destruct (dropSpace false s) as [|c r]; [reflexivity|].
  rewrite reverse_LF. reflexivity.
Qed.

End TrimFacts.

Module PipelineFacts.
Import GoStrings Pipeline PipelineSpec TrimFacts.

Lemma written_LF l : written l = l +:+ LF.
Proof. reflexivity. Qed.

Lemma append_assoc (a b c : string) : (a +:+ b) +:+ c = a +:+ (b +:+ c).
Proof.
  induction a as [|x a IH]; [reflexivity|].
  change ((String x a +:+ b) +:+ c) with (String x ((a +:+ b) +:+ c)).
  rewrite IH. reflexivity.
Qed.

Lemma append_nil_r (a : string) : a +:+ EmptyString = a.
Proof.
  induction a as [|x a IH]; [reflexivity|].
  change (String x a +:+ EmptyString) with (String x (a +:+ EmptyString)).
  rewrite IH. reflexivity.
Qed.

Lemma writtenAll_app a b : writtenAll (a ++ b) = writtenAll a +:+ writtenAll b.
Proof.
  induction a as [|l a IH]; [reflexivity|].
  cbn [app writtenAll]. rewrite IH, append_assoc. reflexivity.
Qed.

Lemma cleanLines_app a b : cleanLines (a ++ b) = cleanLines a ++ cleanLines b.
Proof. unfold cleanLines. rewrite map_app, List.filter_app. reflexivity. Qed.

Lemma cleanLines_cons l ls :
  cleanLines (l :: ls)
  = if negb (String.eqb (TrimSpace l) EmptyString)
    then TrimSpace l :: cleanLines ls
    else cleanLines ls.
Proof. reflexivity. Qed.

(** Reading returns the first line, whole, when the bytes begin with one. *)
Lemma ReadString_line l rest :
  isLine l = true ->
  Eqlog.ReadString (written l +:+ rest) = (written l, true, rest).
Proof.
  unfold isLine. rewrite negb_true_iff.
  induction l as [|c l IH]; intros Hl.
  - reflexivity.
  - change (Contains (String c l) (String "010" EmptyString) = false) in Hl.
    rewrite PatternFacts.Contains_byte in Hl.
    apply orb_false_iff in Hl as [Hc Hl].
    change (written (String c l) +:+ rest) with (String c (written l +:+ rest)).
    cbn [Eqlog.ReadString]. rewrite Ascii.eqb_sym, Hc, (IH Hl). reflexivity.
Qed.


Section WithLib.
Context {lib : GoLib}.

Lemma accounted_start e r pre :
  Eqlog.Lines r = [] ->
  Forall (fun l => isLine l = true) pre ->
  accounted e r pre (start r e (writtenAll pre)).
Proof.
  intros Hr Hpre. exists pre. simpl. rewrite Hr. simpl.
  repeat split; try assumption. unfold Eqlog.capacity. lia.
Qed.

Lemma accounted_append e r0 hist s l :
  isLine l = true ->
  accounted e r0 hist s ->
  accounted e r0 (hist ++ [l]) (step s (Append (written l))).
Proof.
  intros Hl (pending & Hun & Hlines & Heq & Hcap & Hloop).
  exists (pending ++ [l]). cbn [step tailer reader received loop Eqlog.unread].
  split.
  { rewrite Hun, writtenAll_app. cbn [writtenAll]. rewrite append_nil_r. reflexivity. }
  split; [apply Forall_app; split; [exact Hlines | constructor; [exact Hl | constructor]]|].
  split; [|split; assumption].
  rewrite !cleanLines_app, <- Heq. unfold held. cbn [Eqlog.sending].
  rewrite <- !app_assoc. reflexivity.
Qed.

Lemma accounted_tail e r0 hist s now :
  accounted e r0 hist s -> accounted e r0 hist (step s (Tail now)).
Proof.
  intros (pending & Hun & Hlines & Heq & Hcap & Hloop).
  cbn [step]. unfold Eqlog.pollAndReadStep, held in *.
  destruct (Eqlog.sending (tailer s)) as [entry|] eqn:Hsend.
  - destruct (Nat.ltb_spec (length (Eqlog.Lines (reader s))) Eqlog.capacity) as [Hroom|Hfull].
    + exists pending. cbn. rewrite map_app, length_app. cbn.
      repeat split; try assumption; [|lia].
      rewrite <- Heq, <- !app_assoc. reflexivity.
    + exists pending. cbn. unfold held. rewrite Hsend. repeat split; assumption.
  - rewrite Hun. destruct pending as [|l pending].
    + cbn. exists []. cbn. repeat split; assumption.
    + cbn [writtenAll]. inversion Hlines as [|? ? Hl Hrest]; subst.
      rewrite (ReadString_line _ _ Hl). cbn [negb].
      rewrite written_LF, TrimSpace_LF.
      rewrite cleanLines_cons in Heq.
      destruct (negb (String.eqb (TrimSpace l) EmptyString));
        exists pending; cbn; repeat split; assumption.
Qed.

Lemma accounted_consume e r0 hist s :
  accounted e r0 hist s -> accounted e r0 hist (step s Consume).
Proof.
  intros (pending & Hun & Hlines & Heq & Hcap & Hloop).
  cbn [step]. destruct (Eqlog.Lines (reader s)) as [|entry rest] eqn:Hq.
  - exists pending. rewrite Hq. repeat split; assumption.
  - exists pending. cbn. cbn in Hcap.
    repeat split; try assumption; [| lia |].
    + rewrite map_app, <- Heq, <- !app_assoc. reflexivity.
    + rewrite Hloop. symmetry. apply ParserFacts.runLoop_snoc.
Qed.

Lemma accounted_run e r0 evs : forall ls hist s,
  writes evs ls ->
  accounted e r0 hist s ->
  accounted e r0 (hist ++ ls) (run s evs).
Proof.
  induction evs as [|ev evs IH]; intros ls hist s Hw Hs.
  - cbn in Hw. subst ls. rewrite app_nil_r. exact Hs.
  - unfold run. cbn [fold_left]. fold (run (step s ev) evs).
    destruct ev as [bytes|now|].
    + destruct ls as [|l ls]; [destruct Hw|]. destruct Hw as (Hl & -> & Hw).
      replace (hist ++ l :: ls) with ((hist ++ [l]) ++ ls)
        by (rewrite <- app_assoc; reflexivity).
      apply IH; [exact Hw|]. apply accounted_append; assumption.
    + apply IH; [exact Hw|]. apply accounted_tail, Hs.
    + apply IH; [exact Hw|]. apply accounted_consume, Hs.
Qed.

Lemma run_app s a b : run s (a ++ b) = run (run s a) b.
Proof. unfold run. apply fold_left_app. Qed.

(** Receiving as often as the channel holds lines empties it. *)
Lemma drain_channel : forall q s,
  Eqlog.Lines (reader s) = q ->
  let s' := run s (repeat Consume (length q)) in
  received s' = received s ++ q
  /\ Eqlog.Lines (reader s') = []
  /\ tailer s' = tailer s.
Proof.
  induction q as [|entry q IH]; intros s Hq.
  - cbn. rewrite app_nil_r. repeat split. exact Hq.
  - cbn [length repeat]. unfold run. cbn [fold_left].
    fold (run (step s Consume) (repeat Consume (length q))).
    assert (Hstep : received (step s Consume) = received s ++ [entry]
                    /\ Eqlog.Lines (reader (step s Consume)) = q
                    /\ tailer (step s Consume) = tailer s).
    { cbn [step]. rewrite Hq. repeat split. }
    destruct Hstep as (Hr & Hl & Ht).
    destruct (IH (step s Consume) Hl) as (Hr' & Hl' & Ht').
    cbv zeta. rewrite Hr', Hl', Ht', Hr, Ht, <- app_assoc. repeat split.
Qed.

(** With the channel empty, a held line is sent and received in two moves. *)
Lemma flush_held s entry :
  Eqlog.Lines (reader s) = [] ->
  Eqlog.sending (tailer s) = Some entry ->
  let s' := run s [Tail 0; Consume] in
  received s' = received s ++ [entry]
  /\ Eqlog.Lines (reader s') = []
  /\ Eqlog.sending (tailer s') = None
  /\ Eqlog.unread (tailer s') = Eqlog.unread (tailer s).
Proof.
  intros Hq Hsend. unfold run. cbn [fold_left step].
  unfold Eqlog.pollAndReadStep. rewrite Hsend, Hq. cbn. repeat split.
Qed.

Lemma deliver_pending : forall pending s,
  Eqlog.Lines (reader s) = [] ->
  Eqlog.sending (tailer s) = None ->
  Eqlog.unread (tailer s) = writtenAll pending ->
  Forall (fun l => isLine l = true) pending ->
  let s' := run s (deliver pending) in
  map Eqlog.Line (received s') = map Eqlog.Line (received s) ++ cleanLines pending
  /\ Eqlog.Lines (reader s') = [].
Proof.
  induction pending as [|l pending IH]; intros s Hq Hsend Hun Hlines.
  - cbn. rewrite app_nil_r. split; [reflexivity | exact Hq].
  - inversion Hlines as [|? ? Hl Hrest]; subst.
    unfold deliver. cbn [flat_map]. fold (deliver pending).
    rewrite run_app, cleanLines_cons.
    assert (Hread : Eqlog.ReadString (Eqlog.unread (tailer s))
                    = (written l, true, writtenAll pending)).
    { rewrite Hun. cbn [writtenAll]. apply ReadString_line, Hl. }
    destruct (String.eqb (TrimSpace l) EmptyString) eqn:Hblank; cbn [negb].
    + set (s1 := run s [Tail 0]).
      assert (H1 : received s1 = received s /\ Eqlog.Lines (reader s1) = []
                   /\ Eqlog.sending (tailer s1) = None
                   /\ Eqlog.unread (tailer s1) = writtenAll pending).
      { subst s1. unfold run. cbn [fold_left step]. unfold Eqlog.pollAndReadStep.
        rewrite Hsend, Hread. cbn [negb].
        rewrite written_LF, TrimSpace_LF, Hblank. cbn. repeat split. exact Hq. }
      destruct H1 as (Hr1 & Hq1 & Hs1 & Hu1).
      destruct (IH s1 Hq1 Hs1 Hu1 Hrest) as (Hr' & Hq').
      cbv zeta. rewrite Hr', Hr1. split; [reflexivity | exact Hq'].
    + set (s1 := run s [Tail 0; Tail 0; Consume]).
      assert (H1 : map Eqlog.Line (received s1)
                   = map Eqlog.Line (received s) ++ [TrimSpace l]
                   /\ Eqlog.Lines (reader s1) = []
                   /\ Eqlog.sending (tailer s1) = None
                   /\ Eqlog.unread (tailer s1) = writtenAll pending).
      { subst s1. unfold run. cbn [fold_left step]. unfold Eqlog.pollAndReadStep.
        rewrite Hsend, Hread. cbn [negb].
        rewrite written_LF, TrimSpace_LF, Hblank. cbn. rewrite Hq. cbn.
        rewrite map_app. repeat split. }
      destruct H1 as (Hr1 & Hq1 & Hs1 & Hu1).
      destruct (IH s1 Hq1 Hs1 Hu1 Hrest) as (Hr' & Hq').
      cbv zeta. rewrite Hr', Hr1, <- app_assoc. split; [reflexivity | exact Hq'].
Qed.

Lemma quiet_repeat n : Forall quiet (repeat Consume n).
Proof. induction n; cbn; constructor; [exact I | assumption]. Qed.

Lemma quiet_deliver pending : Forall quiet (deliver pending).
Proof.
  induction pending as [|l pending IH]; cbn; [constructor|].
  apply Forall_app. split; [|exact IH].
  destruct (String.eqb _ _); repeat constructor.
Qed.

(** From any accounted state the two goroutines alone bring every line owed
    to the engine. *)
Lemma accounted_delivers e r0 hist s :
  accounted e r0 hist s ->
  exists more,
    Forall quiet more
    /\ map Eqlog.Line (received (run s more)) = cleanLines hist.
Proof.
  intros (pending & Hun & Hlines & Heq & _ & _).
  set (q := Eqlog.Lines (reader s)) in *.
  destruct (drain_channel q s eq_refl) as (Hr1 & Hq1 & Ht1).
  set (s1 := run s (repeat Consume (length q))) in *.
  destruct (Eqlog.sending (tailer s)) as [entry|] eqn:Hsend.
  - assert (Hsend1 : Eqlog.sending (tailer s1) = Some entry) by (rewrite Ht1; exact Hsend).
    destruct (flush_held s1 entry Hq1 Hsend1) as (Hr2 & Hq2 & Hs2 & Hu2).
    set (s2 := run s1 [Tail 0; Consume]) in *.
    rewrite Ht1, Hun in Hu2.
    destruct (deliver_pending pending s2 Hq2 Hs2 Hu2 Hlines) as (Hr3 & _).
    exists (repeat Consume (length q) ++ [Tail 0; Consume] ++ deliver pending).
    split.
    + apply Forall_app. split; [apply quiet_repeat|].
      apply Forall_app. split; [repeat constructor | apply quiet_deliver].
    + rewrite !run_app. fold s1. fold s2. rewrite Hr3, Hr2, Hr1, <- Heq.
      unfold held. rewrite Hsend, !map_app, <- !app_assoc. reflexivity.
  - assert (Hsend1 : Eqlog.sending (tailer s1) = None) by (rewrite Ht1; exact Hsend).
    assert (Hu1 : Eqlog.unread (tailer s1) = writtenAll pending) by (rewrite Ht1; exact Hun).
    destruct (deliver_pending pending s1 Hq1 Hsend1 Hu1 Hlines) as (Hr3 & _).
    exists (repeat Consume (length q) ++ deliver pending).
    split.
    + apply Forall_app. split; [apply quiet_repeat | apply quiet_deliver].
    + rewrite run_app. fold s1. rewrite Hr3, Hr1, <- Heq.
      unfold held. rewrite Hsend, !map_app, <- !app_assoc. reflexivity.
Qed.

(** X8. The log is open with the whole lines [pre] still to read, the
    channel is empty, and the game appends the lines [ls], each whole (a
    line and its line feed in one write), while the tailer and the engine
    move in any order ([evs]).  Then what the
    engine has received followed by what the channel holds is an initial
    part of the lines owed (the lines of the file in order, trimmed, blank
    ones left out); the channel never holds more than its capacity; the
    engine has processed what it received in this order; and the two
    goroutines left to themselves bring the engine every line owed. *)
Theorem order_preserved e r pre evs ls :
  Eqlog.Lines r = [] ->
  Forall (fun l => isLine l = true) pre ->
  writes evs ls ->
  let s := run (start r e (writtenAll pre)) evs in
  let owed := cleanLines (pre ++ ls) in
  (exists later,
     owed = map Eqlog.Line (received s)
            ++ map Eqlog.Line (Eqlog.Lines (reader s)) ++ later)
  /\ (length (Eqlog.Lines (reader s)) <= Eqlog.capacity)%nat
  /\ loop s = Parser.runLoop e r (received s)
  /\ (exists more,
        Forall quiet more
        /\ map Eqlog.Line (received (run s more)) = owed).
Proof.
  intros Hr Hpre Hw s owed.
  pose proof (accounted_run e r evs ls pre _ Hw (accounted_start e r pre Hr Hpre)) as Hacc.
  fold s in Hacc. split; [|split; [|split]].
  - destruct Hacc as (pending & _ & _ & Heq & _ & _).
    exists (held (tailer s) ++ cleanLines pending). subst owed. rewrite <- Heq. reflexivity.
  - destruct Hacc as (pending & _ & _ & _ & Hcap & _). exact Hcap.
  - destruct Hacc as (pending & _ & _ & _ & _ & Hloop). exact Hloop.
  - exact (accounted_delivers e r _ s Hacc).
Qed.

End WithLib.

Lemma order_preserved_witness :
  let lines := ["You have entered The Nexus."; "  "; "Your Location is 10, 20, 3"] in
  let evs := [Append (written "You have entered The Nexus."); Tail 1; Tail 2;
              Append (written "  "); Append (written "Your Location is 10, 20, 3");
              Consume; Tail 3; Tail 4; Tail 5; Consume] in
  let s := run (lib := StrConv.exampleLib)
             (start (Eqlog.NewReader "eq") Parser.NewEngine
                    (writtenAll []))
             evs in
  exists later,
    cleanLines ([] ++ lines)
    = map Eqlog.Line (received s) ++ map Eqlog.Line (Eqlog.Lines (reader s)) ++ later.
Proof.
  refine (proj1 (order_preserved (lib := StrConv.exampleLib) Parser.NewEngine
                   (Eqlog.NewReader "eq") []
                   [Append (written "You have entered The Nexus."); Tail 1; Tail 2;
                    Append (written "  "); Append (written "Your Location is 10, 20, 3");
                    Consume; Tail 3; Tail 4; Tail 5; Consume]
                   ["You have entered The Nexus."; "  "; "Your Location is 10, 20, 3"]
                   eq_refl _ _)).
  - constructor.
  - cbn. repeat split.
Defined.

(** C8 fails on the code.  The game appends the line "You have entered The
    Nexus." in two writes and [pollAndRead] reads between them:
    [ReadString] returns the first piece with [io.EOF], the piece is
    dropped, and the engine receives the second piece alone.  The file
    holds the whole line, all of it is read, and nothing is left in the
    channel or held: the line written never reaches the engine and the zone
    stays unset.  Appended in one write, the same line sets the zone. *)
Lemma split_write_truncates :
  let line := "You have entered The Nexus." in
  let s0 := start (Eqlog.NewReader "eq") Parser.NewEngine EmptyString in
  let s := run (lib := StrConv.exampleLib) s0
             [Append "You have entered "; Tail 1;
              Append (written "The Nexus."); Tail 2; Tail 3; Consume] in
  let whole := run (lib := StrConv.exampleLib) s0
                 [Append (written line); Tail 1; Tail 2; Consume] in
  "You have entered " +:+ written "The Nexus." = written line
  /\ cleanLines [line] = [line]
  /\ map Eqlog.Line (received s) = ["The Nexus."]
  /\ Eqlog.Lines (reader s) = []
  /\ tailer s = {| Eqlog.unread := EmptyString; Eqlog.sending := None |}
  /\ Parser.Zone (Parser.CurrentState (Parser.engine (loop s))) = EmptyString
  /\ map Eqlog.Line (received whole) = [line]
  /\ Parser.Zone (Parser.CurrentState (Parser.engine (loop whole))) = "The Nexus".
Proof. vm_compute. repeat split. Qed.

End PipelineFacts.

(** ** The revision kept as [internal/parser/parser.go] *)

Module ParserOldFacts.
Import GoStrings LogPatterns ParserSpec.

Section WithLib.
Context {lib : GoLib}.

Lemma old_rules_keep_motion st line :
  let st' := ParserOld.recovery (ParserOld.death (ParserOld.zone st line) line) line in
  ParserOld.X st' = ParserOld.X st
  /\ ParserOld.Y st' = ParserOld.Y st
  /\ ParserOld.Z st' = ParserOld.Z st
  /\ ParserOld.Heading st' = ParserOld.Heading st.
Proof.
  unfold ParserOld.recovery, ParserOld.death, ParserOld.zone.
  destruct (zoneFind line) as [newZone|];
    [destruct (negb (String.eqb newZone (ParserOld.Zone st)))|];
    destruct (Contains line "You have been slain");
    destruct (Contains line "You summon your corpse"); repeat split.
Qed.

Lemma sameMotion_step o n line :
  sameMotion o n ->
  sameMotion (ParserOld.processLine o line) (Parser.processLine n line).
Proof.
  intros (HX & HY & HH & HlX & HlY & Hm).
  unfold sameMotion, ParserOld.processLine.
  cbn [ParserOld.engine ParserOld.CurrentState ParserOld.lastX ParserOld.lastY
       ParserOld.hasMoved].
  destruct (old_rules_keep_motion
              (ParserOld.CurrentState (ParserOld.engine (ParserOld.position o line))) line)
    as (-> & -> & _ & ->).
  unfold ParserOld.position.
  destruct (locFind line) as [[[m1 m2] m3]|] eqn:Hloc.
  - rewrite (ParserFacts.processLine_position n _ _ _ _ Hloc). cbn.
    rewrite HlX, HlY, Hm, HH.
    destruct (Parser.hasMoved n); cbn; [|repeat split].
    destruct (_ || _); repeat split.
  - destruct (ParserFacts.processLine_other n line Hloc)
      as (-> & -> & -> & -> & -> & _ & ->).
    repeat split; assumption.
Qed.

(** The heading, the position and the locals of the older revision are
    those of the current one on every input: what is proved of the heading
    holds of both. *)
Lemma old_same_motion eo en reader lines :
  ParserOld.X (ParserOld.CurrentState eo) = Parser.X (Parser.CurrentState en) ->
  ParserOld.Y (ParserOld.CurrentState eo) = Parser.Y (Parser.CurrentState en) ->
  ParserOld.Heading (ParserOld.CurrentState eo) = Parser.Heading (Parser.CurrentState en) ->
  sameMotion (ParserOld.runLoop eo reader lines) (Parser.runLoop en reader lines).
Proof.
  intros HX HY HH. unfold ParserOld.runLoop, Parser.runLoop.
  assert (H0 : sameMotion (ParserOld.enterLoop eo reader) (Parser.enterLoop en reader)).
  { unfold sameMotion, ParserOld.enterLoop, Parser.enterLoop. cbn.
    destruct (negb _); cbn; repeat split; assumption. }
  revert H0. generalize (ParserOld.enterLoop eo reader) (Parser.enterLoop en reader).
  induction lines as [|entry lines IH]; intros o n H0; [exact H0|].
  cbn [fold_left]. apply IH, sameMotion_step, H0.
Qed.

(** The older revision never assigns the elevation. *)
Lemma old_elevation_kept e reader lines :
  ParserOld.Z (ParserOld.CurrentState (ParserOld.ProcessLines e reader lines))
  = ParserOld.Z (ParserOld.CurrentState e).
Proof.
  unfold ParserOld.ProcessLines, ParserOld.runLoop.
  assert (H0 : ParserOld.Z (ParserOld.CurrentState
                              (ParserOld.engine (ParserOld.enterLoop e reader)))
               = ParserOld.Z (ParserOld.CurrentState e)).
  { unfold ParserOld.enterLoop. cbn. destruct (negb _); reflexivity. }
  rewrite <- H0. generalize (ParserOld.enterLoop e reader). clear H0.
  induction lines as [|entry lines IH]; intros l; [reflexivity|].
  cbn [fold_left]. rewrite IH. unfold ParserOld.processLine.
  cbn [ParserOld.engine ParserOld.CurrentState].
  destruct (old_rules_keep_motion
              (ParserOld.CurrentState
                 (ParserOld.engine (ParserOld.position l (Eqlog.Line entry))))
              (Eqlog.Line entry)) as (_ & _ & -> & _).
  unfold ParserOld.position.
  destruct (locFind (Eqlog.Line entry)) as [[[m1 m2] m3]|]; reflexivity.
Qed.

End WithLib.

(** The older revision takes a status line for a zone and knows one
    recovery phrase only. *)
Lemma old_rules_differ :
  let run := fun lines =>
    ParserOld.CurrentState
      (ParserOld.ProcessLines (lib := StrConv.exampleLib) ParserOld.NewEngine
         (Eqlog.NewReader "eq") (map ParserSpec.entryOf lines)) in
  ParserOld.Zone (run ["You have entered an Arena (PvP) area."]) = "an Arena (PvP) area"
  /\ ParserOld.HasCorpse (run ["You have been slain by a gnoll!";
                               "You have been resurrected!"]) = true
  /\ ParserOld.HasCorpse (run ["You have been slain by a gnoll!";
                               "You summon your corpse."]) = false.
Proof. vm_compute. repeat split. Qed.

End ParserOldFacts.

(** ** The loader on the example directory *)

Module MapsExamples.
Import GoStrings StrConv Maps MapsSpec MapsFacts BoundsFacts Examples.



Lemma bounds_cover_witness :
  let zm := loaded "Nexus" in
  PrimFloat.leb (MinX zm) 100 = true /\ PrimFloat.leb 100 (MaxX zm) = true.
Proof.
  assert (Hload : load "Nexus" = Loaded (loaded "Nexus")) by (vm_compute; reflexivity).
  destruct (bounds_cover (lib := exampleLib) (fs := exampleFS) "maps" "Nexus"
              (loaded "Nexus") Hload) as (_ & Hin & _).
  destruct (Hin (parseSegment (lib := exampleLib)
                   ["100"; " 200"; " 0"; " -50"; " 75"; " 0"; " 255"; " 128"; " 0"])
                100%float 200%float) as [Hx _].
  - vm_compute. left. reflexivity.
  - left. vm_compute. reflexivity.
  - apply Hx. vm_compute. reflexivity.
Defined.

(** C7 as stated fails.  In the zone "far" both endpoints of the only
    segment have x = 100000 and [MinX] stays at the sentinel 99999, which
    is not the minimum over the endpoints.  In the zone "odd" the first
    endpoint has x = NaN, which is neither above [MinX] nor below [MaxX]. *)
Lemma bounds_cover_counterexample :
  (exists zm l,
     load "far" = Loaded zm /\ Lines zm = [l]
     /\ MapLine.X1 l = 100000%float /\ MapLine.X2 l = 100000%float
     /\ MinX zm = 99999%float
     /\ PrimFloat.eqb (MinX zm) 100000 = false)
  /\ (exists zm l,
        load "odd" = Loaded zm /\ Lines zm = [l]
        /\ PrimFloat.leb (MinX zm) (MapLine.X1 l) = false
        /\ PrimFloat.leb (MapLine.X1 l) (MaxX zm) = false).
Proof.
  split.
  - eexists _, _. split; [vm_compute; reflexivity|]. repeat split.
  - eexists _, _. split; [vm_compute; reflexivity|]. repeat split.
Qed.

Lemma segment_color_witness :
  MapLine.Color
    (parseSegment (lib := exampleLib)
       ["100"; " 200"; " 0"; " -50"; " 75"; " 0"; " 255"; " 128"; " 0"])
  = {| R := 255; G := 128; B := 0; A := 255 |}.
Proof.
  destruct (segment_color (lib := exampleLib)
              "L 100, 200, 0, -50, 75, 0, 255, 128, 0"
              ["100"; " 200"; " 0"; " -50"; " 75"; " 0"; " 255"; " 128"; " 0"]
              (emptyZone "Nexus") 0 eq_refl) as (_ & _ & _ & _ & Hrange & _).
  - cbn. lia.
  - apply Hrange.
    + cbn. lia.
    + vm_compute. intros (H & _). discriminate H.
    + vm_compute. split; discriminate.
    + vm_compute. split; discriminate.
    + vm_compute. split; discriminate.
Defined.

(** C9 as stated fails: the channels of this segment parse to 256, 0 and 0,
    they are not all 0, and its colour is pure black. *)
Lemma segment_color_counterexample :
  exists zm l,
    load "dark" = Loaded zm /\ Lines zm = [l]
    /\ parseInt "256" = 256%Z
    /\ MapLine.Color l = {| R := 0; G := 0; B := 0; A := 255 |}.
Proof. eexists _, _. split; [vm_compute; reflexivity|]. repeat split. Qed.

End MapsExamples.

(** ** The library functions on sample inputs *)

Module Evaluations.
Import GoStrings LogPatterns StrConv.

Example locFind_sample :
  locFind "[Sat Dec 13 21:04:11 2025] Your Location is -10.5, 20, 3, 4"
  = Some ("-10.5", "20", "3").
Proof. reflexivity. Qed.

Example locFind_needs_three : locFind "Your Location is 10, 20" = None.
Proof. reflexivity. Qed.

Example zoneFind_status :
  zoneFind "You have entered an Arena (PvP) area." = Some "an Arena (PvP) area"
  /\ Contains "an Arena (PvP) area" "(PvP)" = true
  /\ HasSuffix "an Arena (PvP) area" " area" = true.
Proof. repeat split. Qed.

Example zoneFind_needs_period : zoneFind "You have entered The Nexus" = None.
Proof. reflexivity. Qed.

Example TrimSpace_sample :
  TrimSpace (String "009" (" a b " +:+ String (ascii_of_nat 226)
                             (String (ascii_of_nat 128) (String (ascii_of_nat 131)
                                (String "013" LF)))))
  = "a b".
Proof. reflexivity. Qed.

Example Split_sample :
  Split "a,,b," "," = ["a"; EmptyString; "b"; EmptyString]
  /\ Split EmptyString "," = [EmptyString].
Proof. split; reflexivity. Qed.

Example ReplaceAll_sample :
  ReplaceAll "to_The__Bazaar" "_" " " = "to The  Bazaar"
  /\ ReplaceAll "aaa" "aa" "b" = "ba".
Proof. split; reflexivity. Qed.

Example Atoi_sample :
  Atoi "256" = 256%Z /\ Atoi "-12" = (-12)%Z /\ Atoi "+7" = 7%Z
  /\ Atoi "+" = 0%Z /\ Atoi "1_0" = 0%Z /\ Atoi "12a" = 0%Z
  /\ Atoi "99999999999999999999" = MaxInt64
  /\ Atoi "-9223372036854775809" = MinInt64
  /\ Atoi "-9223372036854775808" = MinInt64
  /\ Atoi "9223372036854775807" = MaxInt64
  /\ Atoi "99999999999999999999x" = MaxInt64
  /\ Atoi "-99999999999999999999x" = MinInt64
  /\ Atoi "1234567890123456789x" = 0%Z
  /\ Atoi EmptyString = 0%Z /\ Atoi "-" = 0%Z.
Proof. repeat split. Qed.

Example ParseDecimal_sample :
  ParseDecimal "100000" = 100000%float /\ ParseDecimal "-20" = (-20)%float
  /\ PrimFloat.opp (ParseDecimal "0") = (-0)%float
  /\ Float64.isNaN (ParseDecimal "NaN") = true.
Proof. repeat split. Qed.

Example ReadString_sample :
  Eqlog.ReadString ("one" +:+ LF +:+ "two") = ("one" +:+ LF, true, "two")
  /\ Eqlog.ReadString "two" = ("two", false, EmptyString).
Proof. split; reflexivity. Qed.

End Evaluations.

(** * Further properties *)

(** ** The state engine, rule by rule *)

Module EngineFacts.
Import GoStrings LogPatterns Parser ParserSpec MoreSpec.

Section WithLib.
Context {lib : GoLib}.

(** What one line does to the player state, by the rule that takes it. *)
Lemma processLine_by_rule l line :
  let st := CurrentState (engine l) in
  let st' := CurrentState (engine (processLine l line)) in
  match ruleOf line with
  | PositionRule =>
      Zone st' = Zone st /\ CorpseX st' = CorpseX st /\ CorpseY st' = CorpseY st
      /\ CorpseZone st' = CorpseZone st /\ HasCorpse st' = HasCorpse st
  | ZoneRule =>
      (st' = st
       \/ exists newZone, zoneFind line = Some newZone /\ isStatus newZone = false
                          /\ st' = setZone newZone st)
  | DeathRule => st' = setCorpse st
  | RecoveryRule => st' = clearCorpse st
  | NoRule => st' = st
  end.
Proof.
  intros st st'. subst st st'. unfold ruleOf.
  destruct (locFind line) as [[[m1 m2] m3]|] eqn:Hloc.
  - rewrite (ParserFacts.processLine_position l _ _ _ _ Hloc). cbn.
    destruct (negb (hasMoved l)); [repeat split|].
    destruct (_ || _); repeat split.
  - destruct (zoneFind line) as [newZone|] eqn:Hzone.
    + rewrite (ParserFacts.processLine_zone l _ _ Hloc Hzone).
      fold (isStatus newZone). destruct (isStatus newZone) eqn:Hstatus; [left; reflexivity|].
      destruct (negb _); [|left; reflexivity].
      right. exists newZone. repeat split. exact Hstatus.
    + rewrite (ParserFacts.processLine_rest l _ Hloc Hzone).
      destruct (Contains line "You have been slain"); [reflexivity|].
      destruct (isRecovery line); reflexivity.
Qed.

Lemma runLoop_app e reader before lines :
  runLoop e reader (before ++ lines)
  = fold_left (fun l entry => processLine l (Eqlog.Line entry)) lines
      (runLoop e reader before).
Proof. unfold runLoop. apply fold_left_app. Qed.

(** Lines the death rule does not take keep the corpse fields. *)
Lemma corpse_fold lines :
  Forall (fun entry => ruleOf (Eqlog.Line entry) <> DeathRule) lines ->
  forall l,
    let st := CurrentState (engine l) in
    let st' := CurrentState
                 (engine (fold_left (fun l entry => processLine l (Eqlog.Line entry))
                                    lines l)) in
    CorpseX st' = CorpseX st /\ CorpseY st' = CorpseY st
    /\ CorpseZone st' = CorpseZone st
    /\ (Forall (fun entry => ruleOf (Eqlog.Line entry) <> RecoveryRule) lines ->
        HasCorpse st' = HasCorpse st).
Proof.
  intros Hall. cbv zeta.
  induction Hall as [|entry lines Hrule _ IH]; intros l.
  - repeat split.
  - cbn [fold_left].
    destruct (IH (processLine l (Eqlog.Line entry))) as (HX & HY & HZ & HF).
    rewrite HX, HY, HZ.
    assert (Hsame : CorpseX (CurrentState (engine (processLine l (Eqlog.Line entry))))
                    = CorpseX (CurrentState (engine l))
                    /\ CorpseY (CurrentState (engine (processLine l (Eqlog.Line entry))))
                       = CorpseY (CurrentState (engine l))
                    /\ CorpseZone (CurrentState (engine (processLine l (Eqlog.Line entry))))
                       = CorpseZone (CurrentState (engine l))
                    /\ (ruleOf (Eqlog.Line entry) <> RecoveryRule ->
                        HasCorpse (CurrentState (engine (processLine l (Eqlog.Line entry))))
                        = HasCorpse (CurrentState (engine l)))).
    { pose proof (processLine_by_rule l (Eqlog.Line entry)) as Hstep. cbv zeta in Hstep.
      destruct (ruleOf (Eqlog.Line entry)).
      - destruct Hstep as (_ & -> & -> & -> & ->). repeat split.
      - destruct Hstep as [-> | (z & _ & _ & ->)]; repeat split.
      - contradiction.
      - rewrite Hstep. repeat split. intros H. contradiction.
      - rewrite Hstep. repeat split. }
    destruct Hsame as (-> & -> & -> & HH). repeat split.
    intros Hrec. inversion Hrec; subst. rewrite HF by assumption. apply HH. assumption.
Qed.

(** X1. The corpse position and the corpse zone change only when the death
    rule takes a line, and the corpse flag only when the death rule or the
    recovery rule does: after a death, position and zone lines leave the
    corpse where it was recorded. *)
Theorem corpse_kept e reader before lines :
  Forall (fun entry => ruleOf (Eqlog.Line entry) <> DeathRule) lines ->
  let s0 := CurrentState (ProcessLines e reader before) in
  let s1 := CurrentState (ProcessLines e reader (before ++ lines)) in
  CorpseX s1 = CorpseX s0 /\ CorpseY s1 = CorpseY s0
  /\ CorpseZone s1 = CorpseZone s0
  /\ (Forall (fun entry => ruleOf (Eqlog.Line entry) <> RecoveryRule) lines ->
      HasCorpse s1 = HasCorpse s0).
Proof.
  intros Hall. cbv zeta. unfold ProcessLines. rewrite runLoop_app.
  exact (corpse_fold lines Hall (runLoop e reader before)).
Qed.

(** X2. The position, the elevation and the heading change only when the
    position rule takes a line. *)
Theorem motion_kept e reader before lines :
  Forall (fun entry => ruleOf (Eqlog.Line entry) <> PositionRule) lines ->
  let s0 := CurrentState (ProcessLines e reader before) in
  let s1 := CurrentState (ProcessLines e reader (before ++ lines)) in
  X s1 = X s0 /\ Y s1 = Y s0 /\ Z s1 = Z s0 /\ Heading s1 = Heading s0.
Proof.
  intros Hall. cbv zeta. unfold ProcessLines. rewrite runLoop_app.
  generalize (runLoop e reader before) as l.
  induction Hall as [|entry lines Hrule _ IH]; intros l.
  - repeat split.
  - cbn [fold_left].
    destruct (IH (processLine l (Eqlog.Line entry))) as (-> & -> & -> & ->).
    assert (Hloc : locFind (Eqlog.Line entry) = None).
    { unfold ruleOf in Hrule. destruct (locFind (Eqlog.Line entry)); [contradiction|reflexivity]. }
    destruct (ParserFacts.processLine_other l _ Hloc) as (_ & _ & _ & -> & -> & -> & ->).
    repeat split.
Qed.

(** X3. The zone changes only when the zone rule takes a line, and then to
    the name the pattern captured, which is no status name.  So a zone that
    is no status name on entry to the loop never becomes one. *)
Theorem zone_by_rule e reader before entry :
  let s0 := CurrentState (ProcessLines e reader before) in
  let s1 := CurrentState (ProcessLines e reader (before ++ [entry])) in
  (Zone s1 <> Zone s0 ->
   ruleOf (Eqlog.Line entry) = ZoneRule
   /\ zoneFind (Eqlog.Line entry) = Some (Zone s1)
   /\ isStatus (Zone s1) = false)
  /\ (forall lines,
        isStatus (Zone (CurrentState (engine (enterLoop e reader)))) = false ->
        isStatus (Zone (CurrentState (ProcessLines e reader lines))) = false).
Proof.
  cbv zeta. split.
  - unfold ProcessLines. rewrite ParserFacts.runLoop_snoc.
    generalize (runLoop e reader before) as l. intros l Hne.
    pose proof (processLine_by_rule l (Eqlog.Line entry)) as Hstep. cbv zeta in Hstep.
    destruct (ruleOf (Eqlog.Line entry)) eqn:Hr.
    + destruct Hstep as (HZ & _). contradiction.
    + destruct Hstep as [Hsame | (z & Hz & Hst & Hset)].
      * rewrite Hsame in Hne. contradiction.
      * rewrite Hset. cbn. repeat split; assumption.
    + rewrite Hstep in Hne. contradiction Hne. reflexivity.
    + rewrite Hstep in Hne. contradiction Hne. reflexivity.
    + rewrite Hstep in Hne. contradiction Hne. reflexivity.
  - intros lines H0. unfold ProcessLines, runLoop.
    revert H0. generalize (enterLoop e reader) as l.
    induction lines as [|x lines IH]; intros l H0; [exact H0|].
    cbn [fold_left]. apply IH.
    pose proof (processLine_by_rule l (Eqlog.Line x)) as Hstep. cbv zeta in Hstep.
    destruct (ruleOf (Eqlog.Line x)).
    + destruct Hstep as (-> & _). exact H0.
    + destruct Hstep as [-> | (z & _ & Hst & ->)]; [exact H0 | exact Hst].
    + rewrite Hstep. exact H0.
    + rewrite Hstep. exact H0.
    + rewrite Hstep. exact H0.
Qed.

(** X4. The engine starts in the reader's initial zone, or in its own when
    the reader found none, and stays there until the zone rule takes a
    line. *)
Theorem zone_seeded e reader lines :
  Forall (fun entry => ruleOf (Eqlog.Line entry) <> ZoneRule) lines ->
  Zone (CurrentState (ProcessLines e reader lines))
  = if String.eqb (Eqlog.InitialZone reader) EmptyString
    then Zone (CurrentState e)
    else Eqlog.InitialZone reader.
Proof.
  intros Hall. unfold ProcessLines, runLoop.
  assert (H0 : Zone (CurrentState (engine (enterLoop e reader)))
               = if String.eqb (Eqlog.InitialZone reader) EmptyString
                 then Zone (CurrentState e)
                 else Eqlog.InitialZone reader).
  { unfold enterLoop. cbn. destruct (String.eqb _ _); reflexivity. }
  rewrite <- H0. clear H0. generalize (enterLoop e reader) as l.
  induction Hall as [|entry lines Hrule _ IH]; intros l; [reflexivity|].
  cbn [fold_left]. rewrite IH.
  pose proof (processLine_by_rule l (Eqlog.Line entry)) as Hstep. cbv zeta in Hstep.
  destruct (ruleOf (Eqlog.Line entry)).
  - destruct Hstep as (-> & _). reflexivity.
  - contradiction.
  - rewrite Hstep. reflexivity.
  - rewrite Hstep. reflexivity.
  - rewrite Hstep. reflexivity.
Qed.

End WithLib.

Lemma corpse_kept_witness :
  let before := map entryOf ["You have entered The Nexus.";
                             "Your Location is -5, -5, 0";
                             "You have been slain by a gnoll!"] in
  let lines := map entryOf ["Your Location is -9, -9, 0";
                            "You have entered East Commonlands."] in
  let s1 := CurrentState (ProcessLines (lib := StrConv.exampleLib) NewEngine
                            (Eqlog.NewReader "eq") (before ++ lines)) in
  (CorpseX s1 = 5%float /\ CorpseY s1 = 5%float /\ CorpseZone s1 = "The Nexus")
  /\ HasCorpse s1 = true /\ X s1 = 9%float /\ Zone s1 = "East Commonlands".
Proof.
  destruct (corpse_kept (lib := StrConv.exampleLib) NewEngine (Eqlog.NewReader "eq")
              (map entryOf ["You have entered The Nexus.";
                            "Your Location is -5, -5, 0";
                            "You have been slain by a gnoll!"])
              (map entryOf ["Your Location is -9, -9, 0";
                            "You have entered East Commonlands."]))
    as (HX & HY & HZ & HF).
  - repeat constructor; vm_compute; discriminate.
  - cbv zeta. rewrite HX, HY, HZ, HF.
    + vm_compute. repeat split.
    + repeat constructor; vm_compute; discriminate.
Defined.

Lemma motion_kept_witness :
  let before := map entryOf ["Your Location is -5, -5, 12"] in
  let lines := map entryOf ["You have entered The Nexus.";
                            "You have been slain by a gnoll!"] in
  let s1 := CurrentState (ProcessLines (lib := StrConv.exampleLib) NewEngine
                            (Eqlog.NewReader "eq") (before ++ lines)) in
  X s1 = 5%float /\ Y s1 = 5%float /\ Z s1 = 12%float.
Proof.
  destruct (motion_kept (lib := StrConv.exampleLib) NewEngine (Eqlog.NewReader "eq")
              (map entryOf ["Your Location is -5, -5, 12"])
              (map entryOf ["You have entered The Nexus.";
                            "You have been slain by a gnoll!"]))
    as (HX & HY & HZ & _).
  - repeat constructor; vm_compute; discriminate.
  - cbv zeta. rewrite HX, HY, HZ. vm_compute. repeat split.
Defined.

Lemma zone_seeded_witness :
  Zone (CurrentState
          (ProcessLines (lib := StrConv.exampleLib) NewEngine
             (Eqlog.detectInitialZone (Eqlog.NewReader "eq")
                (Some ["You have entered an Arena (PvP) area."]))
             (map entryOf ["Your Location is -5, -5, 12";
                           "You have been slain by a gnoll!"])))
  = "an Arena (PvP) area".
Proof.
  rewrite (zone_seeded (lib := StrConv.exampleLib)).
  - reflexivity.
  - repeat constructor; vm_compute; discriminate.
Defined.

End EngineFacts.

(** ** Finding the log and the initial zone *)

Module LogFileFacts.
Import GoStrings LogPatterns EqlogFiles.

Lemma zoneFind_not_empty : forall s z, zoneFind s = Some z -> z <> EmptyString.
Proof.
  induction s as [|c s IH]; intros z.
  - cbn. discriminate.
  - cbn [zoneFind]. destruct (zoneAt (String c s)) as [z0|] eqn:Hat.
    + intros [= <-]. unfold zoneAt in Hat.
      destruct (CutPrefix (String c s) "You have entered ") as [r|]; [|discriminate].
      unfold zoneGroup in Hat. destruct (spanDot r) as [|d t]; [discriminate|].
      destruct (beforeLastPeriod t); [|discriminate].
      injection Hat as <-. discriminate.
    + apply IH.
Qed.

Lemma lastZoneOf_from lines : forall z0,
  Forall (fun l => zoneFind l = None) lines ->
  fold_left (fun lastZone line =>
               match zoneFind line with
               | Some z => z
               | None => lastZone
               end) lines z0 = z0.
Proof.
  induction lines as [|l lines IH]; intros z0 Hall; [reflexivity|].
  inversion Hall as [|? ? Hl Hrest]; subst. cbn [fold_left]. rewrite Hl. apply IH, Hrest.
Qed.

(** X5. The reader's initial zone is the name the zone pattern captures on
    the last line of the window it matches, status names included.  With no
    log, or no line that matches, the reader is left as it was. *)
Theorem initial_zone_detected r :
  Eqlog.detectInitialZone r None = r
  /\ (forall lines,
        Forall (fun l => zoneFind l = None) lines ->
        Eqlog.detectInitialZone r (Some lines) = r)
  /\ (forall before line after z,
        zoneFind line = Some z ->
        Forall (fun l => zoneFind l = None) after ->
        Eqlog.detectInitialZone r (Some (before ++ line :: after))
        = {| Eqlog.EqDir := Eqlog.EqDir r; Eqlog.Lines := Eqlog.Lines r;
             Eqlog.InitialZone := z |}).
Proof.
  split; [reflexivity|]. split.
  - intros lines Hall. unfold Eqlog.detectInitialZone, Eqlog.lastZoneOf.
    rewrite lastZoneOf_from by exact Hall. reflexivity.
  - intros before line after z Hz Hall.
    unfold Eqlog.detectInitialZone, Eqlog.lastZoneOf.
    rewrite fold_left_app. cbn [fold_left]. rewrite Hz.
    rewrite lastZoneOf_from by exact Hall.
    destruct (String.eqb_spec z EmptyString) as [Hempty|_]; [|reflexivity].
    exfalso. exact (zoneFind_not_empty _ _ Hz Hempty).
Qed.

Lemma initial_zone_detected_witness :
  Eqlog.InitialZone
    (Eqlog.detectInitialZone (Eqlog.NewReader "eq")
       (Some (["You have entered The Nexus."; "Welcome to EverQuest!"]
              ++ "You have entered an Arena (PvP) area."
              :: ["Your Location is 10, 20, 3"])))
  = "an Arena (PvP) area".
Proof.
  destruct (initial_zone_detected (Eqlog.NewReader "eq")) as (_ & _ & H).
  rewrite (H ["You have entered The Nexus."; "Welcome to EverQuest!"]
             "You have entered an Arena (PvP) area."
             ["Your Location is 10, 20, 3"] "an Arena (PvP) area").
  - reflexivity.
  - vm_compute. reflexivity.
  - repeat constructor.
Defined.

(** *** Insertion sort is a sort *)

Section Sorting.
Variable key : string -> Z.

Lemma insertBy_perm x l : Permutation (insertBy (lessBy key) x l) (x :: l).
Proof.
  induction l as [|y l IH]; [reflexivity|].
  cbn [insertBy]. destruct (lessBy key x y); [reflexivity|].
  rewrite IH. apply perm_swap.
Qed.

Lemma sortBy_perm l : Permutation (sortBy (lessBy key) l) l.
Proof.
  induction l as [|x l IH]; [reflexivity|].
  unfold sortBy. cbn [fold_right]. fold (sortBy (lessBy key) l).
  rewrite insertBy_perm. constructor. exact IH.
Qed.

Lemma insertBy_sorted x l :
  StronglySorted (leBy key) l -> StronglySorted (leBy key) (insertBy (lessBy key) x l).
Proof.
  induction l as [|y l IH]; intros Hs.
  - cbn. constructor; constructor.
  - inversion Hs as [|? ? Hrest Hall]; subst. cbn [insertBy].
    destruct (lessBy key x y) eqn:Hxy; unfold lessBy in Hxy.
    + apply Z.ltb_lt in Hxy. constructor; [exact Hs|].
      constructor; [unfold leBy; lia|].
      eapply List.Forall_impl; [|exact Hall]. unfold leBy. intros a Ha. lia.
    + apply Z.ltb_ge in Hxy. constructor; [apply IH, Hrest|].
      apply (Permutation_Forall (Permutation_sym (insertBy_perm x l))).
      constructor; [exact Hxy | exact Hall].
Qed.

Lemma sortBy_sorted l : StronglySorted (leBy key) (sortBy (lessBy key) l).
Proof.
  induction l as [|x l IH]; [constructor|].
  unfold sortBy. cbn [fold_right]. apply insertBy_sorted, IH.
Qed.

(** The last element of a sorted list is a greatest one. *)
Lemma sorted_last l d :
  StronglySorted (leBy key) l -> Forall (fun q => leBy key q (List.last l d)) l.
Proof.
  induction l as [|x l IH]; intros Hs; [constructor|].
  inversion Hs as [|? ? Hrest Hall]; subst.
  destruct l as [|y l].
  - cbn. constructor; [unfold leBy; lia | constructor].
  - change (List.last (x :: y :: l) d) with (List.last (y :: l) d).
    specialize (IH Hrest). constructor; [|exact IH].
    rewrite List.Forall_forall in Hall.
    apply Hall. clear. generalize y. induction l as [|z l IH]; intros y0.
    + left. reflexivity.
    + right. change (List.last (y0 :: z :: l) d) with (List.last (z :: l) d). apply IH.
Qed.

Lemma last_In (l : list string) d : l <> [] -> In (List.last l d) l.
Proof.
  induction l as [|x l IH]; [congruence|]. intros _.
  destruct l as [|y l]; [left; reflexivity|].
  right. change (List.last (x :: y :: l) d) with (List.last (y :: l) d).
  apply IH. discriminate.
Qed.

End Sorting.

Section WithFiles.
Context {files : LogFiles}.

(** X6. [findLatestLog] looks at the logs of the root directory, and at
    those of the [Logs] subdirectory only when the root has none (or cannot
    be read).  It fails exactly when the directory it looks at has no log;
    otherwise it returns one of these logs, and none of them was modified
    later. *)
Theorem latest_log_newest r :
  sortsByTime ->
  let root := logsOf (scanDir (Eqlog.EqDir r)) in
  let sub := logsOf (scanDir (JoinPath (Eqlog.EqDir r) "Logs")) in
  let candidates := match root with [] => sub | _ => root end in
  (findLatestLog r = None <-> candidates = [])
  /\ (forall p, findLatestLog r = Some p ->
        In p candidates
        /\ Forall (fun q => (ModTime q <= ModTime p)%Z) candidates).
Proof.
  intros Hsort root sub candidates. unfold findLatestLog. fold root. fold sub.
  assert (Hcand : (if (length root =? 0)%nat then sub else root) = candidates).
  { unfold candidates. destruct root; reflexivity. }
  rewrite Hcand. clear Hcand. generalize candidates as l. intros l.
  destruct l as [|x l]; cbn [length Nat.eqb].
  - split; [tauto|]. intros p [=].
  - split; [split; discriminate|]. intros p [= <-].
    destruct (Hsort (x :: l)) as [Hperm Hsorted].
    set (sorted := SortSlice olderThan (x :: l)) in *.
    split.
    + apply (Permutation_in _ Hperm). apply last_In.
      intros Hnil. rewrite Hnil in Hperm. apply Permutation_nil in Hperm. discriminate.
    + apply (Permutation_Forall Hperm).
      apply (sorted_last ModTime). exact Hsorted.
Qed.

End WithFiles.

Lemma exampleLogs_sorts : sortsByTime (files := MoreExamples.exampleLogs).
Proof.
  intros l. split.
  - apply (sortBy_perm (ModTime (LogFiles := MoreExamples.exampleLogs))).
  - apply (sortBy_sorted (ModTime (LogFiles := MoreExamples.exampleLogs))).
Qed.

Lemma latest_log_newest_witness :
  In "eq/Logs/eqlog_Ann_P1999.txt"
     (logsOf (scanDir (files := MoreExamples.exampleLogs) "eq/Logs"))
  /\ Forall (fun q => (ModTime (LogFiles := MoreExamples.exampleLogs) q <= 1765663451)%Z)
            (logsOf (scanDir (files := MoreExamples.exampleLogs) "eq/Logs")).
Proof.
  destruct (latest_log_newest (files := MoreExamples.exampleLogs) (Eqlog.NewReader "eq")
              exampleLogs_sorts) as [_ H].
  exact (H "eq/Logs/eqlog_Ann_P1999.txt" eq_refl).
Defined.

End LogFileFacts.

(** ** The tailer, whatever the game writes *)

Module TailerFacts.
Import GoStrings LogPatterns MoreSpec Pipeline PipelineSpec TailerSpec.

Lemma allBytes_app p a b : allBytes p (a +:+ b) = allBytes p a && allBytes p b.
Proof.
  induction a as [|c a IH]; [reflexivity|].
  change (String c a +:+ b) with (String c (a +:+ b)).
  cbn [allBytes]. rewrite IH, andb_assoc. reflexivity.
Qed.

Lemma allBytes_revOnto p s acc :
  allBytes p (revOnto s acc) = allBytes p s && allBytes p acc.
Proof.
  revert acc. induction s as [|c s IH]; intros acc; [reflexivity|].
  cbn [revOnto allBytes]. rewrite IH. cbn [allBytes].
  destruct (p c), (allBytes p s), (allBytes p acc); reflexivity.
Qed.

Lemma allBytes_reverse p s : allBytes p (reverse s) = allBytes p s.
Proof. unfold reverse. rewrite allBytes_revOnto. cbn. apply andb_true_r. Qed.

(** White space is dropped from one end: the bytes left are bytes of [s]. *)
Lemma allBytes_dropSpace p back n : forall s,
  (String.length s <= n)%nat ->
  allBytes p s = true -> allBytes p (dropSpace back s) = true.
Proof.
  induction n as [|n IH]; intros s Hlen Hs.
  - destruct s; [reflexivity | simpl in Hlen; lia].
  - destruct s as [|c r]; [reflexivity|].
    cbn [dropSpace]. simpl in Hlen. cbn [allBytes] in Hs.
    apply andb_true_iff in Hs as [Hc Hr].
    destruct (isSpace1 c); [apply IH; [lia | exact Hr]|].
    destruct r as [|d r1]; [cbn; rewrite Hc; reflexivity|].
    simpl in Hlen. cbn [allBytes] in Hr. apply andb_true_iff in Hr as [Hd Hr1].
    destruct (if back then isSpace2 d c else isSpace2 c d); [apply IH; [lia | exact Hr1]|].
    destruct r1 as [|x r2]; [cbn; rewrite Hc, Hd; reflexivity|].
    simpl in Hlen. cbn [allBytes] in Hr1. apply andb_true_iff in Hr1 as [Hx Hr2].
    destruct (if back then isSpace3 x d c else isSpace3 c d x); [apply IH; [lia | exact Hr2]|].
    cbn. rewrite Hc, Hd, Hx, Hr2. reflexivity.
Qed.

Lemma allBytes_TrimSpace p s : allBytes p s = true -> allBytes p (TrimSpace s) = true.
Proof.
  intros Hs. unfold TrimSpace. rewrite allBytes_reverse.
  apply (allBytes_dropSpace p true _ _ (le_n _)).
  rewrite allBytes_reverse.
  apply (allBytes_dropSpace p false _ _ (le_n _)). exact Hs.
Qed.

(** What [ReadString] returns: the bytes read and the bytes left are the
    bytes there were; a line found is free of line feeds up to the one that
    ends it; without a line feed everything is read. *)
Lemma ReadString_shape unread :
  let '(data, found, rest) := Eqlog.ReadString unread in
  unread = data +:+ rest
  /\ (found = true -> exists l, data = l +:+ LF /\ allBytes notLF l = true)
  /\ (found = false -> rest = EmptyString /\ allBytes notLF unread = true).
Proof.
  induction unread as [|c r IH]; cbn [Eqlog.ReadString].
  - split; [reflexivity|]. split; [discriminate|]. intros _. split; reflexivity.
  - destruct (Ascii.eqb c "010") eqn:Hc.
    + apply Ascii.eqb_eq in Hc. subst c.
      split; [reflexivity|]. split; [|discriminate].
      intros _. exists EmptyString. split; reflexivity.
    + destruct (Eqlog.ReadString r) as [[data found] rest].
      destruct IH as (Hr & Hfound & Heof).
      split; [rewrite Hr at 1; reflexivity|]. split.
      * intros Hf. destruct (Hfound Hf) as (l & -> & Hl).
        exists (String c l). split; [reflexivity|].
        cbn [allBytes]. unfold notLF at 1. rewrite Hc, Hl. reflexivity.
      * intros Hf. destruct (Heof Hf) as [Hrest Hall].
        split; [exact Hrest|].
        cbn [allBytes]. unfold notLF at 1. rewrite Hc. exact Hall.
Qed.

Section WithLib.
Context {lib : GoLib}.

Lemma steady_step s ev : steady s -> steady (step s ev).
Proof.
  intros (Hrec & Hq & Hheld). unfold steady.
  destruct ev as [bytes|now|].
  - cbn [step]. split; [exact Hrec|]. split; [exact Hq|]. exact Hheld.
  - cbn [step]. unfold Eqlog.pollAndReadStep, heldSendable in *.
    destruct (Eqlog.sending (tailer s)) as [entry|] eqn:Hsend.
    + destruct (length (Eqlog.Lines (reader s)) <? Eqlog.capacity)%nat.
      * cbn. split; [exact Hrec|]. split; [|exact I].
        apply Forall_app. split; [exact Hq | constructor; [exact Hheld | constructor]].
      * cbn. rewrite Hsend. split; [exact Hrec|]. split; [exact Hq | exact Hheld].
    + pose proof (ReadString_shape (Eqlog.unread (tailer s))) as Hshape.
      destruct (Eqlog.ReadString (Eqlog.unread (tailer s))) as [[data found] rest].
      destruct Hshape as (_ & Hfound & _).
      destruct found; cbn [negb].
      * destruct (Hfound eq_refl) as (l & -> & Hl).
        rewrite TrimFacts.TrimSpace_LF.
        destruct (String.eqb_spec (TrimSpace l) EmptyString) as [Hblank|Hline]; cbn [negb].
        -- cbn. split; [exact Hrec|]. split; [exact Hq | exact I].
        -- cbn. split; [exact Hrec|]. split; [exact Hq|].
           split; [exact Hline | apply allBytes_TrimSpace, Hl].
      * cbn. split; [exact Hrec|]. split; [exact Hq | exact I].
  - cbn [step]. destruct (Eqlog.Lines (reader s)) as [|entry q] eqn:Hqueue.
    + rewrite Hqueue. split; [exact Hrec|]. split; [exact Hq | exact Hheld].
    + inversion Hq as [|? ? Hentry Hrest]; subst. cbn.
      split; [|split; [exact Hrest | exact Hheld]].
      apply Forall_app. split; [exact Hrec | constructor; [exact Hentry | constructor]].
Qed.

Lemma steady_run evs : forall s, steady s -> steady (run s evs).
Proof.
  induction evs as [|ev evs IH]; intros s Hs; [exact Hs|].
  unfold run. cbn [fold_left]. apply IH, steady_step, Hs.
Qed.

(** X7. Whatever bytes the game appends and however the goroutines take
    turns, every line the engine receives, and every line in the channel,
    is not empty and holds no line feed: the lines the zone pattern is run
    on are single lines. *)
Theorem received_lines_sendable r e window evs :
  Eqlog.Lines r = [] ->
  let s := run (start r e window) evs in
  Forall (fun entry => Eqlog.Line entry <> EmptyString
                       /\ Contains (Eqlog.Line entry) LF = false)
         (received s ++ Eqlog.Lines (reader s)).
Proof.
  intros Hr s.
  assert (H0 : steady (start r e window)).
  { unfold steady, heldSendable. cbn. rewrite Hr.
    split; [constructor|]. split; [constructor | exact I]. }
  destruct (steady_run evs _ H0) as (Hrec & Hq & _).
  fold s in Hrec, Hq.
  assert (Hno : forall l, allBytes notLF l = true -> Contains l LF = false).
  { clear. induction l as [|c l IH]; [reflexivity|].
    cbn [allBytes]. intros H. apply andb_true_iff in H as [Hc Hl].
    unfold LF. rewrite PatternFacts.Contains_byte.
    unfold notLF in Hc. apply negb_true_iff in Hc.
    rewrite Ascii.eqb_sym, Hc. exact (IH Hl). }
  apply Forall_app. split.
  - eapply List.Forall_impl; [|exact Hrec]. intros entry [H1 H2]. split; auto.
  - eapply List.Forall_impl; [|exact Hq]. intros entry [H1 H2]. split; auto.
Qed.

(** X9. When the bytes not yet read hold no line feed, a read reaches the
    end of the file: the tailer sends nothing and the bytes it read are
    dropped, so a line that is completed later reaches the engine without
    them. *)
Theorem partial_line_dropped now r t :
  Eqlog.sending t = None ->
  Contains (Eqlog.unread t) LF = false ->
  Eqlog.pollAndReadStep now r t
  = (r, {| Eqlog.unread := EmptyString; Eqlog.sending := None |}).
Proof.
  intros Hsend Hno. unfold Eqlog.pollAndReadStep. rewrite Hsend.
  pose proof (ReadString_shape (Eqlog.unread t)) as Hshape.
  destruct (Eqlog.ReadString (Eqlog.unread t)) as [[data found] rest].
  destruct Hshape as (Hsplit & Hfound & Heof).
  destruct found.
  - exfalso. destruct (Hfound eq_refl) as (l & -> & _).
    rewrite Hsplit in Hno. unfold LF in Hno.
    rewrite !PatternFacts.Contains_byte_app, PatternFacts.Contains_byte in Hno.
    cbn in Hno. rewrite orb_true_r in Hno. discriminate.
  - destruct (Heof eq_refl) as [-> _]. reflexivity.
Qed.

End WithLib.

Lemma received_lines_sendable_witness :
  let s := run (lib := StrConv.exampleLib)
             (start (Eqlog.NewReader "eq") Parser.NewEngine ("  " +:+ LF))
             [Tail 1; Append ("entered The Nexus." +:+ LF); Tail 2; Tail 3; Consume] in
  Forall (fun entry => Eqlog.Line entry <> EmptyString
                       /\ Contains (Eqlog.Line entry) LF = false)
         (received s ++ Eqlog.Lines (reader s)).
Proof.
  exact (received_lines_sendable (lib := StrConv.exampleLib) (Eqlog.NewReader "eq")
           Parser.NewEngine ("  " +:+ LF)
           [Tail 1; Append ("entered The Nexus." +:+ LF); Tail 2; Tail 3; Consume]
           eq_refl).
Defined.

Lemma partial_line_dropped_witness :
  Eqlog.pollAndReadStep 7 (Eqlog.NewReader "eq")
    {| Eqlog.unread := "You have entered "; Eqlog.sending := None |}
  = (Eqlog.NewReader "eq", {| Eqlog.unread := EmptyString; Eqlog.sending := None |}).
Proof.
  exact (partial_line_dropped 7 (Eqlog.NewReader "eq")
           {| Eqlog.unread := "You have entered "; Eqlog.sending := None |}
           eq_refl eq_refl).
Defined.

End TailerFacts.

(** ** The revision kept as [internal/parser/parser.go], rule by rule *)

Module RevisionFacts.
Import GoStrings LogPatterns ParserSpec.

Section WithLib.
Context {lib : GoLib}.

Lemma old_runLoop_snoc e reader before entry :
  ParserOld.runLoop e reader (before ++ [entry])
  = ParserOld.processLine (ParserOld.runLoop e reader before) (Eqlog.Line entry).
Proof. unfold ParserOld.runLoop. rewrite fold_left_app. reflexivity. Qed.

(** X10. In the revision kept as [parser.go] every line the zone pattern
    matches sets the zone to the captured name: no name is taken for a
    status message, and a line the position pattern matches as well is not
    kept from the zone rule. *)
Theorem old_zone_unfiltered e reader before entry z :
  zoneFind (Eqlog.Line entry) = Some z ->
  ParserOld.Zone
    (ParserOld.CurrentState (ParserOld.ProcessLines e reader (before ++ [entry])))
  = z.
Proof.
  intros Hz. unfold ParserOld.ProcessLines. rewrite old_runLoop_snoc.
  generalize (ParserOld.runLoop e reader before) as l. intros l.
  unfold ParserOld.processLine. cbn [ParserOld.engine ParserOld.CurrentState].
  generalize (ParserOld.CurrentState (ParserOld.engine (ParserOld.position l (Eqlog.Line entry))))
    as st. intros st.
  unfold ParserOld.recovery, ParserOld.death, ParserOld.zone. rewrite Hz.
  destruct (String.eqb_spec z (ParserOld.Zone st)) as [Heq|Hne]; cbn [negb];
    destruct (Contains (Eqlog.Line entry) "You have been slain");
    destruct (Contains (Eqlog.Line entry) "You summon your corpse");
    cbn; congruence.
Qed.

(** X11. In the revision kept as [parser.go] every line with "You have been
    slain" records the corpse, whatever other rule the line falls under: the
    corpse is put where the player is after the line (a position on the same
    line counts), and the flag is set unless the line also has "You summon
    your corpse". *)
Theorem old_death_unguarded e reader before entry :
  Contains (Eqlog.Line entry) "You have been slain" = true ->
  let s1 := ParserOld.CurrentState
              (ParserOld.ProcessLines e reader (before ++ [entry])) in
  ParserOld.CorpseX s1 = ParserOld.X s1
  /\ ParserOld.CorpseY s1 = ParserOld.Y s1
  /\ ParserOld.HasCorpse s1
     = negb (Contains (Eqlog.Line entry) "You summon your corpse").
Proof.
  intros Hslain. cbv zeta. unfold ParserOld.ProcessLines. rewrite old_runLoop_snoc.
  generalize (ParserOld.runLoop e reader before) as l. intros l.
  unfold ParserOld.processLine. cbn [ParserOld.engine ParserOld.CurrentState].
  generalize (ParserOld.CurrentState (ParserOld.engine (ParserOld.position l (Eqlog.Line entry))))
    as st. intros st.
  unfold ParserOld.recovery, ParserOld.death. rewrite Hslain.
  destruct (Contains (Eqlog.Line entry) "You summon your corpse"); cbn;
    unfold ParserOld.zone; destruct (zoneFind (Eqlog.Line entry)) as [newZone|];
    try destruct (negb _); repeat split.
Qed.

(** X12. On the same lines, from engines with the same position and heading,
    the revision kept as [parser.go] and the current one compute the same
    position and the same heading; the older one never assigns the
    elevation. *)
Theorem old_revision_motion eo en reader lines :
  ParserOld.X (ParserOld.CurrentState eo) = Parser.X (Parser.CurrentState en) ->
  ParserOld.Y (ParserOld.CurrentState eo) = Parser.Y (Parser.CurrentState en) ->
  ParserOld.Heading (ParserOld.CurrentState eo)
  = Parser.Heading (Parser.CurrentState en) ->
  let so := ParserOld.CurrentState (ParserOld.ProcessLines eo reader lines) in
  let sn := Parser.CurrentState (Parser.ProcessLines en reader lines) in
  ParserOld.X so = Parser.X sn
  /\ ParserOld.Y so = Parser.Y sn
  /\ ParserOld.Heading so = Parser.Heading sn
  /\ ParserOld.Z so = ParserOld.Z (ParserOld.CurrentState eo).
Proof.
  intros HX HY HH. cbv zeta.
  destruct (ParserOldFacts.old_same_motion eo en reader lines HX HY HH)
    as (H1 & H2 & H3 & _).
  unfold ParserOld.ProcessLines, Parser.ProcessLines.
  split; [exact H1|]. split; [exact H2|]. split; [exact H3|].
  apply ParserOldFacts.old_elevation_kept.
Qed.

End WithLib.

Lemma old_zone_unfiltered_witness :
  ParserOld.Zone
    (ParserOld.CurrentState
       (ParserOld.ProcessLines (lib := StrConv.exampleLib) ParserOld.NewEngine
          (Eqlog.NewReader "eq")
          (map entryOf ["You have entered The Nexus."]
           ++ [entryOf "You have entered an Arena (PvP) area."])))
  = "an Arena (PvP) area".
Proof.
  apply (old_zone_unfiltered (lib := StrConv.exampleLib)).
  vm_compute. reflexivity.
Defined.

Lemma old_death_unguarded_witness :
  let s1 := ParserOld.CurrentState
              (ParserOld.ProcessLines (lib := StrConv.exampleLib) ParserOld.NewEngine
                 (Eqlog.NewReader "eq")
                 (map entryOf ["Your Location is -5, -5, 0"]
                  ++ [entryOf "Your Location is -9, -8, 0 You have been slain by a gnoll!"])) in
  (ParserOld.CorpseX s1 = ParserOld.X s1 /\ ParserOld.CorpseY s1 = ParserOld.Y s1
   /\ ParserOld.HasCorpse s1 = true)
  /\ ParserOld.X s1 = 8%float /\ ParserOld.Y s1 = 9%float.
Proof.
  split.
  - apply (old_death_unguarded (lib := StrConv.exampleLib) ParserOld.NewEngine
             (Eqlog.NewReader "eq") (map entryOf ["Your Location is -5, -5, 0"])
             (entryOf "Your Location is -9, -8, 0 You have been slain by a gnoll!")).
    vm_compute. reflexivity.
  - vm_compute. split; reflexivity.
Defined.

Lemma old_revision_motion_witness :
  let lines := map entryOf ["Your Location is 10, 20, 3";
                            "You have entered The Nexus.";
                            "Your Location is 15, 25, 4"] in
  let so := ParserOld.CurrentState
              (ParserOld.ProcessLines (lib := StrConv.exampleLib) ParserOld.NewEngine
                 (Eqlog.NewReader "eq") lines) in
  let sn := Parser.CurrentState
              (Parser.ProcessLines (lib := StrConv.exampleLib) Parser.NewEngine
                 (Eqlog.NewReader "eq") lines) in
  ParserOld.X so = Parser.X sn
  /\ ParserOld.Y so = Parser.Y sn
  /\ ParserOld.Heading so = Parser.Heading sn
  /\ ParserOld.Z so = 0%float.
Proof.
  exact (old_revision_motion (lib := StrConv.exampleLib) ParserOld.NewEngine
           Parser.NewEngine (Eqlog.NewReader "eq")
           (map entryOf ["Your Location is 10, 20, 3";
                         "You have entered The Nexus.";
                         "Your Location is 15, 25, 4"])
           eq_refl eq_refl eq_refl).
Defined.

End RevisionFacts.

(** ** The loader, file by file *)

Module LoaderFacts.
Import GoStrings StrConv Maps MapsSpec MoreSpec.

Lemma Split_not_nil s sep : Split s sep <> [].
Proof.
  destruct s as [|c r]; cbn [Split]; [discriminate|].
  destruct (Ascii.eqb c sep); [discriminate|].
  destruct (Split r sep); discriminate.
Qed.

Lemma Join_cons c f fs sep :
  Join (String c f :: fs) sep = String c (Join (f :: fs) sep).
Proof. destruct fs; reflexivity. Qed.

Lemma afterSep_0 sep s : afterSep sep 0 s = s.
Proof. destruct s; reflexivity. Qed.

(** Joining the fields from the [n]-th on gives back what follows the
    [n]-th separator. *)
Lemma Join_skipn_Split sep : forall s n,
  (n < length (Split s sep))%nat ->
  Join (skipn n (Split s sep)) (String sep EmptyString) = afterSep sep n s.
Proof.
  induction s as [|c r IH]; intros n Hn.
  - cbn in Hn. assert (n = O) by lia. subst n. reflexivity.
  - cbn [Split] in *. destruct (Ascii.eqb c sep) eqn:Hc.
    + apply Ascii.eqb_eq in Hc. subst c. destruct n as [|k].
      * pose proof (Split_not_nil r sep) as Hne.
        pose proof (IH O) as IH0.
        change (skipn 0 (Split r sep)) with (Split r sep) in IH0.
        change (skipn 0 (EmptyString :: Split r sep)) with (EmptyString :: Split r sep).
        destruct (Split r sep) as [|f fs] eqn:Hsplit; [contradiction|].
        change (Join (EmptyString :: f :: fs) (String sep EmptyString))
          with (String sep (Join (f :: fs) (String sep EmptyString))).
        rewrite IH0, !afterSep_0 by (cbn; lia). reflexivity.
      * cbn [skipn afterSep]. rewrite Ascii.eqb_refl. apply IH. cbn in Hn. lia.
    + pose proof (Split_not_nil r sep) as Hne.
      destruct (Split r sep) as [|f fs] eqn:Hsplit; [contradiction|].
      destruct n as [|k].
      * pose proof (IH O) as IH0.
        change (skipn 0 (f :: fs)) with (f :: fs) in IH0.
        change (skipn 0 (String c f :: fs)) with (String c f :: fs).
        rewrite Join_cons, IH0, !afterSep_0 by (cbn; lia). reflexivity.
      * cbn [afterSep]. rewrite Hc. rewrite <- IH by (cbn in *; lia). reflexivity.
Qed.

Lemma no_underscore s : Contains (ReplaceAll s "_" " ") "_" = false.
Proof.
  unfold ReplaceAll. induction s as [|c r IH]; [reflexivity|].
  cbn [replaceFrom]. unfold HasPrefix. cbn [CutPrefix].
  destruct (Ascii.eqb "_" c) eqn:Hc.
  - cbn [String.length Nat.sub]. change (" " +:+ ?x) with (String " " x).
    change (String.append " " (replaceFrom 0 r "_" " "))
      with (String " " (replaceFrom 0 r "_" " ")).
    rewrite PatternFacts.Contains_byte. exact IH.
  - rewrite PatternFacts.Contains_byte, Hc. exact IH.
Qed.

Section WithLib.
Context {lib : GoLib}.

(** X13. A [P] line with seven fields at least is accepted as a label and
    leaves the box alone.  The text of the label is what follows the seventh
    comma of the content, commas included, trimmed and with every underscore
    replaced by a space; with seven fields only it is empty. *)
Theorem label_text rawLine content zm count :
  fieldsOf rawLine = Some (CmdP, Split content ",") ->
  (7 <= length (Split content ","))%nat ->
  let p := parseLabel (Split content ",") in
  let zm' := fst (parseLine (zm, count) rawLine) in
  parseLine (zm, count) rawLine = (addItem zm (Label p), (count + 1)%Z)
  /\ Labels zm' = Labels zm ++ [p]
  /\ Lines zm' = Lines zm
  /\ (MinX zm', MaxX zm', MinY zm', MaxY zm') = (MinX zm, MaxX zm, MinY zm, MaxY zm)
  /\ MapLabel.Text p
     = (if (8 <=? length (Split content ","))%nat
        then ReplaceAll (TrimSpace (afterSep "," 7 content)) "_" " "
        else EmptyString)
  /\ Contains (MapLabel.Text p) "_" = false.
Proof.
  intros Hfields Hlen p zm'.
  assert (Hline : parseLine (zm, count) rawLine = (addItem zm (Label p), (count + 1)%Z)).
  { rewrite MapsFacts.parseLine_item. unfold itemOf. rewrite Hfields.
    apply Nat.leb_le in Hlen. rewrite Hlen. reflexivity. }
  split; [exact Hline|]. subst zm'. rewrite Hline. cbn [fst addItem Labels Lines MinX MaxX MinY MaxY].
  split; [reflexivity|]. split; [reflexivity|]. split; [reflexivity|].
  assert (Htext : MapLabel.Text p
                  = if (8 <=? length (Split content ","))%nat
                    then ReplaceAll (TrimSpace (afterSep "," 7 content)) "_" " "
                    else EmptyString).
  { subst p. unfold parseLabel. cbn [MapLabel.Text].
    destruct (Nat.leb_spec 8 (length (Split content ","))) as [H8|H8]; [|reflexivity].
    rewrite (Join_skipn_Split "," content 7) by lia. reflexivity. }
  split; [exact Htext|]. rewrite Htext.
  destruct (8 <=? _)%nat; [apply no_underscore | reflexivity].
Qed.

Lemma validColor_parseColor r g b : validColor (parseColor r g b).
Proof.
  unfold parseColor, validColor, uint8.
  destruct (_ && _); cbn [R G B A]; [lia|].
  pose proof (Z.mod_pos_bound (parseInt r) 256 ltac:(lia)).
  pose proof (Z.mod_pos_bound (parseInt g) 256 ltac:(lia)).
  pose proof (Z.mod_pos_bound (parseInt b) 256 ltac:(lia)).
  lia.
Qed.

Lemma validColor_item rawLine it :
  itemOf rawLine = Some it ->
  validItem it.
Proof.
  unfold itemOf. destruct (fieldsOf rawLine) as [[[|] parts]|]; [| |discriminate].
  - destruct (6 <=? _)%nat; [|discriminate]. intros [= <-].
    cbn [validItem]. unfold parseSegment. cbn [MapLine.Color].
    destruct (9 <=? _)%nat; [apply validColor_parseColor|].
    unfold validColor. cbn. lia.
  - destruct (7 <=? _)%nat; [|discriminate]. intros [= <-].
    cbn [validItem]. unfold parseLabel. cbn [MapLabel.Color]. apply validColor_parseColor.
Qed.

Lemma colorsOf_addItem zm it :
  validItem it ->
  Forall validColor (colorsOf zm) -> Forall validColor (colorsOf (addItem zm it)).
Proof.
  intros Hit Hzm. unfold colorsOf in *. apply Forall_app in Hzm as [Hl Hp].
  destruct it as [l|p]; cbn [addItem updateBounds Lines Labels];
    rewrite map_app; apply Forall_app; split; try assumption;
    apply Forall_app; split; try assumption;
    (constructor; [exact Hit | constructor]).
Qed.

Lemma colorsOf_addItems items : forall zm,
  Forall validItem items ->
  Forall validColor (colorsOf zm) ->
  Forall validColor (colorsOf (fold_left addItem items zm)).
Proof.
  induction items as [|it items IH]; intros zm Hall Hzm; [exact Hzm|].
  inversion Hall as [|? ? Hit Hrest]; subst.
  cbn [fold_left]. apply IH; [exact Hrest|]. apply colorsOf_addItem; assumption.
Qed.

Lemma itemsOf_valid lines :
  Forall validItem (itemsOf lines).
Proof.
  induction lines as [|rawLine lines IH]; [constructor|].
  unfold itemsOf. cbn [omap list_omap]. fold (itemsOf lines).
  destruct (itemOf rawLine) as [it|] eqn:Hit; [|exact IH].
  constructor; [exact (validColor_item _ _ Hit) | exact IH].
Qed.

Lemma length_items items :
  (length (segmentsOf items) + length (labelsOf items))%nat = length items.
Proof.
  induction items as [|[l|p] items IH]; [reflexivity| |];
    unfold segmentsOf, labelsOf in *; cbn [omap list_omap length] in *; lia.
Qed.

Lemma length_itemsOf lines : (length (itemsOf lines) <= length lines)%nat.
Proof.
  induction lines as [|rawLine lines IH]; [cbn; lia|].
  unfold itemsOf in *. cbn [omap list_omap].
  destruct (itemOf rawLine); cbn [length]; lia.
Qed.

Context {fs : FileSystem}.

(** X14. [parseFile] only appends: the segments and the labels the map had
    stay at the head of its lists, the name stays, and the count returned is
    the number of segments and labels appended, at most the number of lines
    scanned.  When the file does not open the map is returned as it was,
    with count 0 and the error. *)
Theorem parseFile_appends zm path :
  let zm' := fst (fst (parseFile zm path)) in
  let count := snd (fst (parseFile zm path)) in
  let err := snd (parseFile zm path) in
  (exists segments labels,
      Lines zm' = Lines zm ++ segments
      /\ Labels zm' = Labels zm ++ labels
      /\ count = Z.of_nat (length segments + length labels))
  /\ Name zm' = Name zm
  /\ (err = true <-> OpenScan path = None)
  /\ (err = true -> zm' = zm /\ count = 0%Z)
  /\ (forall lines, OpenScan path = Some lines ->
        (0 <= count <= Z.of_nat (length lines))%Z).
Proof.
  cbv zeta. rewrite MapsFacts.parseFile_items. cbn [fst snd].
  destruct (MapsFacts.addItems_geometry (itemsIn path) zm) as (HN & HL & HP).
  split; [|split; [exact HN|split; [|split]]].
  - exists (segmentsOf (itemsIn path)), (labelsOf (itemsIn path)).
    split; [exact HL|]. split; [exact HP|]. rewrite length_items. reflexivity.
  - destruct (OpenScan path); split; congruence.
  - unfold itemsIn. destruct (OpenScan path); [discriminate|]. intros _. split; reflexivity.
  - intros lines Hopen. unfold itemsIn. rewrite Hopen.
    pose proof (length_itemsOf lines). lia.
Qed.

Lemma itemsIn_valid paths :
  Forall validItem (flat_map itemsIn paths).
Proof.
  induction paths as [|path paths IH]; [constructor|].
  cbn [flat_map]. apply Forall_app. split; [|exact IH].
  unfold itemsIn. destruct (OpenScan path); [apply itemsOf_valid | constructor].
Qed.

(** X15. Every colour of a map [LoadZone] returns, of a segment or of a
    label, is opaque and has its three channels between 0 and 255. *)
Theorem colours_valid mapDir zoneName zm :
  LoadZone mapDir zoneName = Loaded zm ->
  Forall validColor (colorsOf zm).
Proof.
  unfold LoadZone. destruct (GlobAll mapDir) as [allFiles|]; [|discriminate].
  rewrite MapsFacts.loadTargets_items. destruct (negb _); [discriminate|].
  intros Hzm. injection Hzm as <-.
  apply colorsOf_addItems; [apply itemsIn_valid | constructor].
Qed.

(** X16. Of the listed paths whose names are the same but for the case of
    their letters, the index keeps the one listed last; a name no listed
    path has is not in the index. *)
Theorem index_last_wins before path after :
  Forall (fun q => ToLower (Base q) <> ToLower (Base path)) after ->
  indexFiles (before ++ path :: after) !! ToLower (Base path) = Some path
  /\ (forall target,
        Forall (fun q => ToLower (Base q) <> target) (before ++ path :: after) ->
        indexFiles (before ++ path :: after) !! target = None).
Proof.
  intros Hafter. split.
  - unfold indexFiles. rewrite fold_left_app. cbn [fold_left].
    match goal with
    | |- context [fold_left ?f before ?e] => generalize (fold_left f before e)
    end.
    intros m.
    assert (Hm : <[ToLower (Base path) := path]> m !! ToLower (Base path) = Some path)
      by apply lookup_insert_eq.
    revert Hm. generalize (<[ToLower (Base path) := path]> m). clear m.
    induction Hafter as [|q after Hq _ IH]; intros m Hm; [exact Hm|].
    cbn [fold_left]. apply IH. rewrite lookup_insert_ne by exact Hq. exact Hm.
  - intros target Hall. apply MapsFacts.indexFiles_none. exact Hall.
Qed.

End WithLib.

Lemma label_text_witness :
  let content := "10, 20, 0, 0, 0, 0, 2, to_The_Bazaar, north_gate" in
  MapLabel.Text (parseLabel (lib := exampleLib) (Split content ","))
  = "to The Bazaar, north gate".
Proof.
  destruct (label_text (lib := exampleLib)
              "P 10, 20, 0, 0, 0, 0, 2, to_The_Bazaar, north_gate "
              "10, 20, 0, 0, 0, 0, 2, to_The_Bazaar, north_gate"
              (emptyZone "nexus") 0)
    as (_ & _ & _ & _ & Htext & _).
  - vm_compute. reflexivity.
  - vm_compute. lia.
  - cbv zeta. rewrite Htext. vm_compute. reflexivity.
Defined.

Lemma colours_valid_witness :
  Forall validColor (colorsOf (Examples.loaded "dark")).
Proof.
  apply (colours_valid (lib := exampleLib) (fs := Examples.exampleFS) "maps" "dark").
  vm_compute. reflexivity.
Defined.

Lemma index_last_wins_witness :
  indexFiles (lib := exampleLib) (["maps/a.txt"] ++ "maps/NEXUS.txt" :: ["maps/b.txt"])
    !! "nexus.txt" = Some "maps/NEXUS.txt".
Proof.
  destruct (index_last_wins (lib := exampleLib) ["maps/a.txt"] "maps/NEXUS.txt"
              ["maps/b.txt"]) as [H _].
  - repeat constructor. vm_compute. discriminate.
  - exact H.
Defined.

End LoaderFacts.

(** ** Lines that add nothing to a map *)

Module CommaFacts.
Import GoStrings StrConv Maps MapsSpec MoreSpec.

Lemma count_revOnto sep s acc :
  countByte sep (revOnto s acc) = (countByte sep s + countByte sep acc)%nat.
Proof.
  revert acc. induction s as [|c s IH]; intros acc; [reflexivity|].
  cbn [revOnto countByte]. rewrite IH. cbn [countByte]. lia.
Qed.

Lemma count_reverse sep s : countByte sep (reverse s) = countByte sep s.
Proof. unfold reverse. rewrite count_revOnto. cbn. lia. Qed.

Lemma count_dropSpace sep back n : forall s,
  (String.length s <= n)%nat ->
  (countByte sep (dropSpace back s) <= countByte sep s)%nat.
Proof.
  induction n as [|n IH]; intros s Hlen.
  - destruct s; [cbn; lia | simpl in Hlen; lia].
  - destruct s as [|c r]; [cbn; lia|].
    cbn [dropSpace]. simpl in Hlen.
    destruct (isSpace1 c).
    { specialize (IH r ltac:(lia)). cbn [countByte]. lia. }
    destruct r as [|d r1]; [lia|]. simpl in Hlen.
    destruct (if back then isSpace2 d c else isSpace2 c d).
    { specialize (IH r1 ltac:(lia)). cbn [countByte]. lia. }
    destruct r1 as [|x r2]; [lia|]. simpl in Hlen.
    destruct (if back then isSpace3 x d c else isSpace3 c d x); [|lia].
    specialize (IH r2 ltac:(lia)). cbn [countByte]. lia.
Qed.

Lemma count_TrimSpace sep s : (countByte sep (TrimSpace s) <= countByte sep s)%nat.
Proof.
  unfold TrimSpace. rewrite count_reverse.
  etransitivity; [apply (count_dropSpace sep true _ _ (le_n _))|].
  rewrite count_reverse. apply (count_dropSpace sep false _ _ (le_n _)).
Qed.

Lemma count_replaceFrom sep old s : forall skip,
  (countByte sep (replaceFrom skip s old EmptyString) <= countByte sep s)%nat.
Proof.
  induction s as [|c r IH]; intros skip; [cbn; lia|].
  cbn [replaceFrom]. destruct skip as [|k].
  - destruct (HasPrefix (String c r) old).
    + change (String.append EmptyString ?x) with x.
      specialize (IH (String.length old - 1)%nat). cbn [countByte]. lia.
    + specialize (IH O). cbn [countByte]. lia.
  - specialize (IH k). cbn [countByte]. lia.
Qed.

Lemma count_findCommand sep line cmd after :
  findCommand line = Some (cmd, after) ->
  (countByte sep after <= countByte sep line)%nat.
Proof.
  induction line as [|c r IH]; [discriminate|].
  cbn [findCommand countByte].
  destruct (_ || _); [intros [= _ <-]; lia|].
  destruct (_ || _); [intros [= _ <-]; lia|].
  intros H. specialize (IH H). lia.
Qed.

Lemma count_TrimLeft sep cutset s :
  (countByte sep (TrimLeft s cutset) <= countByte sep s)%nat.
Proof.
  induction s as [|c r IH]; [cbn; lia|].
  cbn [TrimLeft]. destruct (inCutset cutset c); [cbn [countByte]; lia | lia].
Qed.

Lemma length_Split sep s : length (Split s sep) = S (countByte sep s).
Proof.
  induction s as [|c r IH]; [reflexivity|].
  cbn [Split countByte]. destruct (Ascii.eqb c sep).
  - cbn [length]. rewrite IH. reflexivity.
  - destruct (Split r sep) as [|f fs]; [discriminate IH|].
    cbn [length] in *. lia.
Qed.

Section WithLib.
Context {lib : GoLib}.

(** X17. A line with fewer than five commas adds nothing to the map,
    whatever letters it holds: the loader takes the first [L] or [P] of a
    line for its command wherever it stands, but accepts a segment with six
    fields at least and a label with seven. *)
Theorem few_commas_skipped rawLine zm count :
  (countByte "," rawLine < 5)%nat ->
  parseLine (zm, count) rawLine = (zm, count).
Proof.
  intros Hfew. rewrite MapsFacts.parseLine_item.
  assert (Hparts : forall cmd parts,
            fieldsOf rawLine = Some (cmd, parts) -> (length parts < 6)%nat).
  { unfold fieldsOf. destruct (String.eqb _ EmptyString); [discriminate|].
    destruct (findCommand _) as [[c after]|] eqn:Hcmd; [|discriminate].
    intros cmd parts [= _ <-]. rewrite length_Split.
    pose proof (count_TrimLeft "," " ," after).
    pose proof (count_findCommand "," _ _ _ Hcmd).
    pose proof (count_TrimSpace "," (ReplaceAll rawLine BOM EmptyString)).
    pose proof (count_replaceFrom "," BOM rawLine O). unfold ReplaceAll in *. lia. }
  unfold itemOf. destruct (fieldsOf rawLine) as [[[|] parts]|]; [| |reflexivity].
  - specialize (Hparts _ _ eq_refl).
    destruct (Nat.leb_spec 6 (length parts)); [lia | reflexivity].
  - specialize (Hparts _ _ eq_refl).
    destruct (Nat.leb_spec 7 (length parts)); [lia | reflexivity].
Qed.

End WithLib.

Lemma few_commas_skipped_witness :
  parseLine (lib := exampleLib) (emptyZone "nexus", 0%Z) "; Plane of Knowledge, lower level"
  = (emptyZone "nexus", 0%Z).
Proof.
  apply (few_commas_skipped (lib := exampleLib)). vm_compute. lia.
Defined.

(** A comment with a command letter and commas enough is taken for a
    segment. *)
Example comment_taken_for_segment :
  length (Lines (fst (parseLine (lib := exampleLib) (emptyZone "nexus", 0%Z)
                        "; old: 1, 2, 3, 4, 5, 6"))) = 1%nat.
Proof. vm_compute. reflexivity. Qed.

End CommaFacts.

(** ** The zone name lookup *)

Module ZoneNameFacts.
Import GoStrings Maps MapsSpec ZoneNames.

Lemma cutAt_none sep s :
  Contains s (String sep EmptyString) = false -> cutAt sep s = None.
Proof.
  induction s as [|c r IH]; [reflexivity|].
  rewrite PatternFacts.Contains_byte. intros H.
  apply orb_false_iff in H as [Hc Hr].
  cbn [cutAt]. rewrite Ascii.eqb_sym, Hc, (IH Hr). reflexivity.
Qed.

Lemma cutAt_first sep a b :
  Contains a (String sep EmptyString) = false ->
  cutAt sep (a +:+ String sep b) = Some (a, b).
Proof.
  induction a as [|c a IH].
  - intros _. change (EmptyString +:+ String sep b) with (String sep b).
    cbn [cutAt]. rewrite Ascii.eqb_refl. reflexivity.
  - rewrite PatternFacts.Contains_byte. intros H.
    apply orb_false_iff in H as [Hc Ha].
    change (String c a +:+ String sep b) with (String c (a +:+ String sep b)).
    cbn [cutAt]. rewrite Ascii.eqb_sym, Hc, (IH Ha). reflexivity.
Qed.

Section WithLib.
Context {lib : GoLib}.

Lemma lookupLine_entry lookup text :
  lookupLine lookup text
  = match lookupEntry text with
    | Some (key, value) => <[key := value]> lookup
    | None => lookup
    end.
Proof.
  unfold lookupLine, lookupEntry. destruct (_ || _); [reflexivity|].
  destruct (cutAt "=" (TrimSpace text)) as [[long short]|]; reflexivity.
Qed.

(** X18. A line of the lookup file that is, once trimmed, neither empty nor
    a comment ([#]) nor a section header ([[]) and holds an [=] defines an
    entry: the key is the text before the first [=], trimmed and in lower
    case, the value the text after it, trimmed (so a value may hold an
    [=]).  Every other line leaves the lookup as it was. *)
Theorem lookup_line lookup text :
  lookupLine lookup text
  = match lookupEntry text with
    | Some (key, value) => <[key := value]> lookup
    | None => lookup
    end
  /\ (forall long short,
        TrimSpace text = long +:+ "=" +:+ short ->
        Contains long "=" = false ->
        HasPrefix (TrimSpace text) "#" = false ->
        HasPrefix (TrimSpace text) "[" = false ->
        lookupEntry text = Some (ToLower (TrimSpace long), TrimSpace short))
  /\ (TrimSpace text = EmptyString
      \/ HasPrefix (TrimSpace text) "#" = true
      \/ HasPrefix (TrimSpace text) "[" = true
      \/ Contains (TrimSpace text) "=" = false ->
      lookupEntry text = None).
Proof.
  split; [|split].
  - apply lookupLine_entry.
  - intros long short Hline Hlong Hhash Hbracket. unfold lookupEntry.
    cbv zeta. rewrite Hhash, Hbracket, Hline.
    change (long +:+ "=" +:+ short) with (long +:+ String "=" short).
    rewrite (cutAt_first "=" long short Hlong).
    destruct long; reflexivity.
  - intros H. unfold lookupEntry.
    destruct H as [H|[H|[H|H]]].
    + rewrite H. reflexivity.
    + rewrite H, orb_true_r. reflexivity.
    + rewrite H, orb_true_r. reflexivity.
    + rewrite (cutAt_none "=" _ H). destruct (_ || _); reflexivity.
Qed.

Lemma lookupLines_from lines : forall (m : gmap string string) k,
  Forall (fun t => forall v, lookupEntry t <> Some (k, v)) lines ->
  fold_left lookupLine lines m !! k = m !! k.
Proof.
  induction lines as [|t lines IH]; intros m k Hall; [reflexivity|].
  inversion Hall as [|? ? Ht Hrest]; subst. cbn [fold_left].
  rewrite (IH _ _ Hrest), lookupLine_entry.
  destruct (lookupEntry t) as [[k' v']|]; [|reflexivity].
  apply lookup_insert_ne. intros ->. exact (Ht v' eq_refl).
Qed.

Lemma lookupLines_some lines : forall (m : gmap string string) k v,
  fold_left lookupLine lines m !! k = Some v ->
  m !! k = Some v \/ exists text, In text lines /\ lookupEntry text = Some (k, v).
Proof.
  induction lines as [|t lines IH]; intros m k v H; [left; exact H|].
  cbn [fold_left] in H. apply IH in H as [H|(text & Hin & Htext)].
  - rewrite lookupLine_entry in H.
    destruct (lookupEntry t) as [[k' v']|] eqn:Ht; [|left; exact H].
    apply lookup_insert_Some in H as [[<- <-]|[_ H]]; [|left; exact H].
    right. exists t. split; [left; reflexivity | exact Ht].
  - right. exists text. split; [right; exact Hin | exact Htext].
Qed.

Context {fs : FileSystem}.

(** X19. [LoadZoneLookup] fails exactly when the file does not open.
    Otherwise, of the lines that define the same key the last one counts,
    and every entry of the lookup is defined by a line of the file. *)
Theorem lookup_last_wins path :
  (LoadZoneLookup path = None <-> OpenScan path = None)
  /\ (forall lines,
        OpenScan path = Some lines ->
        exists m,
          LoadZoneLookup path = Some m
          /\ (forall before text after key value,
                lines = before ++ text :: after ->
                lookupEntry text = Some (key, value) ->
                Forall (fun t => forall v, lookupEntry t <> Some (key, v)) after ->
                m !! key = Some value)
          /\ (forall key value,
                m !! key = Some value ->
                exists text, In text lines /\ lookupEntry text = Some (key, value))).
Proof.
  unfold LoadZoneLookup. split.
  - destruct (OpenScan path); split; congruence.
  - intros lines ->. eexists. split; [reflexivity|]. split.
    + intros before text after key value -> Htext Hafter.
      rewrite fold_left_app. cbn [fold_left].
      rewrite (lookupLines_from _ _ _ Hafter).
      rewrite lookupLine_entry, Htext. apply lookup_insert_eq.
    + intros key value H. apply lookupLines_some in H as [H|H]; [|exact H].
      rewrite lookup_empty in H. discriminate.
Qed.

(** *** The JSON configuration *)

Lemma config_from raw : forall (m : gmap string string) key,
  Forall (fun kv => ToLower (fst kv) <> key) raw ->
  fold_left (fun m kv => <[ToLower (fst kv) := snd kv]> m) raw m !! key = m !! key.
Proof.
  induction raw as [|kv raw IH]; intros m key Hall; [reflexivity|].
  inversion Hall as [|? ? Hkv Hrest]; subst. cbn [fold_left].
  rewrite (IH _ _ Hrest). apply lookup_insert_ne. exact Hkv.
Qed.

Lemma config_some raw : forall (m : gmap string string) key value,
  (forall kv, In kv raw -> ToLower (fst kv) = key -> snd kv = value) ->
  m !! key = Some value \/ Exists (fun kv => ToLower (fst kv) = key) raw ->
  fold_left (fun m kv => <[ToLower (fst kv) := snd kv]> m) raw m !! key = Some value.
Proof.
  induction raw as [|kv raw IH]; intros m key value Hsame H.
  - destruct H as [H|H]; [exact H | inversion H].
  - cbn [fold_left]. apply IH.
    + intros kv' Hin. apply Hsame. right. exact Hin.
    + destruct (decide (ToLower (fst kv) = key)) as [Hk|Hk].
      * left. rewrite Hk, (Hsame kv (or_introl eq_refl) Hk). apply lookup_insert_eq.
      * destruct H as [H|H].
        -- left. rewrite lookup_insert_ne by exact Hk. exact H.
        -- right. inversion H; subst; [contradiction | assumption].
Qed.

(** X20. When no two keys of the decoded object are the same but for the
    case of their letters, the map [LoadZoneConfig] leaves does not depend
    on the order in which [range] visits the object. *)
Theorem config_order_free ZoneFileMap rawMap visited :
  Permutation rawMap visited ->
  List.NoDup (map (fun kv => ToLower (fst kv)) rawMap) ->
  LoadZoneConfig ZoneFileMap (Some visited) = LoadZoneConfig ZoneFileMap (Some rawMap).
Proof.
  intros Hperm Hnodup. unfold LoadZoneConfig. f_equal.
  revert ZoneFileMap Hnodup.
  induction Hperm as [|x l l' _ IH|x y l|l l' l'' H1 IH1 H2 IH2]; intros m Hnodup.
  - reflexivity.
  - cbn [fold_left]. apply IH. cbn in Hnodup. inversion Hnodup; assumption.
  - cbn [fold_left]. f_equal. apply insert_insert_ne.
    cbn in Hnodup. inversion Hnodup as [|? ? Hnotin _]; subst.
    intros Heq. apply Hnotin. left. symmetry. exact Heq.
  - rewrite IH2, IH1; [reflexivity | exact Hnodup |].
    eapply Permutation_NoDup; [|exact Hnodup].
    apply Permutation_map. exact H1.
Qed.

(** X21. After [LoadZoneConfig] has read an object, [GetZoneFileName] gives
    for a zone name the value of the key that is this name but for the case
    of the letters (when the keys that fit agree on the value), and what it
    gave before for a name no key fits.  A file that does not open or does
    not decode leaves the map as it was. *)
Theorem config_lookup ZoneFileMap rawMap zoneName :
  let after := fst (LoadZoneConfig ZoneFileMap (Some rawMap)) in
  (forall key value,
     In (key, value) rawMap ->
     ToLower key = ToLower zoneName ->
     (forall key' value',
        In (key', value') rawMap -> ToLower key' = ToLower zoneName -> value' = value) ->
     GetZoneFileName after zoneName = value)
  /\ (Forall (fun kv => ToLower (fst kv) <> ToLower zoneName) rawMap ->
      GetZoneFileName after zoneName = GetZoneFileName ZoneFileMap zoneName)
  /\ LoadZoneConfig ZoneFileMap None = (ZoneFileMap, true)
  /\ GetZoneFileName ∅ zoneName = EmptyString.
Proof.
  cbv zeta. unfold GetZoneFileName, LoadZoneConfig. cbn [fst].
  split; [|split; [|split]].
  - intros key value Hin Hkey Hsame.
    rewrite (config_some rawMap ZoneFileMap (ToLower zoneName) value); [reflexivity| |].
    + intros [k' v'] Hin' Hk'. exact (Hsame k' v' Hin' Hk').
    + right. apply List.Exists_exists. exists (key, value). split; [exact Hin | exact Hkey].
  - intros Hall. rewrite (config_from _ _ _ Hall). reflexivity.
  - reflexivity.
  - rewrite lookup_empty. reflexivity.
Qed.

(** X22. [loadMapForZone] loads the files named after the value the
    configuration gives for the zone name, and after the zone name itself
    when it gives none or gives the empty string; the map it keeps carries
    this file code as its name, not the zone name. *)
Theorem map_data_resolved ZoneFileMap mapDir zoneName :
  let code := match ZoneFileMap !! ToLower zoneName with
              | Some (String c r) => String c r
              | _ => zoneName
              end in
  fileCodeFor ZoneFileMap zoneName = code
  /\ mapDataFor ZoneFileMap mapDir zoneName
     = match LoadZone mapDir code with
       | Loaded data => Some data
       | Failed _ => None
       end
  /\ (forall data,
        mapDataFor ZoneFileMap mapDir zoneName = Some data -> Name data = code).
Proof.
  intros code.
  assert (Hcode : fileCodeFor ZoneFileMap zoneName = code).
  { unfold fileCodeFor, GetZoneFileName, code.
    destruct (ZoneFileMap !! ToLower zoneName) as [[|c r]|]; reflexivity. }
  split; [exact Hcode|]. unfold mapDataFor. rewrite Hcode.
  split; [destruct (LoadZone mapDir code); reflexivity|].
  intros data. unfold LoadZone.
  destruct (GlobAll mapDir) as [allFiles|]; [|discriminate].
  rewrite MapsFacts.loadTargets_items. destruct (negb _); [discriminate|].
  intros H. injection H as <-.
  destruct (MapsFacts.addItems_geometry
              (flat_map itemsIn (present (indexFiles allFiles) (targetNames code)))
              (emptyZone code)) as (HN & _).
  exact HN.
Qed.

End WithLib.

Lemma lookup_line_witness :
  lookupEntry (lib := StrConv.exampleLib) "  The Nexus = nexus=2 "
  = Some ("the nexus", "nexus=2").
Proof.
  destruct (lookup_line (lib := StrConv.exampleLib) ∅ "  The Nexus = nexus=2 ")
    as (_ & H & _).
  exact (H "The Nexus " " nexus=2" eq_refl eq_refl eq_refl eq_refl).
Defined.

Lemma config_order_free_witness :
  LoadZoneConfig (lib := StrConv.exampleLib) ∅
    (Some [("The Nexus", "nexus"); ("East Commonlands", "ecommons")])
  = LoadZoneConfig (lib := StrConv.exampleLib) ∅
      (Some [("East Commonlands", "ecommons"); ("The Nexus", "nexus")]).
Proof.
  apply (config_order_free (lib := StrConv.exampleLib)).
  - apply perm_swap.
  - repeat constructor; vm_compute; intuition discriminate.
Defined.

Lemma lookup_last_wins_witness :
  exists m,
    LoadZoneLookup (lib := StrConv.exampleLib) (fs := MoreExamples.keysFS)
      "maps/map_keys.ini" = Some m
    /\ m !! "the nexus" = Some "nexus_b".
Proof.
  destruct (lookup_last_wins (lib := StrConv.exampleLib) (fs := MoreExamples.keysFS)
              "maps/map_keys.ini") as [_ H].
  destruct (H [ "# long name = short name"; "[Zones]"; "The Nexus = nexus";
                "the nexus=nexus_b"; EmptyString; "no separator" ] eq_refl)
    as (m & Hm & Hlast & _).
  exists m. split; [exact Hm|].
  apply (Hlast [ "# long name = short name"; "[Zones]"; "The Nexus = nexus" ]
               "the nexus=nexus_b" [ EmptyString; "no separator" ]).
  - reflexivity.
  - vm_compute. reflexivity.
  - repeat constructor; intros v; vm_compute; discriminate.
Defined.

Lemma config_lookup_witness :
  GetZoneFileName (lib := StrConv.exampleLib) MoreExamples.exampleConfig "THE NEXUS"
  = "Nexus".
Proof.
  destruct (config_lookup (lib := StrConv.exampleLib) ∅
              [("The Nexus", "Nexus"); ("Unmapped", EmptyString)] "THE NEXUS")
    as (H & _).
  apply (H "The Nexus" "Nexus").
  - left. reflexivity.
  - vm_compute. reflexivity.
  - intros key' value' [Hin|[Hin|[]]] Hkey; injection Hin as <- <-;
      [reflexivity | vm_compute in Hkey; discriminate Hkey].
Defined.

Lemma map_data_resolved_witness :
  fileCodeFor (lib := StrConv.exampleLib) MoreExamples.exampleConfig "the nexus" = "Nexus"
  /\ fileCodeFor (lib := StrConv.exampleLib) MoreExamples.exampleConfig "Unmapped"
     = "Unmapped".
Proof.
  split.
  - destruct (map_data_resolved (lib := StrConv.exampleLib) (fs := Examples.exampleFS)
                MoreExamples.exampleConfig "maps" "the nexus") as (H & _).
    rewrite H. vm_compute. reflexivity.
  - destruct (map_data_resolved (lib := StrConv.exampleLib) (fs := Examples.exampleFS)
                MoreExamples.exampleConfig "maps" "Unmapped") as (H & _).
    rewrite H. vm_compute. reflexivity.
Defined.

End ZoneNameFacts.

(** ** The cleanup command *)

Module CleanupFacts.
Import GoStrings Cleanup.

Lemma HasPrefix_byte_Contains p sep : forall s,
  HasPrefix s (p +:+ String sep EmptyString) = true ->
  Contains s (String sep EmptyString) = true.
Proof.
  unfold HasPrefix. induction p as [|c p IH]; intros s.
  - change (EmptyString +:+ String sep EmptyString) with (String sep EmptyString).
    destruct s as [|d s]; cbn [CutPrefix]; [discriminate|].
    rewrite PatternFacts.Contains_byte.
    destruct (Ascii.eqb sep d); [reflexivity | discriminate].
  - change (String c p +:+ String sep EmptyString)
      with (String c (p +:+ String sep EmptyString)).
    destruct s as [|d s]; cbn [CutPrefix]; [discriminate|].
    destruct (Ascii.eqb c d); [|discriminate].
    intros H. rewrite PatternFacts.Contains_byte, (IH s H). apply orb_true_r.
Qed.

Lemma append_inv_head (p a b : string) : p +:+ a = p +:+ b -> a = b.
Proof.
  induction p as [|c p IH]; [intros H; exact H|].
  intros H. injection H as H. exact (IH H).
Qed.

Lemma Split_length_Contains sep : forall s,
  Contains s (String sep EmptyString) = true -> (1 < length (Split s sep))%nat.
Proof.
  induction s as [|c r IH]; [discriminate|].
  rewrite PatternFacts.Contains_byte. cbn [Split]. rewrite (Ascii.eqb_sym sep c).
  destruct (Ascii.eqb c sep).
  - intros _. destruct r as [|d r]; cbn [Split length]; [lia|].
    destruct (Ascii.eqb d sep); [cbn; lia|].
    destruct (Split r sep); cbn; lia.
  - cbn [orb]. intros H. specialize (IH H).
    destruct (Split r sep) as [|f fs]; cbn [length] in *; lia.
Qed.

Section WithLib.
Context {lib : GoLib}.

(** X23. [shouldKeepFile] keeps a file exactly when its name, in lower case
    and without a final [.txt], is a prefix of the key file or starts with
    one followed by an underscore; the test on the number of parts takes
    nothing away.  With no prefix at all no file is kept. *)
Theorem keep_rule filename prefixes :
  let baseName := TrimSuffix (ToLower filename) ".txt" in
  (shouldKeepFile filename prefixes = true
   <-> baseName ∈ prefixes
       \/ exists p, p ∈ prefixes /\ HasPrefix baseName (p +:+ "_") = true)
  /\ shouldKeepFile filename ∅ = false.
Proof.
  intros baseName. split.
  - unfold shouldKeepFile. fold baseName.
    destruct (bool_decide_reflect (baseName ∈ prefixes)) as [Hin|Hnot].
    + split; [intros _; left; exact Hin | reflexivity].
    + split.
      * destruct (1 <? length (Split baseName "_"))%nat; [|discriminate].
        intros H. apply existsb_exists in H as (p & Hp & Hpre).
        right. exists p. split; [|exact Hpre].
        apply elem_of_elements, list_elem_of_In. exact Hp.
      * intros [Hin|(p & Hp & Hpre)]; [contradiction|].
        pose proof (Split_length_Contains "_" baseName
                      (HasPrefix_byte_Contains p "_" baseName Hpre)) as Hlen.
        apply Nat.ltb_lt in Hlen. rewrite Hlen.
        apply existsb_exists. exists p. split; [|exact Hpre].
        apply list_elem_of_In, elem_of_elements. exact Hp.
  - unfold shouldKeepFile. rewrite elements_empty. cbn [existsb].
    destruct (bool_decide_reflect (TrimSuffix (ToLower filename) ".txt" ∈ (∅ : gset string)))
      as [Hin|_]; [set_solver|].
    destruct (_ <? _)%nat; reflexivity.
Qed.

Lemma sweepStep_cases remove prefixes removed keptCount deletedCount file :
  let next := sweepStep remove prefixes (removed, keptCount, deletedCount) file in
  next = (removed, keptCount, deletedCount)
  \/ next = (removed, (keptCount + 1)%Z, deletedCount)
  \/ (next = (removed ++ ["assets/maps/" +:+ Name file], keptCount, (deletedCount + 1)%Z)
      /\ removable remove prefixes ("assets/maps/" +:+ Name file) file).
Proof.
  cbv zeta. unfold sweepStep.
  destruct (IsDir file) eqn:Hdir; [left; reflexivity|]. cbn [orb].
  destruct (_ || _); [left; reflexivity|].
  destruct (String.eqb_spec (Ext (Name file)) ".txt") as [Hext|Hext]; cbn [negb];
    [|left; reflexivity].
  destruct (shouldKeepFile (Name file) prefixes) eqn:Hkeep; [right; left; reflexivity|].
  destruct (remove ("assets/maps/" +:+ Name file)) eqn:Hrm; [|left; reflexivity].
  right. right. split; [reflexivity|]. unfold removable. auto.
Qed.

Lemma sweep_from remove prefixes entries : forall removed keptCount deletedCount,
  let r := fold_left (sweepStep remove prefixes) entries
             (removed, keptCount, deletedCount) in
  exists more,
    fst (fst r) = removed ++ more
    /\ Forall (fun path => exists file, In file entries
                                        /\ removable remove prefixes path file) more
    /\ snd r = (deletedCount + Z.of_nat (length more))%Z
    /\ (keptCount <= snd (fst r))%Z
    /\ (snd (fst r) - keptCount + Z.of_nat (length more)
        <= Z.of_nat (length entries))%Z.
Proof.
  induction entries as [|file entries IH]; intros removed keptCount deletedCount.
  - exists []. cbn. rewrite app_nil_r. repeat split; try constructor; lia.
  - cbn [fold_left]. cbv zeta.
    assert (Hweak : forall more,
              Forall (fun path => exists f, In f entries
                                            /\ removable remove prefixes path f) more ->
              Forall (fun path => exists f, In f (file :: entries)
                                            /\ removable remove prefixes path f) more).
    { intros more. apply List.Forall_impl. intros path (f & Hin & Hf).
      exists f. split; [right; exact Hin | exact Hf]. }
    destruct (sweepStep_cases remove prefixes removed keptCount deletedCount file)
      as [Hnext|[Hnext|[Hnext Hfile]]]; cbv zeta in Hnext; rewrite Hnext.
    + destruct (IH removed keptCount deletedCount) as (more & H1 & H2 & H3 & H4 & H5).
      exists more. cbv zeta in H1, H3, H4, H5. rewrite H1, H3. cbn [length].
      split; [reflexivity|]. split; [apply Hweak, H2|]. split; [reflexivity|].
      split; lia.
    + destruct (IH removed (keptCount + 1)%Z deletedCount)
        as (more & H1 & H2 & H3 & H4 & H5).
      exists more. cbv zeta in H1, H3, H4, H5. rewrite H1, H3. cbn [length].
      split; [reflexivity|]. split; [apply Hweak, H2|]. split; [reflexivity|].
      split; lia.
    + destruct (IH (removed ++ ["assets/maps/" +:+ Name file]) keptCount
                  (deletedCount + 1)%Z) as (more & H1 & H2 & H3 & H4 & H5).
      exists (("assets/maps/" +:+ Name file) :: more).
      cbv zeta in H1, H3, H4, H5. rewrite H1, H3. cbn [length].
      split; [rewrite <- app_assoc; reflexivity|]. split.
      * constructor; [|apply Hweak, H2].
        exists file. split; [left; reflexivity | exact Hfile].
      * split; [lia|]. split; lia.
Qed.

(** X24. The cleanup removes only files of the directory that are no
    directories, have the extension [.txt], are not kept by
    [shouldKeepFile] and whose removal succeeds; so it never removes the
    key files.  [deletedCount] is the number of paths removed, and kept and
    removed files together are at most the entries of the directory.  When
    the key file does not decode or the directory cannot be read, the
    command panics before it removes anything. *)
Theorem sweep_removes remove prefixes entries :
  let removed := fst (fst (sweep remove prefixes entries)) in
  let keptCount := snd (fst (sweep remove prefixes entries)) in
  let deletedCount := snd (sweep remove prefixes entries) in
  Forall (fun path => exists file, In file entries
                                   /\ removable remove prefixes path file) removed
  /\ ~ In "assets/maps/map_keys.json" removed
  /\ ~ In "assets/maps/map_keys.ini" removed
  /\ deletedCount = Z.of_nat (length removed)
  /\ (0 <= keptCount)%Z
  /\ (keptCount + deletedCount <= Z.of_nat (length entries))%Z
  /\ (forall decoded files,
        loadValidPrefixes decoded = None \/ files = None ->
        main decoded files remove = None).
Proof.
  cbv zeta. unfold sweep.
  destruct (sweep_from remove prefixes entries [] 0%Z 0%Z)
    as (more & H1 & H2 & H3 & H4 & H5).
  cbv zeta in H1, H3, H4, H5. rewrite H1, H3. cbn [app].
  assert (Hkeys : forall name,
            Ext name <> ".txt" -> ~ In ("assets/maps/" +:+ name) more).
  { intros name Hext Hin. rewrite List.Forall_forall in H2.
    destruct (H2 _ Hin) as (file & _ & Hpath & _ & Hfile & _).
    apply append_inv_head in Hpath. rewrite <- Hpath in Hfile.
    contradiction. }
  split; [exact H2|].
  split; [apply (Hkeys "map_keys.json"); vm_compute; discriminate|].
  split; [apply (Hkeys "map_keys.ini"); vm_compute; discriminate|].
  split; [lia|]. split; [lia|]. split; [lia|].
  intros decoded files [H|H]; unfold main; rewrite H; [reflexivity|].
  destruct (loadValidPrefixes decoded); reflexivity.
Qed.

End WithLib.

Example sweep_sample :
  sweep (lib := StrConv.exampleLib) (fun _ => true) {["nexus"]}
    [ {| Name := "old"; IsDir := true |};
      {| Name := "map_keys.json"; IsDir := false |};
      {| Name := "nexus.txt"; IsDir := false |};
      {| Name := "Nexus_1.TXT"; IsDir := false |};
      {| Name := "junk.txt"; IsDir := false |};
      {| Name := "notes.md"; IsDir := false |} ]
  = (["assets/maps/junk.txt"], 1%Z, 1%Z).
Proof. vm_compute. reflexivity. Qed.

Lemma keep_rule_witness :
  shouldKeepFile (lib := StrConv.exampleLib) "Nexus2.txt" {["nexus"]} = false
  /\ shouldKeepFile (lib := StrConv.exampleLib) "Nexus_1.txt" {["nexus"]} = true.
Proof.
  split.
  - destruct (keep_rule (lib := StrConv.exampleLib) "Nexus2.txt" {["nexus"]}) as [H _].
    cbv zeta in H. destruct (shouldKeepFile "Nexus2.txt" {["nexus"]}); [|reflexivity].
    exfalso. destruct H as [H _]. destruct (H eq_refl) as [Hin|(p & Hp & Hpre)].
    + apply elem_of_singleton in Hin. vm_compute in Hin. discriminate Hin.
    + apply elem_of_singleton in Hp. subst p. vm_compute in Hpre. discriminate Hpre.
  - apply (keep_rule (lib := StrConv.exampleLib) "Nexus_1.txt" {["nexus"]}).
    right. exists "nexus". split; [apply elem_of_singleton; reflexivity|].
    vm_compute. reflexivity.
Defined.

End CleanupFacts.

(** ** The window: trail, fitted box and menus *)

Module UiFacts.
Import GoStrings Maps MapsSpec MoreSpec Ui.

Lemma track_length st crumbs :
  (length crumbs <= 500)%nat -> (length (trackBreadcrumb st crumbs) <= 500)%nat.
Proof.
  intros Hlen. unfold trackBreadcrumb.
  destruct (if (length crumbs =? 0)%nat then true else _); [|exact Hlen].
  destruct (Nat.ltb_spec 500 (length (crumbs ++ [{| X := Parser.X st; Y := Parser.Y st |}])))
    as [Hover|Hfits]; [|exact Hfits].
  rewrite length_app in Hover. cbn in Hover.
  destruct crumbs as [|c crumbs]; cbn [app tail]; [cbn; lia|].
  rewrite length_app. cbn in *. lia.
Qed.

Lemma track_from st crumbs :
  Forall (fun bc => In bc crumbs \/ bc = crumbOf st) (trackBreadcrumb st crumbs).
Proof.
  assert (Hall : Forall (fun bc => In bc crumbs \/ bc = crumbOf st)
                        (crumbs ++ [crumbOf st])).
  { apply Forall_app. split.
    - apply List.Forall_forall. intros bc Hin. left. exact Hin.
    - constructor; [right; reflexivity | constructor]. }
  unfold trackBreadcrumb. fold (crumbOf st).
  destruct (if (length crumbs =? 0)%nat then true else _).
  - destruct (500 <? _)%nat; [|exact Hall].
    destruct (crumbs ++ [crumbOf st]) as [|c rest]; [constructor|].
    inversion Hall; assumption.
  - apply List.Forall_forall. intros bc Hin. left. exact Hin.
Qed.

Lemma track_not_nil st crumbs : trackBreadcrumb st crumbs <> [].
Proof.
  unfold trackBreadcrumb. destruct crumbs as [|c crumbs].
  - cbn. discriminate.
  - cbn [length Nat.eqb].
    destruct (PrimFloat.ltb _ _); [|discriminate].
    destruct (500 <? _)%nat; [|destruct crumbs; discriminate].
    cbn [app tail]. destruct crumbs; discriminate.
Qed.

Section WithLib.
Context {lib : GoLib} {fs : FileSystem}.

(** A frame with an engine, field by field: the K key going down clears
    the corpse flag and nothing else of the state, and the window follows
    the zone of the engine. *)
Lemma Update_engine ZoneFileMap MapDir cPressed kPressed st w :
  let crumbs := if cPressed && negb (lastCKey w) then [] else Breadcrumbs w in
  let result := Update ZoneFileMap MapDir cPressed kPressed (Some st) w in
  fst result = Some (if kPressed && negb (lastKKey w) then Parser.clearCorpse st else st)
  /\ CurrentZone (snd result) = Parser.Zone st
  /\ lastKKey (snd result) = kPressed
  /\ Breadcrumbs (snd result)
     = if negb (String.eqb (Parser.Zone st) (CurrentZone w)) then []
       else trackBreadcrumb st crumbs.
Proof.
  cbv zeta. unfold Update.
  assert (Hst : forall cleared : bool,
            let st' := if cleared then Parser.clearCorpse st else st in
            Parser.Zone st' = Parser.Zone st
            /\ forall crumbs, trackBreadcrumb st' crumbs = trackBreadcrumb st crumbs).
  { intros [|]; cbv zeta; split; reflexivity. }
  destruct (Hst (kPressed && negb (lastKKey w))) as [Hzone Htrack]. cbv zeta in Hzone, Htrack.
  rewrite Hzone, Htrack.
  destruct (String.eqb_spec (Parser.Zone st) (CurrentZone w)) as [Heq|Hne];
    cbn [negb fst snd CurrentZone lastKKey Breadcrumbs]; repeat split.
  symmetry. exact Heq.
Qed.

Lemma step_trail ZoneFileMap MapDir w ev :
  (length (Breadcrumbs w) <= 500)%nat ->
  (length (Breadcrumbs (trailStep ZoneFileMap MapDir w ev)) <= 500)%nat
  /\ Forall (fun bc => In bc (Breadcrumbs w)
                       \/ exists cPressed kPressed st,
                            ev = Frame cPressed kPressed (Some st) /\ bc = crumbOf st)
            (Breadcrumbs (trailStep ZoneFileMap MapDir w ev)).
Proof.
  intros Hlen. destruct ev as [cPressed kPressed [st|]|]; cbn [trailStep].
  - assert (Hc : (length (if cPressed && negb (lastCKey w) then [] else Breadcrumbs w)
                  <= 500)%nat
                 /\ forall bc, In bc (if cPressed && negb (lastCKey w) then []
                                      else Breadcrumbs w) ->
                               In bc (Breadcrumbs w)).
    { destruct (cPressed && negb (lastCKey w)); cbn; split; try lia; tauto. }
    destruct Hc as [Hc1 Hc2].
    destruct (Update_engine ZoneFileMap MapDir cPressed kPressed st w) as (_ & _ & _ & Hcrumbs).
    cbv zeta in Hcrumbs. rewrite Hcrumbs.
    destruct (negb (String.eqb (Parser.Zone st) (CurrentZone w))).
    + split; [cbn; lia | constructor].
    + split; [apply track_length, Hc1|].
      eapply List.Forall_impl; [|apply track_from].
      intros bc [Hin|Hbc]; [left; apply Hc2, Hin|].
      right. exists cPressed, kPressed, st. split; [reflexivity | exact Hbc].
  - unfold Update. cbn [snd Breadcrumbs]. destruct (cPressed && negb (lastCKey w)).
    + split; [cbn; lia | constructor].
    + split; [exact Hlen|]. apply List.Forall_forall. intros bc Hin. left. exact Hin.
  - cbn [Breadcrumbs]. split; [cbn; lia | constructor].
Qed.

(** X25. Through any frames and uses of the menu entry that clears it, a
    trail of at most 500 points stays one, and each of its points was in it
    at the start or is the position of the player in one of the frames.
    After a frame with an engine the trail is empty exactly when the zone
    changed in this frame. *)
Theorem trail_bounded ZoneFileMap MapDir w evs :
  (length (Breadcrumbs w) <= 500)%nat ->
  let w' := fold_left (trailStep ZoneFileMap MapDir) evs w in
  (length (Breadcrumbs w') <= 500)%nat
  /\ Forall (fun bc => In bc (Breadcrumbs w)
                       \/ exists cPressed kPressed st,
                            In (Frame cPressed kPressed (Some st)) evs /\ bc = crumbOf st)
            (Breadcrumbs w')
  /\ (forall cPressed kPressed st,
        Breadcrumbs (snd (Update ZoneFileMap MapDir cPressed kPressed (Some st) w)) = []
        <-> Parser.Zone st <> CurrentZone w).
Proof.
  intros Hlen. cbv zeta. split; [|split].
  - revert w Hlen. induction evs as [|ev evs IH]; intros w Hlen; [exact Hlen|].
    cbn [fold_left]. apply IH. apply (step_trail ZoneFileMap MapDir w ev Hlen).
  - revert w Hlen. induction evs as [|ev evs IH]; intros w Hlen.
    + cbn. apply List.Forall_forall. intros bc Hin. left. exact Hin.
    + cbn [fold_left]. destruct (step_trail ZoneFileMap MapDir w ev Hlen) as [Hlen1 Hfrom].
      eapply List.Forall_impl; [|apply (IH _ Hlen1)].
      intros bc [Hin|(c & k & st & Hev & Hbc)].
      * rewrite List.Forall_forall in Hfrom.
        destruct (Hfrom bc Hin) as [Hold|(c' & k' & st' & Hev' & Hbc')]; [left; exact Hold|].
        right. exists c', k', st'. split; [left; exact Hev' | exact Hbc'].
      * right. exists c, k, st. split; [right; exact Hev | exact Hbc].
  - intros cPressed kPressed st.
    destruct (Update_engine ZoneFileMap MapDir cPressed kPressed st w) as (_ & _ & _ & Hcrumbs).
    cbv zeta in Hcrumbs. rewrite Hcrumbs.
    destruct (String.eqb_spec (Parser.Zone st) (CurrentZone w)) as [Heq|Hne]; cbn [negb].
    + split; [|contradiction]. intros Hnil. exfalso. exact (track_not_nil _ _ Hnil).
    + split; [intros _; exact Hne | reflexivity].
Qed.

(** One turn that is no death keeps the recorded corpse; the flag stays
    clear once it is, and it is cleared by a recovery line, by the K key
    going down and by the menu entry only. *)
Lemma appStep_corpse ZoneFileMap MapDir a ev :
  noDeath ev ->
  let a' := appStep ZoneFileMap MapDir a ev in
  Parser.CorpseX (stateOf a') = Parser.CorpseX (stateOf a)
  /\ Parser.CorpseY (stateOf a') = Parser.CorpseY (stateOf a)
  /\ Parser.CorpseZone (stateOf a') = Parser.CorpseZone (stateOf a)
  /\ Parser.HasCorpse (stateOf a')
     = Parser.HasCorpse (stateOf a) && negb (clearsCorpse (lastKKey (window a)) [ev])
  /\ lastKKey (window a')
     = match ev with Framed _ kPressed => kPressed | _ => lastKKey (window a) end.
Proof.
  intros Hev. cbv zeta. destruct ev as [line|cPressed kPressed|]; cbn [appStep clearsCorpse].
  - cbn [noDeath] in Hev. unfold stateOf. cbn [loop window].
    pose proof (EngineFacts.processLine_by_rule (loop a) line) as Hstep.
    cbv zeta in Hstep.
    destruct (ruleOf line).
    + destruct Hstep as (_ & HX & HY & HZ & HF).
      rewrite HX, HY, HZ, HF, andb_true_r. repeat split.
    + rewrite andb_true_r.
      destruct Hstep as [->|(newZone & _ & _ & ->)]; repeat split.
    + contradiction.
    + rewrite Hstep, andb_false_r. repeat split.
    + rewrite Hstep, andb_true_r. repeat split.
  - destruct (Update_engine ZoneFileMap MapDir cPressed kPressed (stateOf a) (window a))
      as (Hafter & _ & HK & _).
    cbv zeta in Hafter, HK.
    destruct (Update ZoneFileMap MapDir cPressed kPressed (Some (stateOf a)) (window a))
      as [after w1].
    cbn [fst snd] in Hafter, HK. subst after. unfold stateOf at 1 2 3 4.
    cbn [loop window withState Parser.engine Parser.CurrentState].
    rewrite orb_false_r.
    destruct (kPressed && negb (lastKKey (window a))); cbn;
      rewrite ?andb_true_r, ?andb_false_r; repeat split; exact HK.
  - destruct (Parser.HasCorpse (stateOf a)) eqn:Hflag.
    + unfold stateOf at 1 2 3 4. cbn. repeat split.
    + rewrite Hflag. repeat split.
Qed.

Lemma appRun_corpse ZoneFileMap MapDir evs : forall a,
  Forall noDeath evs ->
  let a' := fold_left (appStep ZoneFileMap MapDir) evs a in
  Parser.CorpseX (stateOf a') = Parser.CorpseX (stateOf a)
  /\ Parser.CorpseY (stateOf a') = Parser.CorpseY (stateOf a)
  /\ Parser.CorpseZone (stateOf a') = Parser.CorpseZone (stateOf a)
  /\ Parser.HasCorpse (stateOf a')
     = Parser.HasCorpse (stateOf a) && negb (clearsCorpse (lastKKey (window a)) evs).
Proof.
  induction evs as [|ev evs IH]; intros a Hall.
  - cbn. rewrite andb_true_r. repeat split.
  - inversion Hall as [|? ? Hev Hrest]; subst. cbn [fold_left].
    destruct (appStep_corpse ZoneFileMap MapDir a ev Hev) as (HX & HY & HZ & HF & HK).
    cbv zeta in HX, HY, HZ, HF, HK.
    destruct (IH (appStep ZoneFileMap MapDir a ev) Hrest) as (KX & KY & KZ & KF).
    cbv zeta in KX, KY, KZ, KF.
    rewrite KX, KY, KZ, KF, HX, HY, HZ, HF, HK.
    split; [reflexivity|]. split; [reflexivity|]. split; [reflexivity|].
    rewrite <- andb_assoc. f_equal. rewrite <- negb_orb. f_equal.
    destruct ev as [line|cPressed kPressed|]; cbn [clearsCorpse].
    + destruct (ruleOf line); reflexivity.
    + rewrite orb_false_r. reflexivity.
    + reflexivity.
Qed.

(** X26. After a line the death rule takes, and through any later lines
    but one the death rule takes, any frames and any uses of the menu, the
    engine keeps the corpse at the position and in the zone the player had
    at the death.  The corpse flag is set exactly when nothing cleared it
    since: no line the recovery rule takes, no frame in which the K key
    goes down, no use of the menu entry "Clear Corpse Marker".  After a
    frame the window is in the zone of the engine, and [Draw] shows the
    corpse marker exactly when the flag is still set and the player is in
    the zone of the death: zone changes hide the marker and do not lose
    it. *)
Theorem corpse_marker_zone ZoneFileMap MapDir a death evs cPressed kPressed :
  ruleOf death = DeathRule ->
  Forall noDeath evs ->
  let a0 := appStep ZoneFileMap MapDir a (Received death) in
  let a1 := fold_left (appStep ZoneFileMap MapDir) evs a0 in
  let a2 := appStep ZoneFileMap MapDir a1 (Framed cPressed kPressed) in
  let s0 := stateOf a0 in
  (Parser.CorpseX (stateOf a1), Parser.CorpseY (stateOf a1), Parser.CorpseZone (stateOf a1))
  = (Parser.X s0, Parser.Y s0, Parser.Zone s0)
  /\ Parser.HasCorpse (stateOf a1) = negb (clearsCorpse (lastKKey (window a)) evs)
  /\ CurrentZone (window a2) = Parser.Zone (stateOf a1)
  /\ corpseShown (Some (stateOf a2)) (CurrentZone (window a2))
     = negb (clearsCorpse (lastKKey (window a)) (evs ++ [Framed cPressed kPressed]))
       && String.eqb (Parser.Zone s0) (Parser.Zone (stateOf a1)).
Proof.
  intros Hdeath Hall. cbv zeta.
  set (a0 := appStep ZoneFileMap MapDir a (Received death)).
  set (a1 := fold_left (appStep ZoneFileMap MapDir) evs a0).
  set (a2 := appStep ZoneFileMap MapDir a1 (Framed cPressed kPressed)).
  assert (H0 : Parser.CorpseX (stateOf a0) = Parser.X (stateOf a0)
               /\ Parser.CorpseY (stateOf a0) = Parser.Y (stateOf a0)
               /\ Parser.CorpseZone (stateOf a0) = Parser.Zone (stateOf a0)
               /\ Parser.HasCorpse (stateOf a0) = true
               /\ lastKKey (window a0) = lastKKey (window a)).
  { subst a0. unfold stateOf. cbn [appStep loop window].
    pose proof (EngineFacts.processLine_by_rule (loop a) death) as Hstep.
    cbv zeta in Hstep. rewrite Hdeath in Hstep. rewrite Hstep. repeat split. }
  destruct H0 as (HX & HY & HZ & HF & HK).
  destruct (appRun_corpse ZoneFileMap MapDir evs a0 Hall) as (KX & KY & KZ & KF).
  cbv zeta in KX, KY, KZ, KF. fold a1 in KX, KY, KZ, KF.
  rewrite HF, HK in KF. cbn [andb] in KF.
  split; [rewrite KX, KY, KZ, HX, HY, HZ; reflexivity|].
  split; [exact KF|].
  assert (Hall2 : Forall noDeath (evs ++ [Framed cPressed kPressed])).
  { apply Forall_app. split; [exact Hall | constructor; [exact I | constructor]]. }
  destruct (appRun_corpse ZoneFileMap MapDir (evs ++ [Framed cPressed kPressed]) a0 Hall2)
    as (_ & _ & LZ & LF).
  cbv zeta in LZ, LF. rewrite fold_left_app in LZ, LF. cbn [fold_left] in LZ, LF.
  fold a1 in LZ, LF. fold a2 in LZ, LF. rewrite HF, HK in LF. cbn [andb] in LF.
  assert (Hzone : CurrentZone (window a2) = Parser.Zone (stateOf a1)).
  { subst a2. cbn [appStep].
    destruct (Update_engine ZoneFileMap MapDir cPressed kPressed (stateOf a1) (window a1))
      as (_ & Hcur & _).
    cbv zeta in Hcur.
    destruct (Update ZoneFileMap MapDir cPressed kPressed (Some (stateOf a1)) (window a1))
      as [after w1].
    cbn [window]. exact Hcur. }
  split; [exact Hzone|].
  unfold corpseShown. rewrite Hzone, LF, LZ, HZ. reflexivity.
Qed.

End WithLib.

(** *** The box the camera is fitted to *)

Lemma fit_fold activeZ range lines : forall seen acc,
  (let '(minX, maxX, minY, maxY, found) := acc in
   fitted (List.filter (visible activeZ range) seen) (minX, maxX, minY, maxY)
   /\ found = match List.filter (visible activeZ range) seen with
              | [] => false
              | _ => true
              end) ->
  let '(minX, maxX, minY, maxY, found) :=
    fold_left (fitStep activeZ range) lines acc in
  fitted (List.filter (visible activeZ range) (seen ++ lines)) (minX, maxX, minY, maxY)
  /\ found = match List.filter (visible activeZ range) (seen ++ lines) with
             | [] => false
             | _ => true
             end.
Proof.
  induction lines as [|line lines IH]; intros seen acc Hacc.
  - cbn [fold_left]. rewrite app_nil_r. exact Hacc.
  - cbn [fold_left].
    replace (seen ++ line :: lines) with ((seen ++ [line]) ++ lines)
      by (rewrite <- app_assoc; reflexivity).
    apply IH. destruct acc as [[[[minX maxX] minY] maxY] found].
    destruct Hacc as [(HminX & HmaxX & HminY & HmaxY) Hfound].
    rewrite List.filter_app. cbn [List.filter]. unfold fitStep.
    destruct (visible activeZ range line).
    + split.
      * unfold fitted. rewrite BoundsFacts.endpointsX_snoc, BoundsFacts.endpointsY_snoc.
        split; [|split; [|split]].
        -- apply BoundsFacts.isLeast_step, BoundsFacts.isLeast_step, HminX.
        -- apply BoundsFacts.isGreatest_step, BoundsFacts.isGreatest_step, HmaxX.
        -- apply BoundsFacts.isLeast_step, BoundsFacts.isLeast_step, HminY.
        -- apply BoundsFacts.isGreatest_step, BoundsFacts.isGreatest_step, HmaxY.
      * destruct (List.filter (visible activeZ range) seen); reflexivity.
    + rewrite app_nil_r. split; [|exact Hfound].
      unfold fitted. auto.
Qed.

(** X27. With the elevation filter on and an engine, the box [refitZoom]
    and [loadMapForZone] fit the camera to is the box of the segments shown
    (those with an end within the range of the active elevation), computed
    as [LoadZone] computes the box of the map: against the sentinels, and
    without the coordinates that are no numbers.  With the filter off, with
    no engine, or with no segment shown, it is the box of the map.  In the
    modes 1 and 2 the segments shown are those [Draw] strokes. *)
Theorem fit_covers ZLevelMode st ZLevelManual ZLevelRange data :
  let activeZ := if (ZLevelMode =? 1)%Z then Parser.Z st else ZLevelManual in
  let shown := List.filter (visible activeZ ZLevelRange) (Lines data) in
  let full := (MinX data, MaxX data, MinY data, MaxY data) in
  ((0 < ZLevelMode)%Z -> shown <> [] ->
   fitted shown (fitBounds ZLevelMode (Some st) ZLevelManual ZLevelRange data))
  /\ ((ZLevelMode <= 0)%Z \/ shown = [] ->
      fitBounds ZLevelMode (Some st) ZLevelManual ZLevelRange data = full)
  /\ fitBounds ZLevelMode None ZLevelManual ZLevelRange data = full
  /\ (ZLevelMode = 1%Z \/ ZLevelMode = 2%Z ->
      strokedLines ZLevelMode (Some st) ZLevelManual ZLevelRange data = shown).
Proof.
  intros activeZ shown full.
  assert (Hstroked : ZLevelMode = 1%Z \/ ZLevelMode = 2%Z ->
                     strokedLines ZLevelMode (Some st) ZLevelManual ZLevelRange data = shown).
  { unfold strokedLines, shown, activeZ. intros [->| ->]; reflexivity. }
  unfold fitBounds. fold activeZ. fold full.
  pose proof (fit_fold activeZ ZLevelRange (Lines data) []
                (99999, -99999, 99999, -99999, false)%float) as Hfold.
  cbn [app] in Hfold. fold shown in Hfold.
  destruct (fold_left (fitStep activeZ ZLevelRange) (Lines data) _)
    as [[[[minX maxX] minY] maxY] found].
  assert (H0 : fitted [] (99999, -99999, 99999, -99999)%float /\ false = false).
  { split; [|reflexivity]. unfold fitted, isLeast, isGreatest. cbn.
    repeat split; first [reflexivity | apply List.Forall_nil | (left; reflexivity)]. }
  destruct (Hfold H0) as [Hfit Hfound]. clear Hfold H0.
  split; [|split; [|split; [reflexivity | exact Hstroked]]].
  - intros Hmode Hshown. apply Z.ltb_lt in Hmode. rewrite Hmode.
    destruct shown; [contradiction|]. rewrite Hfound. exact Hfit.
  - intros [Hmode|Hshown].
    + apply Z.ltb_ge in Hmode. rewrite Hmode. reflexivity.
    + destruct (0 <? ZLevelMode)%Z; [|reflexivity].
      rewrite Hshown in Hfound. rewrite Hfound. reflexivity.
Qed.

(** *** The width of a menu *)

(** X28. A menu is at least 150 wide, and wide enough for the longest label
    and the longest hotkey side by side, seven units a byte, with sixteen
    units before, between and after them. *)
Theorem menu_fits items :
  (150 <= calculateMenuWidth items)%Z
  /\ (forall item other,
        In item items -> In other items ->
        (16 + 7 * Z.of_nat (String.length (Label item)) + 16
         + 7 * Z.of_nat (String.length (Hotkey other)) + 16
         <= calculateMenuWidth items)%Z).
Proof.
  unfold calculateMenuWidth.
  match goal with
  | |- context [fold_left ?f items ?a] =>
      assert (Hfold : forall items acc,
                let '(l0, h0) := acc in
                let '(l1, h1) := fold_left f items acc in
                (l0 <= l1 /\ h0 <= h1)%Z
                /\ (forall item, In item items ->
                      (Z.of_nat (String.length (Label item)) * 7 <= l1
                       /\ Z.of_nat (String.length (Hotkey item)) * 7 <= Z.max 0 h1)%Z))
  end.
  { clear. induction items as [|item items IH]; intros [l0 h0].
    - cbn. split; [lia|]. intros item [].
    - cbn [fold_left].
      set (l := if (l0 <? Z.of_nat (String.length (Label item)) * 7)%Z
                then (Z.of_nat (String.length (Label item)) * 7)%Z else l0).
      assert (Hl : (l0 <= l /\ Z.of_nat (String.length (Label item)) * 7 <= l)%Z).
      { subst l. destruct (Z.ltb_spec l0 (Z.of_nat (String.length (Label item)) * 7)); lia. }
      destruct (String.eqb_spec (Hotkey item) EmptyString) as [Hempty|Hkey]; cbn [negb].
      + specialize (IH (l, h0)). cbv beta iota in IH.
        destruct (fold_left _ items (l, h0)) as [l1 h1].
        destruct IH as [[Hl1 Hh1] Hin]. split; [lia|].
        intros it [<-|Hit]; [|apply Hin, Hit].
        rewrite Hempty. cbn. lia.
      + set (h := if (h0 <? Z.of_nat (String.length (Hotkey item)) * 7)%Z
                  then (Z.of_nat (String.length (Hotkey item)) * 7)%Z else h0).
        assert (Hh : (h0 <= h /\ Z.of_nat (String.length (Hotkey item)) * 7 <= h)%Z).
        { subst h. destruct (Z.ltb_spec h0 (Z.of_nat (String.length (Hotkey item)) * 7)); lia. }
        specialize (IH (l, h)). cbv beta iota in IH.
        destruct (fold_left _ items (l, h)) as [l1 h1].
        destruct IH as [[Hl1 Hh1] Hin]. split; [lia|].
        intros it [<-|Hit]; [lia | apply Hin, Hit]. }
  specialize (Hfold items (0, 0)%Z). cbv beta iota in Hfold.
  destruct (fold_left _ items (0%Z, 0%Z)) as [l1 h1].
  destruct Hfold as [[Hl1 Hh1] Hin].
  split.
  - destruct (Z.ltb_spec (16 + l1 + 16 + h1 + 16) 150); lia.
  - intros item other Hitem Hother.
    destruct (Hin item Hitem) as [Hlabel _]. destruct (Hin other Hother) as [_ Hkey].
    destruct (Z.ltb_spec (16 + l1 + 16 + h1 + 16) 150); lia.
Qed.

Lemma trail_bounded_witness :
  let st := Parser.CurrentState
              (Parser.ProcessLines (lib := StrConv.exampleLib) Parser.NewEngine
                 (Eqlog.NewReader "eq")
                 (map ParserSpec.entryOf ["You have entered The Nexus.";
                                          "Your Location is -5, -5, 0"])) in
  (length (Breadcrumbs
             (fold_left (trailStep (lib := StrConv.exampleLib) (fs := Examples.exampleFS)
                           MoreExamples.exampleConfig "maps")
                [Frame false false (Some st); Frame false true (Some st); ClearBreadcrumbs;
                 Frame true false (Some st)]
                NewTrail)) <= 500)%nat.
Proof.
  cbv zeta.
  apply (trail_bounded (lib := StrConv.exampleLib) (fs := Examples.exampleFS)).
  cbn. lia.
Defined.

Lemma corpse_marker_zone_witness :
  let step := appStep (lib := StrConv.exampleLib) (fs := Examples.exampleFS)
                MoreExamples.exampleConfig "maps" in
  let a := {| loop :=
                Parser.runLoop (lib := StrConv.exampleLib) Parser.NewEngine
                  (Eqlog.NewReader "eq")
                  (map ParserSpec.entryOf ["You have entered The Nexus.";
                                           "Your Location is -5, -5, 0"]);
              window := NewTrail |} in
  let a0 := step a (Received "You have been slain by a gnoll!") in
  let away := [Framed false false; Received "You have entered East Commonlands.";
               Framed false false; Received "Your Location is -9, -9, 0"] in
  let back := away ++ [Received "You have entered The Nexus."] in
  let key := back ++ [Framed false true] in
  let shown evs :=
    let a2 := step (fold_left step evs a0) (Framed false false) in
    corpseShown (Some (stateOf a2)) (CurrentZone (window a2)) in
  shown away = false /\ shown back = true /\ shown key = false
  /\ Parser.CorpseZone (stateOf (fold_left step key a0)) = "The Nexus".
Proof.
  cbv zeta.
  pose proof (corpse_marker_zone (lib := StrConv.exampleLib) (fs := Examples.exampleFS)
                MoreExamples.exampleConfig "maps") as H.
  set (a := {| loop :=
                 Parser.runLoop (lib := StrConv.exampleLib) Parser.NewEngine
                   (Eqlog.NewReader "eq")
                   (map ParserSpec.entryOf ["You have entered The Nexus.";
                                            "Your Location is -5, -5, 0"]);
               window := NewTrail |}) in *.
  assert (Hdeath : ruleOf "You have been slain by a gnoll!" = DeathRule)
    by (vm_compute; reflexivity).
  split; [|split; [|split]].
  - destruct (H a "You have been slain by a gnoll!"
                [Framed false false; Received "You have entered East Commonlands.";
                 Framed false false; Received "Your Location is -9, -9, 0"]
                false false Hdeath) as (_ & _ & _ & Hshown).
    + repeat constructor; vm_compute; discriminate.
    + cbv zeta in Hshown. rewrite Hshown. vm_compute. reflexivity.
  - destruct (H a "You have been slain by a gnoll!"
                ([Framed false false; Received "You have entered East Commonlands.";
                  Framed false false; Received "Your Location is -9, -9, 0"]
                 ++ [Received "You have entered The Nexus."])
                false false Hdeath) as (_ & _ & _ & Hshown).
    + repeat constructor; vm_compute; discriminate.
    + cbv zeta in Hshown. rewrite Hshown. vm_compute. reflexivity.
  - destruct (H a "You have been slain by a gnoll!"
                (([Framed false false; Received "You have entered East Commonlands.";
                   Framed false false; Received "Your Location is -9, -9, 0"]
                  ++ [Received "You have entered The Nexus."])
                 ++ [Framed false true])
                false false Hdeath) as (_ & _ & _ & Hshown).
    + repeat constructor; vm_compute; discriminate.
    + cbv zeta in Hshown. rewrite Hshown. vm_compute. reflexivity.
  - destruct (H a "You have been slain by a gnoll!"
                (([Framed false false; Received "You have entered East Commonlands.";
                   Framed false false; Received "Your Location is -9, -9, 0"]
                  ++ [Received "You have entered The Nexus."])
                 ++ [Framed false true])
                false false Hdeath) as (Hcorpse & _).
    + repeat constructor; vm_compute; discriminate.
    + cbv zeta in Hcorpse. apply (f_equal snd) in Hcorpse. cbn [snd] in Hcorpse.
      rewrite Hcorpse. vm_compute. reflexivity.
Defined.

Lemma fit_covers_witness :
  fitted (List.filter (visible 0 50) (Lines (Examples.loaded "Nexus")))
    (fitBounds 2 (Some (Parser.CurrentState Parser.NewEngine)) 0 50
       (Examples.loaded "Nexus")).
Proof.
  apply (fit_covers 2 (Parser.CurrentState Parser.NewEngine) 0 50 (Examples.loaded "Nexus")).
  - lia.
  - vm_compute. discriminate.
Defined.

End UiFacts.

(** ** The markers of the window *)

Module MarkerFacts.
Import GoStrings MoreSpec UiMarkers.

Lemma firstAt_some p markers before marker after :
  firstAt p markers = Some (before, marker, after) ->
  markers = before ++ marker :: after
  /\ p marker = true
  /\ Forall (fun m => p m = false) before.
Proof.
  revert before. induction markers as [|m rest IH]; intros before; [discriminate|].
  cbn [firstAt]. destruct (p m) eqn:Hm.
  - intros [= <- <- <-]. split; [reflexivity|]. split; [exact Hm | constructor].
  - destruct (firstAt p rest) as [[[b x] a]|]; [|discriminate].
    intros [= <- <- <-]. destruct (IH b eq_refl) as (-> & Hx & Hb).
    split; [reflexivity|]. split; [exact Hx|]. constructor; assumption.
Qed.

Lemma firstAt_none p markers :
  firstAt p markers = None <-> Forall (fun m => p m = false) markers.
Proof.
  induction markers as [|m rest IH]; cbn [firstAt].
  - split; [constructor | reflexivity].
  - destruct (p m) eqn:Hm.
    + split; [discriminate|]. intros H. inversion H; congruence.
    + destruct (firstAt p rest) as [[[b x] a]|].
      * split; [discriminate|]. intros H. inversion H as [|? ? _ Hrest]; subst.
        apply IH in Hrest. discriminate.
      * split; [|reflexivity]. intros _. constructor; [exact Hm|]. apply IH. reflexivity.
Qed.

Lemma wellFormed_insert markers zone stored :
  wellFormed markers ->
  stored <> [] ->
  Forall (fun marker => Marker.Label marker <> EmptyString) stored ->
  wellFormed (<[zone := stored]> markers).
Proof.
  intros Hwf Hne Hall z s Hz. apply lookup_insert_Some in Hz as [[_ <-]|[_ Hz]].
  - split; assumption.
  - exact (Hwf z s Hz).
Qed.

Lemma wellFormed_delete markers zone :
  wellFormed markers -> wellFormed (delete zone markers).
Proof.
  intros Hwf z s Hz. apply lookup_delete_Some in Hz as [_ Hz]. exact (Hwf z s Hz).
Qed.

(** X29. A marker store in which no zone has an empty list and no marker
    an empty label stays one under [placeMarker], [removeMarkerAt],
    [editMarkerAt] and [clearAllMarkers], whatever the user answers: a
    marker placed without a label gets the default one, an edit to the empty
    label keeps the old one, and the zone whose last marker is removed is
    deleted from the store. *)
Theorem markers_well_formed w :
  wellFormed (Markers w) ->
  (forall worldX worldY answer,
     wellFormed (Markers (placeMarker worldX worldY answer w)))
  /\ (forall worldX worldY confirmed,
        wellFormed (Markers (fst (removeMarkerAt worldX worldY confirmed w))))
  /\ (forall worldX worldY answer,
        wellFormed (Markers (editMarkerAt worldX worldY answer w)))
  /\ (forall confirmed, wellFormed (Markers (clearAllMarkers confirmed w))).
Proof.
  intros Hwf. split; [|split; [|split]].
  - intros worldX worldY answer. unfold placeMarker.
    destruct (String.eqb (CurrentZone w) EmptyString); [exact Hwf|].
    destruct answer as [label|]; [|exact Hwf].
    cbn [afterDialog Markers]. apply wellFormed_insert; [exact Hwf| |].
    + destruct (default [] (Markers w !! CurrentZone w)); discriminate.
    + apply Forall_app. split.
      * destruct (Markers w !! CurrentZone w) as [stored|] eqn:Hz; cbn [default];
          [exact (proj2 (Hwf _ _ Hz)) | constructor].
      * constructor; [|constructor]. cbn [Marker.Label].
        destruct (String.eqb_spec label EmptyString) as [_|Hne]; [discriminate | exact Hne].
  - intros worldX worldY confirmed. unfold removeMarkerAt.
    destruct (String.eqb (CurrentZone w) EmptyString); [exact Hwf|].
    destruct (Markers w !! CurrentZone w) as [stored|] eqn:Hz; [|exact Hwf].
    destruct (length stored =? 0)%nat; [exact Hwf|].
    destruct (firstAt (near w worldX worldY) stored) as [[[before marker] after]|] eqn:Hfirst;
      [|exact Hwf].
    destruct confirmed; cbn [negb fst afterDialog Markers]; [|exact Hwf].
    destruct (firstAt_some _ _ _ _ _ Hfirst) as (-> & _ & _).
    destruct (Hwf _ _ Hz) as [_ Hall].
    apply Forall_app in Hall as [Hb Ha]. inversion Ha as [|? ? _ Ha']; subst.
    destruct (before ++ after) as [|m rest] eqn:Hleft; cbn [length Nat.eqb].
    + intros z s Hs. apply lookup_delete_Some in Hs as [Hne Hs].
      rewrite lookup_insert_ne in Hs by exact Hne. exact (Hwf z s Hs).
    + apply wellFormed_insert; [exact Hwf | discriminate|].
      rewrite <- Hleft. apply Forall_app. split; assumption.
  - intros worldX worldY answer. unfold editMarkerAt.
    destruct (String.eqb (CurrentZone w) EmptyString); [exact Hwf|].
    destruct (Markers w !! CurrentZone w) as [stored|] eqn:Hz; [|exact Hwf].
    destruct (length stored =? 0)%nat; [exact Hwf|].
    destruct (firstAt (near w worldX worldY) stored) as [[[before marker] after]|] eqn:Hfirst;
      [|exact Hwf].
    destruct answer as [newLabel|]; [|exact Hwf].
    cbn [afterDialog Markers].
    destruct (firstAt_some _ _ _ _ _ Hfirst) as (-> & _ & _).
    destruct (Hwf _ _ Hz) as [_ Hall].
    apply Forall_app in Hall as [Hb Ha]. inversion Ha as [|? ? Hm Ha']; subst.
    apply wellFormed_insert; [exact Hwf | destruct before; discriminate|].
    apply Forall_app. split; [exact Hb|]. constructor; [|exact Ha'].
    cbn [Marker.Label].
    destruct (String.eqb_spec newLabel EmptyString) as [_|Hne]; [exact Hm | exact Hne].
  - intros confirmed. unfold clearAllMarkers.
    destruct (String.eqb (CurrentZone w) EmptyString); [exact Hwf|].
    destruct (Markers w !! CurrentZone w) as [[|m stored]|]; [exact Hwf| |exact Hwf].
    destruct confirmed; cbn [negb afterDialog Markers]; [|exact Hwf].
    apply wellFormed_delete, Hwf.
Qed.

(** X30. [removeMarkerAt] returns true exactly when the zone has a marker
    within reach of the click and the user confirms.  It then removes the
    first such marker of the zone and keeps the others in their order; the
    zone is deleted from the store when no marker is left.  When it returns
    false the store is as it was; the markers of the other zones are never
    touched. *)
Theorem marker_removed worldX worldY confirmed w :
  let w' := fst (removeMarkerAt worldX worldY confirmed w) in
  let removed := snd (removeMarkerAt worldX worldY confirmed w) in
  (removed = true
   <-> confirmed = true
       /\ CurrentZone w <> EmptyString
       /\ exists stored, Markers w !! CurrentZone w = Some stored
                         /\ existsb (near w worldX worldY) stored = true)
  /\ (removed = true ->
      exists before marker after,
        Markers w !! CurrentZone w = Some (before ++ marker :: after)
        /\ near w worldX worldY marker = true
        /\ Forall (fun m => near w worldX worldY m = false) before
        /\ Markers w' !! CurrentZone w
           = match before ++ after with
             | [] => None
             | remaining => Some remaining
             end)
  /\ (removed = false -> Markers w' = Markers w)
  /\ (forall zone, zone <> CurrentZone w -> Markers w' !! zone = Markers w !! zone).
Proof.
  cbv zeta. unfold removeMarkerAt.
  destruct (String.eqb_spec (CurrentZone w) EmptyString) as [Hzone|Hzone].
  { cbn [fst snd]. split; [split; [discriminate | tauto]|].
    split; [discriminate|]. split; reflexivity. }
  destruct (Markers w !! CurrentZone w) as [stored|] eqn:Hz.
  2:{ cbn [fst snd]. split.
      - split; [discriminate|]. intros (_ & _ & s & Hs & _). discriminate.
      - split; [discriminate|]. split; reflexivity. }
  assert (Hex : forall l, existsb (near w worldX worldY) l = true
                          <-> firstAt (near w worldX worldY) l <> None).
  { intros l. rewrite firstAt_none. induction l as [|m l IH]; cbn [existsb].
    - split; [discriminate|]. intros H. exfalso. apply H. constructor.
    - destruct (near w worldX worldY m) eqn:Hm; cbn [orb].
      + split; [|reflexivity]. intros _ H. inversion H; congruence.
      + rewrite IH. split; intros H H'; apply H.
        * inversion H'; assumption.
        * constructor; assumption. }
  destruct stored as [|m0 stored0] eqn:Hstored.
  { cbn [length Nat.eqb fst snd]. split.
    - split; [discriminate|]. intros (_ & _ & s & [= <-] & Hnear). discriminate.
    - split; [discriminate|]. split; reflexivity. }
  rewrite <- Hstored in *. replace (length stored =? 0)%nat with false
    by (rewrite Hstored; reflexivity).
  destruct (firstAt (near w worldX worldY) stored) as [[[before marker] after]|] eqn:Hfirst.
  2:{ cbn [fst snd]. split.
      - split; [discriminate|]. intros (_ & _ & s & [= <-] & Hnear).
        apply Hex in Hnear. contradiction.
      - split; [discriminate|]. split; reflexivity. }
  destruct (firstAt_some _ _ _ _ _ Hfirst) as (Hsplit & Hnear & Hbefore).
  destruct confirmed; cbn [negb fst snd afterDialog Markers].
  - split.
    + split; [|reflexivity]. intros _. split; [reflexivity|]. split; [exact Hzone|].
      exists stored. split; [reflexivity|]. apply Hex. rewrite Hfirst. discriminate.
    + split.
      * intros _. exists before, marker, after.
        split; [rewrite Hsplit; reflexivity|]. split; [exact Hnear|].
        split; [exact Hbefore|].
        destruct (before ++ after) as [|x remaining]; cbn [length Nat.eqb].
        -- apply lookup_delete_eq.
        -- apply lookup_insert_eq.
      * split; [discriminate|]. intros zone Hne.
        destruct (length (before ++ after) =? 0)%nat.
        -- rewrite lookup_delete_ne, lookup_insert_ne by (intros Heq; apply Hne; symmetry; exact Heq).
           reflexivity.
        -- rewrite lookup_insert_ne by (intros Heq; apply Hne; symmetry; exact Heq).
           reflexivity.
  - split.
    + split; [discriminate|]. intros (H & _). discriminate.
    + split; [discriminate|]. split; reflexivity.
Qed.

Lemma markers_well_formed_witness :
  wellFormed
    (Markers
       (fst (removeMarkerAt 10 10 true
               (placeMarker 10 10 (Some EmptyString)
                  {| CurrentZone := "The Nexus"; Zoom := 1; Markers := ∅;
                     markerColor := "red"; markerShape := "circle";
                     placingMarker := true; dialogOpen := false;
                     lastMousePressed := false |})))).
Proof.
  apply (markers_well_formed
           (placeMarker 10 10 (Some EmptyString)
              {| CurrentZone := "The Nexus"; Zoom := 1; Markers := ∅;
                 markerColor := "red"; markerShape := "circle";
                 placingMarker := true; dialogOpen := false;
                 lastMousePressed := false |})).
  apply (markers_well_formed
           {| CurrentZone := "The Nexus"; Zoom := 1; Markers := ∅;
              markerColor := "red"; markerShape := "circle";
              placingMarker := true; dialogOpen := false;
              lastMousePressed := false |}).
  intros zone stored Hz. cbn in Hz. rewrite lookup_empty in Hz. discriminate.
Defined.

Example place_then_remove :
  let w := {| CurrentZone := "The Nexus"; Zoom := 1; Markers := ∅;
              markerColor := "red"; markerShape := "circle";
              placingMarker := true; dialogOpen := false;
              lastMousePressed := false |} in
  Markers (placeMarker 10 10 (Some EmptyString) w) !! "The Nexus"
  = Some [{| Marker.X := 10; Marker.Y := 10; Marker.Label := "Marker 1";
             Marker.Color := "red"; Marker.Shape := "circle" |}]
  /\ Markers (fst (removeMarkerAt 10 10 true (placeMarker 10 10 (Some EmptyString) w)))
       !! "The Nexus" = None.
Proof. vm_compute. split; reflexivity. Qed.

End MarkerFacts.
